(** * tvdb_api: the lazily populated, bounded show cache and its lookups

    A shallow embedding of [tvdb_api.py]: the show container with its
    deferred eviction, the Show / Season / Episode mappings with their
    typed lookup errors and their substring search, and the session object
    [Tvdb] that resolves names, populates shows and answers lookups.

    Modelling conventions.
    - A Python [dict] is an association list with unique keys kept in
      insertion order (the iteration order of Python 3.7 and later):
      storing under a key that is present replaces the value in place,
      storing under a new key appends.
    - Subscript keys are integers or strings ([key]); field values are the
      JSON scalars null, integer and string ([value]).  Nested JSON values,
      floats and booleans are outside the model.  A string is the UTF-8
      encoding of a Python [str]; [isdigit] and [lower] decode it and
      follow the Unicode character database as [str.isdigit] and
      [str.lower] do.
    - An exception is the [Err] result of a computation in a state monad;
      the state reached when the exception was raised is kept, as the
      mutations of a Python object are.
    - [time.time()] is an integer count of time units. *)

From stdpp Require Import prelude strings pretty sorting.
From Stdlib Require Import ZArith Lia Ascii.

Set Default Proof Using "Type".
Open Scope Z_scope.

(** ** Values, keys and exceptions *)

Inductive value : Type :=
  | VNone
  | VInt (n : Z)
  | VStr (s : string).

Inductive key : Type :=
  | KInt (n : Z)
  | KStr (s : string).

#[global] Instance value_eq_dec : EqDecision value.
Proof. solve_decision. Defined.

#[global] Instance key_eq_dec : EqDecision key.
Proof. solve_decision. Defined.

(** The exceptions the modelled code can raise: four built-in ones and the
    classes imported from [tvdb_exceptions]. *)
Inductive exn : Type :=
  | KeyError
  | TypeError
  | AttributeError
  | ValueError
  | tvdb_error
  | tvdb_userabort
  | tvdb_shownotfound
  | tvdb_seasonnotfound
  | tvdb_episodenotfound
  | tvdb_attributenotfound.

#[global] Instance exn_eq_dec : EqDecision exn.
Proof. solve_decision. Defined.

Inductive result (A : Type) : Type :=
  | Ok (a : A)
  | Err (e : exn).
Arguments Ok {A} a.
Arguments Err {A} e.

(** ** A state monad with exceptions *)

Definition M (S A : Type) : Type := S → result A * S.

#[global] Instance M_ret {S} : MRet (M S) := λ A a s, (Ok a, s).

#[global] Instance M_bind {S} : MBind (M S) := λ A B f m s,
  match m s with
  | (Ok a, s') => f a s'
  | (Err e, s') => (Err e, s')
  end.

Definition raise {S A} (e : exn) : M S A := λ s, (Err e, s).
Definition gets {S A} (f : S → A) : M S A := λ s, (Ok (f s), s).
Definition modify {S} (f : S → S) : M S unit := λ s, (Ok tt, f s).

Definition of_result {S A} (r : result A) : M S A := λ s, (r, s).

(** [for x in l: body x] *)
Fixpoint for_ {S A} (l : list A) (body : A → M S unit) : M S unit :=
  match l with
  | [] => mret tt
  | x :: l' => body x;; for_ l' body
  end.

(** [try: m  except Exception: pass] *)
Definition try_ {S A} (m : M S A) : M S unit := λ s, (Ok tt, (m s).2).

(** ** Python dictionaries *)

Section pydict.
Context {K V : Type} `{EqDecision K}.

Definition pydict : Type := list (K * V).

Fixpoint dget (k : K) (d : pydict) : option V :=
  match d with
  | [] => None
  | (k', v) :: d' => if decide (k = k') then Some v else dget k d'
  end.

(** [k in d] *)
Definition dmem (k : K) (d : pydict) : bool :=
  match dget k d with Some _ => true | None => false end.

(** [d[k] = v] *)
Fixpoint dset (k : K) (v : V) (d : pydict) : pydict :=
  match d with
  | [] => [(k, v)]
  | (k', v') :: d' =>
      if decide (k = k') then (k', v) :: d' else (k', v') :: dset k v d'
  end.

(** [del d[k]] on a key that is present *)
Fixpoint ddel (k : K) (d : pydict) : pydict :=
  match d with
  | [] => []
  | (k', v') :: d' => if decide (k = k') then d' else (k', v') :: ddel k d'
  end.

Definition dkeys (d : pydict) : list K := d.*1.
Definition dvalues (d : pydict) : list V := d.*2.
End pydict.
Arguments pydict K V : clear implicits.

(** ** ShowContainer *)

Module ShowContainer.
Section container.
Context {V : Type}.

(** The [dict] the class extends, and its two attributes. *)
Record t : Type := mk {
  dict : pydict key V;
  _stack : list key;
  _lastgc : Z
}.

Definition __init__ (now : Z) : t :=
  {| dict := []; _stack := []; _lastgc := now |}.

Definition set_dict (f : pydict key V → pydict key V) (c : t) : t :=
  {| dict := f (dict c); _stack := _stack c; _lastgc := _lastgc c |}.
Definition set_stack (f : list key → list key) (c : t) : t :=
  {| dict := dict c; _stack := f (_stack c); _lastgc := _lastgc c |}.
Definition set_lastgc (z : Z) (c : t) : t :=
  {| dict := dict c; _stack := _stack c; _lastgc := z |}.

(** [del self[o]]: the inherited [dict.__delitem__]. *)
Definition __delitem__ (o : key) : M t unit :=
  present ← gets (λ c, dmem o (dict c));
  if present : bool then modify (set_dict (ddel o)) else raise KeyError.

(** [self[k]] and [k in self]: inherited from [dict]. *)
Definition getitem (k : key) : M t V :=
  r ← gets (λ c, dget k (dict c));
  match r with Some v => mret v | None => raise KeyError end.

Definition contains (k : key) (c : t) : bool := dmem k (dict c).

(** [__setitem__]; [t_check] and [t_mark] are the two clock readings, the
    one compared with [_lastgc] and the one stored after a sweep. *)
Definition __setitem__ (t_check t_mark : Z) (k : key) (v : V) : M t unit :=
  modify (set_stack (λ s, s ++ [k]));;
  lastgc ← gets _lastgc;
  (if bool_decide (t_check - lastgc > 20) then
     stack ← gets _stack;
     for_ (take (length stack - 100) stack) __delitem__;;
     modify (set_stack (λ s, drop (length s - 100) s));;
     modify (set_lastgc t_mark)
   else mret tt);;
  modify (set_dict (dset k v)).
End container.
Arguments t V : clear implicits.
End ShowContainer.

(** ** Text operations *)

#[global] Instance result_ret : MRet result := λ A a, Ok a.

#[global] Instance result_bind : MBind result := λ A B f r,
  match r with
  | Ok a => f a
  | Err e => Err e
  end.

(** A string holds the UTF-8 encoding of a Python [str].  [codepoints]
    decodes it one byte at a time: [need] continuation bytes are still
    due for the code point begun in [acc].  A byte that cannot stand where
    it does decodes to U+FFFD; the encodings of Python strings have none. *)
Definition lead (b : Z) : option Z * (nat * Z) :=
  if b <? 128 then (Some b, (0%nat, 0))
  else if b <? 194 then (Some 65533, (0%nat, 0))
  else if b <? 224 then (None, (1%nat, b - 192))
  else if b <? 240 then (None, (2%nat, b - 224))
  else if b <? 245 then (None, (3%nat, b - 240))
  else (Some 65533, (0%nat, 0)).

Fixpoint decode (need : nat) (acc : Z) (s : string) : list Z :=
  match s with
  | EmptyString =>
      match need with
      | O => []
      | S _ => [65533]
      end
  | String c s' =>
      let b := Z.of_N (N_of_ascii c) in
      match need with
      | S n =>
          if (128 <=? b) && (b <? 192)
          then match n with
               | O => (acc * 64 + (b - 128)) :: decode 0 0 s'
               | S _ => decode n (acc * 64 + (b - 128)) s'
               end
          else 65533 :: (let '(out, (need', acc')) := lead b in
                         option_list out ++ decode need' acc' s')
      | O =>
          let '(out, (need', acc')) := lead b in
          option_list out ++ decode need' acc' s'
      end
  end.

Definition codepoints (s : string) : list Z := decode 0 0 s.

Definition byte (b : Z) : ascii := ascii_of_N (Z.to_N b).

Definition utf8 (cp : Z) : string :=
  if cp <? 128 then String (byte cp) EmptyString
  else if cp <? 2048 then
    String (byte (192 + cp / 64)) (String (byte (128 + cp mod 64)) EmptyString)
  else if cp <? 65536 then
    String (byte (224 + cp / 4096))
      (String (byte (128 + (cp / 64) mod 64))
         (String (byte (128 + cp mod 64)) EmptyString))
  else
    String (byte (240 + cp / 262144))
      (String (byte (128 + (cp / 4096) mod 64))
         (String (byte (128 + (cp / 64) mod 64))
            (String (byte (128 + cp mod 64)) EmptyString))).

Definition encode (l : list Z) : string :=
  foldr (λ cp s, utf8 cp +:+ s) EmptyString l.

Definition in_ranges (cp : Z) (ranges : list (Z * Z)) : bool :=
  existsb (λ '(lo, hi), (lo <=? cp) && (cp <=? hi)) ranges.

(** The tables below are those of the Unicode character database,
    version 14.0, which CPython 3.11 carries. *)

(** The code points whose Numeric_Type is Digit or Decimal. *)
Definition digit_ranges : list (Z * Z) :=
  [(48, 57); (178, 179); (185, 185); (1632, 1641); (1776, 1785);
   (1984, 1993); (2406, 2415); (2534, 2543); (2662, 2671); (2790, 2799);
   (2918, 2927); (3046, 3055); (3174, 3183); (3302, 3311); (3430, 3439);
   (3558, 3567); (3664, 3673); (3792, 3801); (3872, 3881); (4160, 4169);
   (4240, 4249); (4969, 4977); (6112, 6121); (6160, 6169); (6470, 6479);
   (6608, 6618); (6784, 6793); (6800, 6809); (6992, 7001); (7088, 7097);
   (7232, 7241); (7248, 7257); (8304, 8304); (8308, 8313); (8320, 8329);
   (9312, 9320); (9332, 9340); (9352, 9360); (9450, 9450); (9461, 9469);
   (9471, 9471); (10102, 10110); (10112, 10120); (10122, 10130);
   (42528, 42537); (43216, 43225); (43264, 43273); (43472, 43481);
   (43504, 43513); (43600, 43609); (44016, 44025); (65296, 65305);
   (66720, 66729); (68160, 68163); (68912, 68921); (69216, 69224);
   (69714, 69722); (69734, 69743); (69872, 69881); (69942, 69951);
   (70096, 70105); (70384, 70393); (70736, 70745); (70864, 70873);
   (71248, 71257); (71360, 71369); (71472, 71481); (71904, 71913);
   (72016, 72025); (72784, 72793); (73040, 73049); (73120, 73129);
   (92768, 92777); (92864, 92873); (93008, 93017); (120782, 120831);
   (123200, 123209); (123632, 123641); (125264, 125273); (127232, 127242);
   (130032, 130041)].

(** [s.isdigit()]: at least one character, and all of them digits. *)
Definition isdigit (s : string) : bool :=
  match codepoints s with
  | [] => false
  | cps => forallb (λ cp, in_ranges cp digit_ranges) cps
  end.

(** The simple lower-case mappings: the code points from [lo] to [hi] in
    steps of [stride] map to themselves plus [delta]. *)
Definition lower_runs : list (Z * Z * Z * Z) :=
  [(65, 90, 1, 32); (192, 214, 1, 32); (216, 222, 1, 32); (256, 302, 2, 1);
   (306, 310, 2, 1); (313, 327, 2, 1); (330, 374, 2, 1);
   (376, 376, 1, (-121)); (377, 381, 2, 1); (385, 385, 1, 210);
   (386, 388, 2, 1); (390, 390, 1, 206); (391, 391, 1, 1);
   (393, 394, 1, 205); (395, 395, 1, 1); (398, 398, 1, 79);
   (399, 399, 1, 202); (400, 400, 1, 203); (401, 401, 1, 1);
   (403, 403, 1, 205); (404, 404, 1, 207); (406, 406, 1, 211);
   (407, 407, 1, 209); (408, 408, 1, 1); (412, 412, 1, 211);
   (413, 413, 1, 213); (415, 415, 1, 214); (416, 420, 2, 1);
   (422, 422, 1, 218); (423, 423, 1, 1); (425, 425, 1, 218);
   (428, 428, 1, 1); (430, 430, 1, 218); (431, 431, 1, 1);
   (433, 434, 1, 217); (435, 437, 2, 1); (439, 439, 1, 219);
   (440, 440, 1, 1); (444, 444, 1, 1); (452, 452, 1, 2); (453, 453, 1, 1);
   (455, 455, 1, 2); (456, 456, 1, 1); (458, 458, 1, 2); (459, 475, 2, 1);
   (478, 494, 2, 1); (497, 497, 1, 2); (498, 500, 2, 1);
   (502, 502, 1, (-97)); (503, 503, 1, (-56)); (504, 542, 2, 1);
   (544, 544, 1, (-130)); (546, 562, 2, 1); (570, 570, 1, 10795);
   (571, 571, 1, 1); (573, 573, 1, (-163)); (574, 574, 1, 10792);
   (577, 577, 1, 1); (579, 579, 1, (-195)); (580, 580, 1, 69);
   (581, 581, 1, 71); (582, 590, 2, 1); (880, 882, 2, 1); (886, 886, 1, 1);
   (895, 895, 1, 116); (902, 902, 1, 38); (904, 906, 1, 37);
   (908, 908, 1, 64); (910, 911, 1, 63); (913, 929, 1, 32);
   (932, 939, 1, 32); (975, 975, 1, 8); (984, 1006, 2, 1);
   (1012, 1012, 1, (-60)); (1015, 1015, 1, 1); (1017, 1017, 1, (-7));
   (1018, 1018, 1, 1); (1021, 1023, 1, (-130)); (1024, 1039, 1, 80);
   (1040, 1071, 1, 32); (1120, 1152, 2, 1); (1162, 1214, 2, 1);
   (1216, 1216, 1, 15); (1217, 1229, 2, 1); (1232, 1326, 2, 1);
   (1329, 1366, 1, 48); (4256, 4293, 1, 7264); (4295, 4295, 1, 7264);
   (4301, 4301, 1, 7264); (5024, 5103, 1, 38864); (5104, 5109, 1, 8);
   (7312, 7354, 1, (-3008)); (7357, 7359, 1, (-3008)); (7680, 7828, 2, 1);
   (7838, 7838, 1, (-7615)); (7840, 7934, 2, 1); (7944, 7951, 1, (-8));
   (7960, 7965, 1, (-8)); (7976, 7983, 1, (-8)); (7992, 7999, 1, (-8));
   (8008, 8013, 1, (-8)); (8025, 8031, 2, (-8)); (8040, 8047, 1, (-8));
   (8072, 8079, 1, (-8)); (8088, 8095, 1, (-8)); (8104, 8111, 1, (-8));
   (8120, 8121, 1, (-8)); (8122, 8123, 1, (-74)); (8124, 8124, 1, (-9));
   (8136, 8139, 1, (-86)); (8140, 8140, 1, (-9)); (8152, 8153, 1, (-8));
   (8154, 8155, 1, (-100)); (8168, 8169, 1, (-8)); (8170, 8171, 1, (-112));
   (8172, 8172, 1, (-7)); (8184, 8185, 1, (-128)); (8186, 8187, 1, (-126));
   (8188, 8188, 1, (-9)); (8486, 8486, 1, (-7517)); (8490, 8490, 1, (-8383));
   (8491, 8491, 1, (-8262)); (8498, 8498, 1, 28); (8544, 8559, 1, 16);
   (8579, 8579, 1, 1); (9398, 9423, 1, 26); (11264, 11311, 1, 48);
   (11360, 11360, 1, 1); (11362, 11362, 1, (-10743));
   (11363, 11363, 1, (-3814)); (11364, 11364, 1, (-10727));
   (11367, 11371, 2, 1); (11373, 11373, 1, (-10780));
   (11374, 11374, 1, (-10749)); (11375, 11375, 1, (-10783));
   (11376, 11376, 1, (-10782)); (11378, 11378, 1, 1); (11381, 11381, 1, 1);
   (11390, 11391, 1, (-10815)); (11392, 11490, 2, 1); (11499, 11501, 2, 1);
   (11506, 11506, 1, 1); (42560, 42604, 2, 1); (42624, 42650, 2, 1);
   (42786, 42798, 2, 1); (42802, 42862, 2, 1); (42873, 42875, 2, 1);
   (42877, 42877, 1, (-35332)); (42878, 42886, 2, 1); (42891, 42891, 1, 1);
   (42893, 42893, 1, (-42280)); (42896, 42898, 2, 1); (42902, 42920, 2, 1);
   (42922, 42922, 1, (-42308)); (42923, 42923, 1, (-42319));
   (42924, 42924, 1, (-42315)); (42925, 42925, 1, (-42305));
   (42926, 42926, 1, (-42308)); (42928, 42928, 1, (-42258));
   (42929, 42929, 1, (-42282)); (42930, 42930, 1, (-42261));
   (42931, 42931, 1, 928); (42932, 42946, 2, 1); (42948, 42948, 1, (-48));
   (42949, 42949, 1, (-42307)); (42950, 42950, 1, (-35384));
   (42951, 42953, 2, 1); (42960, 42960, 1, 1); (42966, 42968, 2, 1);
   (42997, 42997, 1, 1); (65313, 65338, 1, 32); (66560, 66599, 1, 40);
   (66736, 66771, 1, 40); (66928, 66938, 1, 39); (66940, 66954, 1, 39);
   (66956, 66962, 1, 39); (66964, 66965, 1, 39); (68736, 68786, 1, 64);
   (71840, 71871, 1, 32); (93760, 93791, 1, 32); (125184, 125217, 1, 34)].

(** The code points with the property Case_Ignorable, and those with the
    property Cased that are not Case_Ignorable. *)
Definition case_ignorable_ranges : list (Z * Z) :=
  [(39, 39); (46, 46); (58, 58); (94, 94); (96, 96); (168, 168); (173, 173);
   (175, 175); (180, 180); (183, 184); (688, 879); (884, 885); (890, 890);
   (900, 901); (903, 903); (1155, 1161); (1369, 1369); (1375, 1375);
   (1425, 1469); (1471, 1471); (1473, 1474); (1476, 1477); (1479, 1479);
   (1524, 1524); (1536, 1541); (1552, 1562); (1564, 1564); (1600, 1600);
   (1611, 1631); (1648, 1648); (1750, 1757); (1759, 1768); (1770, 1773);
   (1807, 1807); (1809, 1809); (1840, 1866); (1958, 1968); (2027, 2037);
   (2042, 2042); (2045, 2045); (2070, 2093); (2137, 2139); (2184, 2184);
   (2192, 2193); (2200, 2207); (2249, 2306); (2362, 2362); (2364, 2364);
   (2369, 2376); (2381, 2381); (2385, 2391); (2402, 2403); (2417, 2417);
   (2433, 2433); (2492, 2492); (2497, 2500); (2509, 2509); (2530, 2531);
   (2558, 2558); (2561, 2562); (2620, 2620); (2625, 2626); (2631, 2632);
   (2635, 2637); (2641, 2641); (2672, 2673); (2677, 2677); (2689, 2690);
   (2748, 2748); (2753, 2757); (2759, 2760); (2765, 2765); (2786, 2787);
   (2810, 2815); (2817, 2817); (2876, 2876); (2879, 2879); (2881, 2884);
   (2893, 2893); (2901, 2902); (2914, 2915); (2946, 2946); (3008, 3008);
   (3021, 3021); (3072, 3072); (3076, 3076); (3132, 3132); (3134, 3136);
   (3142, 3144); (3146, 3149); (3157, 3158); (3170, 3171); (3201, 3201);
   (3260, 3260); (3263, 3263); (3270, 3270); (3276, 3277); (3298, 3299);
   (3328, 3329); (3387, 3388); (3393, 3396); (3405, 3405); (3426, 3427);
   (3457, 3457); (3530, 3530); (3538, 3540); (3542, 3542); (3633, 3633);
   (3636, 3642); (3654, 3662); (3761, 3761); (3764, 3772); (3782, 3782);
   (3784, 3789); (3864, 3865); (3893, 3893); (3895, 3895); (3897, 3897);
   (3953, 3966); (3968, 3972); (3974, 3975); (3981, 3991); (3993, 4028);
   (4038, 4038); (4141, 4144); (4146, 4151); (4153, 4154); (4157, 4158);
   (4184, 4185); (4190, 4192); (4209, 4212); (4226, 4226); (4229, 4230);
   (4237, 4237); (4253, 4253); (4348, 4348); (4957, 4959); (5906, 5908);
   (5938, 5939); (5970, 5971); (6002, 6003); (6068, 6069); (6071, 6077);
   (6086, 6086); (6089, 6099); (6103, 6103); (6109, 6109); (6155, 6159);
   (6211, 6211); (6277, 6278); (6313, 6313); (6432, 6434); (6439, 6440);
   (6450, 6450); (6457, 6459); (6679, 6680); (6683, 6683); (6742, 6742);
   (6744, 6750); (6752, 6752); (6754, 6754); (6757, 6764); (6771, 6780);
   (6783, 6783); (6823, 6823); (6832, 6862); (6912, 6915); (6964, 6964);
   (6966, 6970); (6972, 6972); (6978, 6978); (7019, 7027); (7040, 7041);
   (7074, 7077); (7080, 7081); (7083, 7085); (7142, 7142); (7144, 7145);
   (7149, 7149); (7151, 7153); (7212, 7219); (7222, 7223); (7288, 7293);
   (7376, 7378); (7380, 7392); (7394, 7400); (7405, 7405); (7412, 7412);
   (7416, 7417); (7468, 7530); (7544, 7544); (7579, 7679); (8125, 8125);
   (8127, 8129); (8141, 8143); (8157, 8159); (8173, 8175); (8189, 8190);
   (8203, 8207); (8216, 8217); (8228, 8228); (8231, 8231); (8234, 8238);
   (8288, 8292); (8294, 8303); (8305, 8305); (8319, 8319); (8336, 8348);
   (8400, 8432); (11388, 11389); (11503, 11505); (11631, 11631);
   (11647, 11647); (11744, 11775); (11823, 11823); (12293, 12293);
   (12330, 12333); (12337, 12341); (12347, 12347); (12441, 12446);
   (12540, 12542); (40981, 40981); (42232, 42237); (42508, 42508);
   (42607, 42610); (42612, 42621); (42623, 42623); (42652, 42655);
   (42736, 42737); (42752, 42785); (42864, 42864); (42888, 42890);
   (42994, 42996); (43000, 43001); (43010, 43010); (43014, 43014);
   (43019, 43019); (43045, 43046); (43052, 43052); (43204, 43205);
   (43232, 43249); (43263, 43263); (43302, 43309); (43335, 43345);
   (43392, 43394); (43443, 43443); (43446, 43449); (43452, 43453);
   (43471, 43471); (43493, 43494); (43561, 43566); (43569, 43570);
   (43573, 43574); (43587, 43587); (43596, 43596); (43632, 43632);
   (43644, 43644); (43696, 43696); (43698, 43700); (43703, 43704);
   (43710, 43711); (43713, 43713); (43741, 43741); (43756, 43757);
   (43763, 43764); (43766, 43766); (43867, 43871); (43881, 43883);
   (44005, 44005); (44008, 44008); (44013, 44013); (64286, 64286);
   (64434, 64450); (65024, 65039); (65043, 65043); (65056, 65071);
   (65106, 65106); (65109, 65109); (65279, 65279); (65287, 65287);
   (65294, 65294); (65306, 65306); (65342, 65342); (65344, 65344);
   (65392, 65392); (65438, 65439); (65507, 65507); (65529, 65531);
   (66045, 66045); (66272, 66272); (66422, 66426); (67456, 67461);
   (67463, 67504); (67506, 67514); (68097, 68099); (68101, 68102);
   (68108, 68111); (68152, 68154); (68159, 68159); (68325, 68326);
   (68900, 68903); (69291, 69292); (69446, 69456); (69506, 69509);
   (69633, 69633); (69688, 69702); (69744, 69744); (69747, 69748);
   (69759, 69761); (69811, 69814); (69817, 69818); (69821, 69821);
   (69826, 69826); (69837, 69837); (69888, 69890); (69927, 69931);
   (69933, 69940); (70003, 70003); (70016, 70017); (70070, 70078);
   (70089, 70092); (70095, 70095); (70191, 70193); (70196, 70196);
   (70198, 70199); (70206, 70206); (70367, 70367); (70371, 70378);
   (70400, 70401); (70459, 70460); (70464, 70464); (70502, 70508);
   (70512, 70516); (70712, 70719); (70722, 70724); (70726, 70726);
   (70750, 70750); (70835, 70840); (70842, 70842); (70847, 70848);
   (70850, 70851); (71090, 71093); (71100, 71101); (71103, 71104);
   (71132, 71133); (71219, 71226); (71229, 71229); (71231, 71232);
   (71339, 71339); (71341, 71341); (71344, 71349); (71351, 71351);
   (71453, 71455); (71458, 71461); (71463, 71467); (71727, 71735);
   (71737, 71738); (71995, 71996); (71998, 71998); (72003, 72003);
   (72148, 72151); (72154, 72155); (72160, 72160); (72193, 72202);
   (72243, 72248); (72251, 72254); (72263, 72263); (72273, 72278);
   (72281, 72283); (72330, 72342); (72344, 72345); (72752, 72758);
   (72760, 72765); (72767, 72767); (72850, 72871); (72874, 72880);
   (72882, 72883); (72885, 72886); (73009, 73014); (73018, 73018);
   (73020, 73021); (73023, 73029); (73031, 73031); (73104, 73105);
   (73109, 73109); (73111, 73111); (73459, 73460); (78896, 78904);
   (92912, 92916); (92976, 92982); (92992, 92995); (94031, 94031);
   (94095, 94111); (94176, 94177); (94179, 94180); (110576, 110579);
   (110581, 110587); (110589, 110590); (113821, 113822); (113824, 113827);
   (118528, 118573); (118576, 118598); (119143, 119145); (119155, 119170);
   (119173, 119179); (119210, 119213); (119362, 119364); (121344, 121398);
   (121403, 121452); (121461, 121461); (121476, 121476); (121499, 121503);
   (121505, 121519); (122880, 122886); (122888, 122904); (122907, 122913);
   (122915, 122916); (122918, 122922); (123184, 123197); (123566, 123566);
   (123628, 123631); (125136, 125142); (125252, 125259); (127995, 127999);
   (917505, 917505); (917536, 917631); (917760, 917999)].

Definition cased_ranges : list (Z * Z) :=
  [(65, 90); (97, 122); (170, 170); (181, 181); (186, 186); (192, 214);
   (216, 246); (248, 442); (444, 447); (452, 659); (661, 687); (880, 883);
   (886, 887); (891, 893); (895, 895); (902, 902); (904, 906); (908, 908);
   (910, 929); (931, 1013); (1015, 1153); (1162, 1327); (1329, 1366);
   (1376, 1416); (4256, 4293); (4295, 4295); (4301, 4301); (4304, 4346);
   (4349, 4351); (5024, 5109); (5112, 5117); (7296, 7304); (7312, 7354);
   (7357, 7359); (7424, 7467); (7531, 7543); (7545, 7578); (7680, 7957);
   (7960, 7965); (7968, 8005); (8008, 8013); (8016, 8023); (8025, 8025);
   (8027, 8027); (8029, 8029); (8031, 8061); (8064, 8116); (8118, 8124);
   (8126, 8126); (8130, 8132); (8134, 8140); (8144, 8147); (8150, 8155);
   (8160, 8172); (8178, 8180); (8182, 8188); (8450, 8450); (8455, 8455);
   (8458, 8467); (8469, 8469); (8473, 8477); (8484, 8484); (8486, 8486);
   (8488, 8488); (8490, 8493); (8495, 8500); (8505, 8505); (8508, 8511);
   (8517, 8521); (8526, 8526); (8544, 8575); (8579, 8580); (9398, 9449);
   (11264, 11387); (11390, 11492); (11499, 11502); (11506, 11507);
   (11520, 11557); (11559, 11559); (11565, 11565); (42560, 42605);
   (42624, 42651); (42786, 42863); (42865, 42887); (42891, 42894);
   (42896, 42954); (42960, 42961); (42963, 42963); (42965, 42969);
   (42997, 42998); (43002, 43002); (43824, 43866); (43872, 43880);
   (43888, 43967); (64256, 64262); (64275, 64279); (65313, 65338);
   (65345, 65370); (66560, 66639); (66736, 66771); (66776, 66811);
   (66928, 66938); (66940, 66954); (66956, 66962); (66964, 66965);
   (66967, 66977); (66979, 66993); (66995, 67001); (67003, 67004);
   (68736, 68786); (68800, 68850); (71840, 71903); (93760, 93823);
   (119808, 119892); (119894, 119964); (119966, 119967); (119970, 119970);
   (119973, 119974); (119977, 119980); (119982, 119993); (119995, 119995);
   (119997, 120003); (120005, 120069); (120071, 120074); (120077, 120084);
   (120086, 120092); (120094, 120121); (120123, 120126); (120128, 120132);
   (120134, 120134); (120138, 120144); (120146, 120485); (120488, 120512);
   (120514, 120538); (120540, 120570); (120572, 120596); (120598, 120628);
   (120630, 120654); (120656, 120686); (120688, 120712); (120714, 120744);
   (120746, 120770); (120772, 120779); (122624, 122633); (122635, 122654);
   (125184, 125251); (127280, 127305); (127312, 127337); (127344, 127369)].

(** The lower case of one code point other than capital sigma; U+0130
    alone maps to two code points. *)
Definition lower_cp (cp : Z) : list Z :=
  if cp =? 304 then [105; 775]
  else
    match List.find (λ '(lo, hi, stride, _),
                  (lo <=? cp) && (cp <=? hi) && ((cp - lo) mod stride =? 0))
               lower_runs with
    | Some (_, _, _, delta) => [cp + delta]
    | None => [cp]
    end.

(** Whether the first code point of [l] that is not case-ignorable is
    cased. *)
Fixpoint cased_follows (l : list Z) : bool :=
  match l with
  | [] => false
  | cp :: rest =>
      if in_ranges cp case_ignorable_ranges then cased_follows rest
      else in_ranges cp cased_ranges
  end.

(** Capital sigma, U+03A3, becomes the final form U+03C2 when a cased
    letter precedes it and none follows, case-ignorable code points
    apart, and U+03C3 otherwise.  [before] tells whether the nearest code
    point before [l] that is not case-ignorable is cased. *)
Fixpoint lower_from (before : bool) (l : list Z) : list Z :=
  match l with
  | [] => []
  | cp :: rest =>
      (if cp =? 931
       then [if before && negb (cased_follows rest) then 962 else 963]
       else lower_cp cp)
      ++ lower_from (if in_ranges cp case_ignorable_ranges then before
                     else in_ranges cp cased_ranges) rest
  end.

(** [s.lower()] *)
Definition lower (s : string) : string :=
  encode (lower_from false (codepoints s)).

(** [s.find(sub)]: the first index at which [sub] occurs in [s], or -1.
    The index counts bytes of the encoding; the code only compares it with
    -1, and a string occurs in another exactly when its encoding occurs in
    the encoding of the other. *)
Fixpoint find_from (i : Z) (s sub : string) : Z :=
  if String.prefix sub s then i
  else match s with
       | EmptyString => -1
       | String _ s' => find_from (i + 1) s' sub
       end.

Definition find (s sub : string) : Z := find_from 0 s sub.

(** [text_type(v)] *)
Definition text_type (v : value) : string :=
  match v with
  | VNone => "None"
  | VInt n => pretty n
  | VStr s => s
  end.

Definition text_type_key (k : key) : string :=
  match k with
  | KInt n => pretty n
  | KStr s => s
  end.

(** ** Episode *)

Module Episode.

(** The [dict] of the episode's fields; the [season] back-reference is
    used by no modelled operation and is left out. *)
Definition t : Type := pydict key value.

Definition __init__ : t := [].

Definition __getitem__ (self : t) (k : key) : result value :=
  match dget k self with
  | Some v => Ok v
  | None => Err tvdb_attributenotfound
  end.

(** One pass of the loop of [search]: [true] when this item makes the
    method return [self]. *)
Definition hit (term : string) (k : option key) (item : key * value) : bool :=
  let cur_key := text_type_key item.1 in
  let cur_value := lower (text_type item.2) in
  if match k with
     | None => false
     | Some (KStr s) => bool_decide (cur_key ≠ s)
     | Some (KInt _) => true
     end
  then false
  else bool_decide (find cur_value term > -1).

Fixpoint search_items (term : string) (k : option key) (items : list (key * value))
    (self : t) : option t :=
  match items with
  | [] => None
  | item :: rest =>
      if hit term k item then Some self else search_items term k rest self
  end.

(** [search]: the episode itself when a field matches, [None] otherwise. *)
Definition search (term : value) (k : option key) (self : t) : result (option t) :=
  match term with
  | VNone => Err TypeError
  | _ => Ok (search_items (lower (text_type term)) k self self)
  end.

End Episode.

(** ** Season *)

Module Season.

Definition t : Type := pydict key Episode.t.

Definition __init__ : t := [].

Definition __getitem__ (self : t) (episode_number : key) : result Episode.t :=
  match dget episode_number self with
  | None => Err tvdb_episodenotfound
  | Some ep => Ok ep
  end.

Fixpoint search_values (term : value) (k : option key) (eps : list Episode.t)
    (results : list Episode.t) : result (list Episode.t) :=
  match eps with
  | [] => Ok results
  | ep :: rest =>
      searchresult ← Episode.search term k ep;
      search_values term k rest
        match searchresult with
        | Some r => results ++ [r]
        | None => results
        end
  end.

Definition search (term : value) (k : option key) (self : t) : result (list Episode.t) :=
  search_values term k (dvalues self) [].

End Season.

(** ** Show *)

Definition Actor : Type := pydict key value.
Definition Actors : Type := list Actor.
Definition Banners : Type :=
  pydict value (pydict value (pydict value (pydict string value))).

(** What [Show.data] holds: a field of the series document, or the
    processed actors or banners. *)
Inductive datum : Type :=
  | DValue (v : value)
  | DActors (a : Actors)
  | DBanners (b : Banners).

Module Show.

(** The [dict] of seasons the class extends, and its [data] attribute. *)
Record t : Type := mk {
  seasons : pydict key Season.t;
  data : pydict key datum
}.

Definition __init__ : t := {| seasons := []; data := [] |}.

Definition set_seasons (f : pydict key Season.t → pydict key Season.t) (sh : t) : t :=
  {| seasons := f (seasons sh); data := data sh |}.
Definition set_data (f : pydict key datum → pydict key datum) (sh : t) : t :=
  {| seasons := seasons sh; data := f (data sh) |}.

(** What a subscript on a show returns. *)
Inductive item : Type :=
  | ISeason (s : Season.t)
  | IData (d : datum).

(** [isinstance(key, int) or key.isdigit()] *)
Definition int_like (k : key) : bool :=
  match k with
  | KInt _ => true
  | KStr s => isdigit s
  end.

Definition __getitem__ (self : t) (k : key) : result item :=
  match dget k (seasons self) with
  | Some s => Ok (ISeason s)
  | None =>
      match dget k (data self) with
      | Some d => Ok (IData d)
      | None =>
          if int_like k then Err tvdb_seasonnotfound
          else Err tvdb_attributenotfound
      end
  end.

Fixpoint search_values (term : value) (k : option key) (ss : list Season.t)
    (results : list Episode.t) : result (list Episode.t) :=
  match ss with
  | [] => Ok results
  | cur_season :: rest =>
      searchresult ← Season.search term k cur_season;
      search_values term k rest
        (if bool_decide (length searchresult ≠ 0%nat) then results ++ searchresult
         else results)
  end.

Definition search (term : value) (k : option key) (self : t) : result (list Episode.t) :=
  search_values term k (dvalues (seasons self)) [].

Definition airedOn (date : value) (self : t) : result (list Episode.t) :=
  ret ← search (VStr (text_type date)) (Some (KStr "firstAired")) self;
  if bool_decide (length ret = 0%nat) then Err tvdb_episodenotfound else Ok ret.

End Show.

(** ** The remote API and the user interface *)

(** One candidate of the series search.  The code subscripts it with
    ['id'] and ['seriesName']; the record makes both present. *)
Record Series : Type := mkSeries {
  series_id : key;
  series_name : value;
  series_fields : pydict key value
}.

(** The class [_getSeries] instantiates to choose among the candidates. *)
Inductive ui : Type := CustomUI | BaseUI | ConsoleUI.

(** What [_getetsrc] is asked for. *)
Inductive request : Type :=
  | GetSeries (name : string)
  | SeriesInfo (sid : key)
  | SeriesBanner (sid : key)
  | SeriesBannerInfo (sid : key) (keyType : key)
  | ActorsInfo (sid : key)
  | EpInfo (sid : key).

#[global] Instance request_eq_dec : EqDecision request.
Proof. solve_decision. Defined.

(** The collaborators the module calls but does not define: for each
    request the [data] member of the reply, following pages included
    ([None] when the reply has none), and [selectSeries] of [tvdb_ui]. *)
Record World : Type := mkWorld {
  getSeries_data : string → option (list Series);
  seriesInfo_data : key → option (pydict key value);
  seriesBanner_data : key → option (list key);
  seriesBannerInfo_data : key → key → option (list (pydict key value));
  actorsInfo_data : key → option (list (pydict key value));
  epInfo_data : key → option (list (pydict key value));
  selectSeries : ui → list Series → result Series
}.

(** [d.get(k)] *)
Definition dict_get {K} `{EqDecision K} (k : K) (d : pydict K value) : value :=
  default VNone (dget k d).

(** [d[k]] on a plain [dict] *)
Definition dict_getitem {K V} `{EqDecision K} (k : K) (d : pydict K V) : result V :=
  match dget k d with
  | Some v => Ok v
  | None => Err KeyError
  end.

(** [s.endswith(suffix)] *)
Definition endswith (s suffix : string) : bool :=
  let n := String.length s in
  let m := String.length suffix in
  (m <=? n)%nat && bool_decide (String.substring (n - m) m s = suffix).

(** [self.config['url_artworkPrefix'] % v] *)
Definition url_artworkPrefix (v : value) : value :=
  VStr ("http://thetvdb.com/banners/" +:+ text_type v).

(** A season or episode number as a subscript; [None] for Python's [None]. *)
Definition key_of (v : value) : option key :=
  match v with
  | VNone => None
  | VInt n => Some (KInt n)
  | VStr s => Some (KStr s)
  end.

Definition valid_languages : list string :=
  ["da"; "fi"; "nl"; "de"; "it"; "es"; "fr"; "pl"; "hu"; "el"; "tr";
   "ru"; "he"; "ja"; "pt"; "zh"; "cs"; "sl"; "hr"; "ko"; "en"; "sv";
   "no"]%string.

Definition langabbv_to_id : pydict string Z :=
  [("el", 20); ("en", 7); ("zh", 27); ("it", 15); ("cs", 28); ("es", 16);
   ("ru", 22); ("nl", 13); ("pt", 26); ("no", 9); ("tr", 21); ("pl", 18);
   ("fr", 17); ("hr", 31); ("de", 14); ("da", 10); ("fi", 11); ("hu", 19);
   ("ja", 25); ("he", 24); ("ko", 32); ("sv", 8); ("sl", 30)]%string.

(** [for x in l: acc = body acc x], for a loop that updates a local *)
Fixpoint fold_ {S A B} (l : list A) (acc : B) (body : B → A → M S B) : M S B :=
  match l with
  | [] => mret acc
  | x :: l' => acc' ← body acc x; fold_ l' acc' body
  end.

Fixpoint fold_result {A B} (l : list A) (acc : B) (body : B → A → result B) : result B :=
  match l with
  | [] => Ok acc
  | x :: l' => acc' ← body acc x; fold_result l' acc' body
  end.

(** ** Tvdb *)

Module Tvdb.

Record Config : Type := mkConfig {
  custom_ui : bool;
  interactive : bool;
  select_first : bool;
  banners_enabled : bool;
  actors_enabled : bool;
  language : option string;
  dvdorder : bool
}.

(** The session: the attributes [shows], [corrections] and [config]; the
    clock [time.time()] reads, which the environment advances between
    calls; and the requests sent so far, oldest first. *)
Record t : Type := mk {
  shows : ShowContainer.t Show.t;
  corrections : pydict string key;
  config : Config;
  now : Z;
  requests : list request
}.

Definition set_shows (f : ShowContainer.t Show.t → ShowContainer.t Show.t) (st : t) : t :=
  {| shows := f (shows st); corrections := corrections st; config := config st;
     now := now st; requests := requests st |}.
Definition set_corrections (f : pydict string key → pydict string key) (st : t) : t :=
  {| shows := shows st; corrections := f (corrections st); config := config st;
     now := now st; requests := requests st |}.
Definition set_requests (f : list request → list request) (st : t) : t :=
  {| shows := shows st; corrections := corrections st; config := config st;
     now := now st; requests := f (requests st) |}.
Definition set_now (z : Z) (st : t) : t :=
  {| shows := shows st; corrections := corrections st; config := config st;
     now := z; requests := requests st |}.

(** [__init__], without the transport set-up.  The module-level
    [lastTimeout] is never assigned, so its check never raises. *)
Definition __init__ (clock : Z) (interactive select_first banners actors custom_ui : bool)
    (language : option string) (dvdorder : bool) : result t :=
  lang ← match language with
         | None => Ok "en"%string
         | Some l => if bool_decide (l ∈ valid_languages) then Ok l else Err ValueError
         end;
  Ok {| shows := ShowContainer.__init__ clock;
        corrections := [];
        config := {| custom_ui := custom_ui; interactive := interactive;
                     select_first := select_first; banners_enabled := banners;
                     actors_enabled := actors; language := Some lang;
                     dvdorder := dvdorder |};
        now := clock;
        requests := [] |}.

(** An operation of the container run on [self.shows]. *)
Definition on_shows {A} (m : M (ShowContainer.t Show.t) A) : M t A := λ st,
  let '(r, c) := m (shows st) in (r, set_shows (λ _, c) st).

(** [self.shows[sid] = v] *)
Definition shows_setitem (sid : key) (v : Show.t) : M t unit :=
  clock ← gets now;
  on_shows (ShowContainer.__setitem__ clock clock sid v).

(** The objects [self.shows[sid]], [self.shows[sid][seas]] and
    [self.shows[sid][seas][ep]], and their mutation in place.  [_setItem]
    subscripts a show with a season number only after it made the season;
    were the subscript to yield a metadata value instead, the model stops
    with [TypeError] rather than follow a subscript into that value. *)
Definition show_ref (sid : key) : M t Show.t :=
  on_shows (ShowContainer.getitem sid).

Definition show_mutate (sid : key) (f : Show.t → Show.t) : M t unit :=
  sh ← show_ref sid;
  modify (set_shows (ShowContainer.set_dict (dset sid (f sh)))).

Definition season_ref (sid seas : key) : M t Season.t :=
  sh ← show_ref sid;
  match Show.__getitem__ sh seas with
  | Ok (Show.ISeason se) => mret se
  | Ok (Show.IData _) => raise TypeError
  | Err e => raise e
  end.

Definition season_mutate (sid seas : key) (f : Season.t → Season.t) : M t unit :=
  se ← season_ref sid seas;
  show_mutate sid (Show.set_seasons (dset seas (f se))).

Definition episode_ref (sid seas ep : key) : M t Episode.t :=
  se ← season_ref sid seas;
  of_result (Season.__getitem__ se ep).

Definition episode_mutate (sid seas ep : key) (f : Episode.t → Episode.t) : M t unit :=
  e ← episode_ref sid seas ep;
  season_mutate sid seas (dset ep (f e)).

(** [sid in self.shows] *)
Definition resident (sid : key) (st : t) : bool :=
  ShowContainer.contains sid (shows st).

(** The first three statements of [_setItem]: create the show, the season
    and the episode that are missing. *)
Definition _setItem_ensure (sid seas ep : key) : M t unit :=
  present ← gets (resident sid);
  (if present : bool then mret tt else shows_setitem sid Show.__init__);;
  sh ← show_ref sid;
  (if dmem seas (Show.seasons sh) then mret tt
   else show_mutate sid (Show.set_seasons (dset seas Season.__init__)));;
  se ← season_ref sid seas;
  (if dmem ep se then mret tt
   else season_mutate sid seas (dset ep Episode.__init__)).

Definition _setItem (sid seas ep attrib : key) (v : value) : M t unit :=
  _setItem_ensure sid seas ep;;
  episode_mutate sid seas ep (dset attrib v).

Definition _setShowData (sid k : key) (v : datum) : M t unit :=
  present ← gets (resident sid);
  (if present : bool then mret tt else shows_setitem sid Show.__init__);;
  show_mutate sid (Show.set_data (dset k v)).

(** [_getetsrc]: the request is sent and the reply's data returned. *)
Definition _getetsrc {A} (rq : request) (reply : A) : M t A :=
  modify (set_requests (λ l, l ++ [rq]));;
  mret reply.

Section session.
Context (w : World).

Definition search (series : string) : M t (list Series) :=
  seriesEt ← _getetsrc (GetSeries series) (getSeries_data w series);
  match seriesEt with
  | None | Some [] => raise tvdb_shownotfound
  | Some found =>
      fold_ found [] (λ allSeries series,
        lang ← gets (λ st, language (config st));
        lid ← of_result (match lang with
                         | Some l => dict_getitem l langabbv_to_id
                         | None => Err KeyError
                         end);
        mret (allSeries ++
              [{| series_id := series_id series;
                  series_name := series_name series;
                  series_fields := dset (KStr "lid") (VInt lid) (series_fields series) |}]))
  end.

Definition _getSeries (series : string) : M t Series :=
  allSeries ← search series;
  cfg ← gets config;
  let ui := if custom_ui cfg then CustomUI
            else if negb (interactive cfg) then BaseUI else ConsoleUI in
  of_result (selectSeries w ui allSeries).

(** The inner loop of [_parseBanners] over a snapshot of the entry. *)
Definition banner_paths (items : list (string * value))
    (entry : pydict string value) : pydict string value :=
  foldl (λ entry '(k, v),
           if endswith k "path" then dset ("_" +:+ k) (url_artworkPrefix v) entry
           else entry)
        entry items.

Definition banner_entry (banners : Banners) (banner_info : pydict key value)
    : result Banners :=
  let bid := dict_get (KStr "id") banner_info in
  let btype := dict_get (KStr "keyType") banner_info in
  let btype2 := dict_get (KStr "resolution") banner_info in
  if bool_decide (btype = VNone) || bool_decide (btype2 = VNone) then Ok banners
  else
    let by_type := default [] (dget btype banners) in
    let by_res := default [] (dget btype2 by_type) in
    let entry := default [] (dget bid by_res) in
    fileName ← dict_getitem (KStr "fileName") banner_info;
    let entry := dset "bannerpath"%string fileName entry in
    let entry := banner_paths entry entry in
    Ok (dset btype (dset btype2 (dset bid entry by_res) by_type) banners).

(** [_parseBanners].  The local [banners] is stored in the show at the end
    of every pass of the outer loop; a reply without data makes [.keys()]
    or the iteration fail.  In Python the show holds a reference to
    [banners]; the model stores the value it has at the end of the pass,
    which differs only in a session where a later pass raised midway. *)
Definition _parseBanners (sid : key) : M t unit :=
  bannersEt ← _getetsrc (SeriesBanner sid) (seriesBanner_data w sid);
  match bannersEt with
  | None => raise AttributeError
  | Some types =>
      fold_ types ([] : Banners) (λ banners cur_banner,
        banners_info ← _getetsrc (SeriesBannerInfo sid cur_banner)
                                 (seriesBannerInfo_data w sid cur_banner);
        match banners_info with
        | None => raise TypeError
        | Some infos =>
            banners ← of_result (fold_result infos banners banner_entry);
            _setShowData sid (KStr "_banners") (DBanners banners);;
            mret banners
        end);;
      mret tt
  end.

Definition _parseActors (sid : key) : M t unit :=
  actorsEt ← _getetsrc (ActorsInfo sid) (actorsInfo_data w sid);
  match actorsEt with
  | None => raise TypeError
  | Some items =>
      let cur_actors :=
        map (λ curActorItem : pydict key value,
               foldl (λ (curActor : Actor) '(tag, v),
                        dset tag
                          (if bool_decide (v ≠ VNone) && bool_decide (tag = KStr "image")
                           then url_artworkPrefix v else v)
                          curActor)
                     [] curActorItem)
            items in
      _setShowData sid (KStr "_actors") (DActors cur_actors)
  end.

(** The body of the loop of [_getShowData] over the fetched episodes.
    Each item is a [dict] of the decoded reply, which has no
    [getchildren]: the debug line of the skipping branch raises
    [AttributeError] before [continue] is reached. *)
Definition _getShowData_episode (sid : key) (cur_ep : pydict key value) : M t unit :=
  cfg ← gets config;
  let use_dvd :=
    if dvdorder cfg
    then bool_decide (dict_get (KStr "dvdSeason") cur_ep ≠ VNone)
         && bool_decide (dict_get (KStr "dvdEpisodeNumber") cur_ep ≠ VNone)
    else false in
  '(elem_seasnum, elem_epno) ←
    (if use_dvd
     then mret (dict_get (KStr "dvdSeason") cur_ep,
                dict_get (KStr "dvdEpisodeNumber") cur_ep)
     else s ← of_result (dict_getitem (KStr "airedSeason") cur_ep);
          e ← of_result (dict_getitem (KStr "airedEpisodeNumber") cur_ep);
          mret (s, e));
  match key_of elem_seasnum, key_of elem_epno with
  | Some seas_no, Some ep_no =>
      for_ cur_ep (λ '(tag, v),
        _setItem sid seas_no ep_no tag
          (if bool_decide (v ≠ VNone) && bool_decide (tag = KStr "filename")
           then url_artworkPrefix v else v))
  | _, _ => raise AttributeError
  end.

Definition _getShowData (sid : key) (lang : option string) : M t unit :=
  cfg ← gets config;
  (match language cfg, lang with
   | None, None => raise tvdb_error
   | _, _ => mret tt
   end);;
  seriesInfoEt ← _getetsrc (SeriesInfo sid) (seriesInfo_data w sid);
  match seriesInfoEt with
  | None => raise AttributeError
  | Some info =>
      for_ info (λ '(tag, v),
        _setShowData sid tag
          (DValue (if bool_decide (v ≠ VNone)
                      && bool_decide (tag ∈ [KStr "banner"; KStr "fanart"; KStr "poster"])
                   then url_artworkPrefix v else v)));;
      (if banners_enabled cfg then _parseBanners sid else mret tt);;
      (if actors_enabled cfg then _parseActors sid else mret tt);;
      epsEt ← _getetsrc (EpInfo sid) (epInfo_data w sid);
      match epsEt with
      | None => raise TypeError
      | Some eps => for_ eps (_getShowData_episode sid)
      end
  end.

Definition _nameToSid (name : string) : M t key :=
  known ← gets (λ st, dget name (corrections st));
  match known with
  | Some sid => mret sid
  | None =>
      selected_series ← _getSeries name;
      let sid := series_id selected_series in
      modify (set_corrections (dset name sid));;
      lang ← gets (λ st, language (config st));
      _getShowData (series_id selected_series) lang;;
      mret sid
  end.

Definition __getitem__ (k : key) : M t Show.t :=
  match k with
  | KInt _ =>
      present ← gets (resident k);
      (if present : bool then mret tt
       else lang ← gets (λ st, language (config st)); _getShowData k lang);;
      show_ref k
  | KStr name =>
      sid ← _nameToSid name;
      show_ref sid
  end.

End session.
End Tvdb.

(** ** Clients of the container *)

(** What a client does with a container: store a show under a key, the
    clock reading as in [ShowContainer.__setitem__], or read a key and
    carry on whether it is there or not. *)
Inductive op : Type :=
  | Insert (t_check t_mark : Z) (k : key) (v : Show.t)
  | Read (k : key).

Definition exec (o : op) : M (ShowContainer.t Show.t) unit :=
  match o with
  | Insert t_check t_mark k v => ShowContainer.__setitem__ t_check t_mark k v
  | Read k => try_ (ShowContainer.getitem k)
  end.



(** A hundred and fifty stores at one instant. *)
Definition burst : list op :=
  map (λ i, Insert 0 0 (KInt (Z.of_nat i)) Show.__init__) (seq 0 150).

(** The container invariant: the ledger lists the keys of the store, in
    the order of the store, each once. *)
Definition ledger_ok {V} (c : ShowContainer.t V) : Prop :=
  dkeys (ShowContainer.dict c) = ShowContainer._stack c ∧
  NoDup (ShowContainer._stack c).





(** ** Vocabulary for the statements about shows *)

(** Whether [Episode.search] returns the episode: some pass of its loop
    over the fields hits. *)
Definition matches (term : value) (k : option key) (e : Episode.t) : bool :=
  existsb (Episode.hit (lower (text_type term)) k) e.

(** The records of a show, each with the season key and the episode key
    it is stored under, in the order in which the nested loops of
    [Show.search] and [Season.search] visit them. *)
Definition positions (sh : Show.t) : list ((key * key) * Episode.t) :=
  '(seas, se) ← Show.seasons sh; '(ep, r) ← se; [((seas, ep), r)].

(** Python's dictionaries hold a key once; the association lists that
    stand for the seasons and for the episodes of each season then do. *)
Definition unique_keys (sh : Show.t) : Prop :=
  NoDup (dkeys (Show.seasons sh)) ∧
  Forall (λ se : Season.t, NoDup (dkeys se)) (dvalues (Show.seasons sh)).

(** Numeric order of season number, then episode number. *)
Definition pos_le (p q : key * key) : Prop :=
  match p, q with
  | (KInt s1, KInt e1), (KInt s2, KInt e2) => s1 < s2 ∨ (s1 = s2 ∧ e1 ≤ e2)
  | _, _ => False
  end.

#[global] Instance pos_le_dec p q : Decision (pos_le p q).
Proof.
  destruct p as [[s1|s1] [e1|e1]], q as [[s2|s2] [e2|e2]]; simpl; apply _.
Defined.

(** The search as the specification words it: the matching records in
    ascending order of season number, then episode number. *)
Definition search_ascending (term : value) (k : option key) (sh : Show.t)
    : list Episode.t :=
  (filter (λ p, matches term k p.2) (merge_sort (λ p q, pos_le p.1 q.1) (positions sh))).*2.

(** The lookup as the specification words it: the metadata namespace
    first, the season namespace only when the key is absent there. *)
Definition getitem_metadata_first (sh : Show.t) (k : key) : result Show.item :=
  match dget k (Show.data sh) with
  | Some d => Ok (Show.IData d)
  | None =>
      match dget k (Show.seasons sh) with
      | Some s => Ok (Show.ISeason s)
      | None =>
          if Show.int_like k then Err tvdb_seasonnotfound
          else Err tvdb_attributenotfound
      end
  end.

(** A session as [Tvdb()] makes it at time 0, and one for DVD order. *)
Definition session0 : Tvdb.t :=
  {| Tvdb.shows := ShowContainer.__init__ 0;
     Tvdb.corrections := [];
     Tvdb.config := {| Tvdb.custom_ui := false; Tvdb.interactive := false;
                       Tvdb.select_first := false; Tvdb.banners_enabled := false;
                       Tvdb.actors_enabled := false; Tvdb.language := Some "en"%string;
                       Tvdb.dvdorder := false |};
     Tvdb.now := 0;
     Tvdb.requests := [] |}.

Definition session0_dvd : Tvdb.t :=
  {| Tvdb.shows := ShowContainer.__init__ 0;
     Tvdb.corrections := [];
     Tvdb.config := {| Tvdb.custom_ui := false; Tvdb.interactive := false;
                       Tvdb.select_first := false; Tvdb.banners_enabled := false;
                       Tvdb.actors_enabled := false; Tvdb.language := Some "en"%string;
                       Tvdb.dvdorder := true |};
     Tvdb.now := 0;
     Tvdb.requests := [] |}.

(** An episode item of the episodes reply, with its aired numbers. *)
Definition aired_item (seas ep : value) (name : string) : pydict key value :=
  [(KStr "airedSeason", seas); (KStr "airedEpisodeNumber", ep);
   (KStr "episodeName", VStr name)].

(** A remote catalogue with one series, 76156, found under the name
    "Scrubs", whose episodes are [eps]; the first candidate is selected. *)
Definition scrubs_world (info : pydict key value) (eps : list (pydict key value))
    : World :=
  {| getSeries_data := λ name,
       if bool_decide (name = "Scrubs"%string)
       then Some [mkSeries (KInt 76156) (VStr "Scrubs") []] else Some [];
     seriesInfo_data := λ sid,
       if bool_decide (sid = KInt 76156) then Some info else None;
     seriesBanner_data := λ _, None;
     seriesBannerInfo_data := λ _ _, None;
     actorsInfo_data := λ _, None;
     epInfo_data := λ sid,
       if bool_decide (sid = KInt 76156) then Some eps else None;
     selectSeries := λ _ found,
       match found with
       | s :: _ => Ok s
       | [] => Err tvdb_shownotfound
       end |}.

Definition scrubs_info : pydict key value :=
  [(KStr "seriesName", VStr "Scrubs")].

(** The show a lookup of 76156 returns in a fresh session; the empty show
    when the lookup fails. *)
Definition fetched (w : World) (st : Tvdb.t) : Show.t :=
  match Tvdb.__getitem__ w (KInt 76156) st with
  | (Ok sh, _) => sh
  | (Err _, _) => Show.__init__
  end.

(** ** Vocabulary for the statements about sessions *)

(** The show stored under [sid], and the record stored under
    [(sid, seas, ep)], read without the typed errors. *)
Definition show_at (sid : key) (st : Tvdb.t) : option Show.t :=
  dget sid (ShowContainer.dict (Tvdb.shows st)).

Definition record_at (sid seas ep : key) (st : Tvdb.t) : option Episode.t :=
  sh ← show_at sid st; se ← dget seas (Show.seasons sh); dget ep se.

(** The session with the show under [sid] replaced. *)
Definition put_show (sid : key) (sh : Show.t) (st : Tvdb.t) : Tvdb.t :=
  Tvdb.set_shows (ShowContainer.set_dict (dset sid sh)) st.

(** A show after [attrib] of its record [(seas, ep)] is stored, the
    season and the record made empty first where they are missing. *)
Definition stored (seas ep attrib : key) (v : value) (sh : Show.t) : Show.t :=
  let se := default [] (dget seas (Show.seasons sh)) in
  let r := default [] (dget ep se) in
  Show.set_seasons (dset seas (dset ep (dset attrib v r) se)) sh.

(** What a container operation leaves alone in a session. *)
Definition same_session (st st' : Tvdb.t) : Prop :=
  Tvdb.corrections st' = Tvdb.corrections st ∧
  Tvdb.config st' = Tvdb.config st ∧
  Tvdb.now st' = Tvdb.now st ∧
  Tvdb.requests st' = Tvdb.requests st.

(** The value [_getShowData] stores for a field of an episode item. *)
Definition episode_value (tag : key) (v : value) : value :=
  if bool_decide (v ≠ VNone) && bool_decide (tag = KStr "filename")
  then url_artworkPrefix v else v.

(** The number of requests of a kind among those sent. *)
Definition count_requests (P : request → bool) (st : Tvdb.t) : nat :=
  length (filter (λ rq, P rq) (Tvdb.requests st)).

Definition is_search (rq : request) : bool :=
  match rq with
  | GetSeries _ => true
  | _ => false
  end.

Definition is_fetch (sid : key) (rq : request) : bool :=
  bool_decide (rq = SeriesInfo sid) || bool_decide (rq = EpInfo sid).

(** A show after the season [seas] and its record [ep] are made, empty,
    where they are missing. *)
Definition ensured (seas ep : key) (sh : Show.t) : Show.t :=
  let se := default [] (dget seas (Show.seasons sh)) in
  let r := default [] (dget ep se) in
  Show.set_seasons (dset seas (dset ep r se)) sh.

(** How a session may differ after a show was populated: the ledger is
    still in order if it was, names, configuration and clock are as they
    were, and the requests sent in between are no searches. *)
Definition populated_from (st st' : Tvdb.t) : Prop :=
  (ledger_ok (Tvdb.shows st) → ledger_ok (Tvdb.shows st')) ∧
  Tvdb.corrections st' = Tvdb.corrections st ∧
  Tvdb.config st' = Tvdb.config st ∧
  Tvdb.now st' = Tvdb.now st ∧
  ∃ sent, Tvdb.requests st' = Tvdb.requests st ++ sent ∧
          Forall (λ rq, is_search rq = false) sent.

(** A computation all of whose runs stay within a relation on states. *)
Definition respects {S A} (R : relation S) (m : M S A) : Prop :=
  ∀ s, R s (m s).2.

(** A remote catalogue in which every name is the identifier of a series
    with a one-field document and no episodes. *)
Definition catalogue : World :=
  {| getSeries_data := λ name, Some [mkSeries (KStr name) (VStr name) []];
     seriesInfo_data := λ sid, Some [(KStr "seriesName", VStr (text_type_key sid))];
     seriesBanner_data := λ _, None;
     seriesBannerInfo_data := λ _ _, None;
     actorsInfo_data := λ _, None;
     epInfo_data := λ _, Some [];
     selectSeries := λ _ found,
       match found with
       | s :: _ => Ok s
       | [] => Err tvdb_shownotfound
       end |}.

(** The session after the names were looked up one after the other. *)
Definition visit (w : World) (names : list string) (st : Tvdb.t) : Tvdb.t :=
  foldl (λ st name, (Tvdb.__getitem__ w (KStr name) st).2) st names.

(** The names "0", "1", ... below [n]. *)
Definition names_below (n : nat) : list string :=
  map (λ i, pretty (Z.of_nat i)) (seq 0 n).

(** A hundred names looked up at time 0, and one more at time 21. *)
Definition session_after_eviction : Tvdb.t :=
  visit catalogue ["100"%string]
    (Tvdb.set_now 21 (visit catalogue (names_below 100) session0)).

(** The fields of an item stored one after the other in a record. *)
Definition store_fields (items : list (key * value)) (r : Episode.t) : Episode.t :=
  foldl (λ r '(tag, v), dset tag (episode_value tag v) r) r items.


(** The ledger of the later session is in order if that of the earlier
    one was. *)
Definition ledger_kept (st st' : Tvdb.t) : Prop :=
  ledger_ok (Tvdb.shows st) → ledger_ok (Tvdb.shows st').

(** ** Vocabulary for the further properties *)

(** A session after lookups made one after the other, each at the time
    the clock shows. *)
Definition lookups (w : World) (steps : list (Z * key)) (st : Tvdb.t) : Tvdb.t :=
  foldl (λ st step, (Tvdb.__getitem__ w step.2 (Tvdb.set_now step.1 st)).2) st steps.

(** The container after a key was stored twice and a hundred more keys
    once each, all at time 0. *)
Definition twice_stored : ShowContainer.t Show.t :=
  (for_ (Insert 0 0 (KInt 0) Show.__init__ :: take 101 burst) exec
     (ShowContainer.__init__ 0)).2.

(** Whether [Episode.search] looks at the field [tag] when asked for
    [k]: every field without a key, the field of that name with a string,
    none with an integer, which no field name equals. *)
Definition field_selected (k : option key) (tag : key) : Prop :=
  match k with
  | None => True
  | Some (KStr s) => text_type_key tag = s
  | Some (KInt _) => False
  end.

(** [sub in s] *)
Definition substring_of (sub s : string) : Prop :=
  ∃ pre post : string, s = pre +:+ sub +:+ post.

(** A record one of whose fields named [firstAired] holds the text of
    [date], letter case apart, as a substring. *)
Definition aired_on (date : value) (r : Episode.t) : Prop :=
  ∃ tag v, (tag, v) ∈ r ∧ text_type_key tag = "firstAired"%string
           ∧ substring_of (lower (text_type date)) (lower (text_type v)).

(** A candidate as [Tvdb.search] returns it: the numeric identifier of
    the session's language is stored under [lid]. *)
Definition with_lid (lid : Z) (s : Series) : Series :=
  {| series_id := series_id s;
     series_name := series_name s;
     series_fields := dset (KStr "lid") (VInt lid) (series_fields s) |}.

(** The later session has the configuration of the earlier one. *)
Definition config_kept (st st' : Tvdb.t) : Prop :=
  Tvdb.config st' = Tvdb.config st.

(** The session with the requests [sent] added to those sent. *)
Definition sending (sent : list request) (st : Tvdb.t) : Tvdb.t :=
  Tvdb.set_requests (λ l, l ++ sent) st.

(** The value [_getShowData] stores for a field of the series document. *)
Definition series_value (tag : key) (v : value) : datum :=
  DValue (if bool_decide (v ≠ VNone)
             && bool_decide (tag ∈ [KStr "banner"; KStr "fanart"; KStr "poster"])
          then url_artworkPrefix v else v).

(** The fields of the series document stored one after the other. *)
Definition store_data (info : list (key * value)) (d : pydict key datum)
    : pydict key datum :=
  foldl (λ d '(tag, v), dset tag (series_value tag v) d) d info.







(** An item of the actors reply as its [Actor] holds it. *)
Definition stored_actor (item : pydict key value) : Actor :=
  map (λ '(tag, v),
         (tag, if bool_decide (v ≠ VNone) && bool_decide (tag = KStr "image")
               then url_artworkPrefix v else v)) item.

(** The entry of a banner in the nested mapping of [_parseBanners]. *)
Definition banner_at (btype btype2 bid : value) (banners : Banners)
    : option (pydict string value) :=
  by_type ← dget btype banners; by_res ← dget btype2 by_type; dget bid by_res.

(** The items of the banner replies for the image types, one type after
    the other; a type whose reply has no data contributes none. *)
Definition banner_items (w : World) (sid : key) (types : list key)
    : list (pydict key value) :=
  types ≫= λ t, default [] (seriesBannerInfo_data w sid t).
(** ** Facts about dictionaries *)

Section pydict_facts.
Context {K V : Type} `{EqDecision K}.
Implicit Types (d : pydict K V) (k : K) (v : V).

Lemma dget_None d k : dget k d = None ↔ k ∉ dkeys d.
Proof.
  induction d as [|[k' v'] d IH]; simpl.
  - split; [intros _; apply not_elem_of_nil | done].
  - rewrite not_elem_of_cons. destruct (decide (k = k')); split; try done.
    + intros [? _]; done.
    + intros ?; split; [done | by apply IH].
    + intros [_ ?]; by apply IH.
Qed.

Lemma dmem_true d k : dmem k d = true ↔ k ∈ dkeys d.
Proof.
  unfold dmem. destruct (dget k d) eqn:E.
  - split; [intros _ | done].
    destruct (decide (k ∈ dkeys d)) as [|N]; [done|].
    apply dget_None in N; congruence.
  - split; [done | intros Hin]. apply dget_None in E; done.
Qed.

Lemma dmem_false d k : dmem k d = false ↔ k ∉ dkeys d.
Proof.
  rewrite <- dmem_true. destruct (dmem k d); split; congruence.
Qed.

Lemma dget_dset_eq d k v : dget k (dset k v d) = Some v.
Proof.
  induction d as [|[k' v'] d IH]; simpl.
  - by rewrite decide_True.
  - destruct (decide (k = k')) as [->|N]; simpl.
    + by rewrite decide_True.
    + by rewrite decide_False.
Qed.

Lemma dget_dset_ne d k k' v : k ≠ k' → dget k' (dset k v d) = dget k' d.
Proof.
  intros N. induction d as [|[k0 v0] d IH]; simpl.
  - by rewrite decide_False.
  - destruct (decide (k = k0)) as [->|N0]; simpl.
    + by rewrite !decide_False.
    + destruct (decide (k' = k0)); [done | apply IH].
Qed.

Lemma dset_absent d k v : k ∉ dkeys d → dset k v d = d ++ [(k, v)].
Proof.
  induction d as [|[k' v'] d IH]; simpl; [done|].
  rewrite not_elem_of_cons. intros [N Hd].
  rewrite decide_False by done. by rewrite IH.
Qed.

Lemma dkeys_dset_present d k v : k ∈ dkeys d → dkeys (dset k v d) = dkeys d.
Proof.
  induction d as [|[k' v'] d IH]; simpl.
  - intros Hin. by apply elem_of_nil in Hin.
  - intros Hin. destruct (decide (k = k')) as [->|N]; simpl; [done|].
    apply elem_of_cons in Hin as [?|Hin]; [done|].
    unfold dkeys in *. simpl. f_equal. by apply IH.
Qed.

Lemma dset_dset d k v v' : dset k v' (dset k v d) = dset k v' d.
Proof.
  induction d as [|[k0 v0] d IH]; simpl.
  - by rewrite decide_True.
  - destruct (decide (k = k0)) as [->|N]; simpl.
    + by rewrite decide_True.
    + rewrite decide_False by done. by rewrite IH.
Qed.

Lemma dset_same d k v : dget k d = Some v → dset k v d = d.
Proof.
  induction d as [|[k0 v0] d IH]; simpl; [done|].
  destruct (decide (k = k0)) as [->|N]; [congruence|].
  intros E. by rewrite IH.
Qed.

Lemma dget_elem_of d k v : dget k d = Some v → (k, v) ∈ d.
Proof.
  induction d as [|[k0 v0] d IH]; simpl; [done|].
  destruct (decide (k = k0)) as [->|N].
  - intros [= ->]. apply elem_of_cons; by left.
  - intros E. apply elem_of_cons; right. by apply IH.
Qed.
End pydict_facts.

(** ** The monad's equations *)

Lemma bind_ok {S A B} (m : M S A) (f : A → M S B) s a s' :
  m s = (Ok a, s') → (m ≫= f) s = f a s'.
Proof. unfold mbind, M_bind. by intros ->. Qed.

Lemma bind_err {S A B} (m : M S A) (f : A → M S B) s e s' :
  m s = (Err e, s') → (m ≫= f) s = (Err e, s').
Proof. unfold mbind, M_bind. by intros ->. Qed.


Ltac mstep :=
  unfold mbind, M_bind, mret, M_ret, gets, modify, raise, of_result, try_; simpl.
(** ** The container: eviction *)

Section container_facts.
Context {V : Type}.
Implicit Types (d : pydict key V) (s : list key) (g : Z) (c : ShowContainer.t V).

Lemma delitem_head k v d s g :
  ShowContainer.__delitem__ k (ShowContainer.mk ((k, v) :: d) s g)
  = (Ok tt, ShowContainer.mk d s g).
Proof.
  unfold ShowContainer.__delitem__, ShowContainer.set_dict, dmem.
  unfold mbind, M_bind, gets, modify, raise.
  cbn [ShowContainer.dict ShowContainer._stack ShowContainer._lastgc dget ddel].
  rewrite !decide_True by done. cbn. by rewrite decide_True.
Qed.

(** Deleting the first [n] keys of a store, oldest first, leaves the rest. *)
Lemma delete_oldest n d s g :
  for_ (take n (dkeys d)) ShowContainer.__delitem__ (ShowContainer.mk d s g)
  = (Ok tt, ShowContainer.mk (drop n d) s g).
Proof.
  revert d. induction n as [|n IH]; intros d; [done|].
  destruct d as [|[k v] d]; [done|].
  change (take (S n) (dkeys ((k, v) :: d))) with (k :: take n (dkeys d)).
  change (drop (S n) ((k, v) :: d)) with (drop n d).
  cbn [for_]. erewrite bind_ok by apply delitem_head. apply IH.
Qed.

(** One store into a container whose ledger is in order, under a new key. *)
Lemma setitem_fresh t_check t_mark k v d s g :
  dkeys d = s → k ∉ s →
  ShowContainer.__setitem__ t_check t_mark k v (ShowContainer.mk d s g) =
  (Ok tt,
   if bool_decide (t_check - g > 20)
   then let n := (length (s ++ [k]) - 100)%nat in
        ShowContainer.mk (drop n d ++ [(k, v)]) (drop n (s ++ [k])) t_mark
   else ShowContainer.mk (d ++ [(k, v)]) (s ++ [k]) g).
Proof.
  intros Hk Hfresh. unfold ShowContainer.__setitem__.
  unfold mbind, M_bind, modify, gets, mret, M_ret, ShowContainer.set_stack.
  cbv beta iota delta [ShowContainer._stack ShowContainer._lastgc ShowContainer.dict].
  destruct (bool_decide (t_check - g > 20)).
  - set (n := (length (s ++ [k]) - 100)%nat).
    assert (Hn : (n ≤ length s)%nat) by (subst n; rewrite length_app; simpl; lia).
    rewrite take_app_le by done. rewrite <- Hk at 1.
    rewrite delete_oldest.
    unfold ShowContainer.set_dict, ShowContainer.set_lastgc.
    cbv beta iota delta [ShowContainer._stack ShowContainer._lastgc ShowContainer.dict].
    fold n. do 2 f_equal. apply dset_absent.
    unfold dkeys. rewrite fmap_drop. intros Hin. apply Hfresh.
    rewrite <- Hk. unfold dkeys. by eapply subseteq_drop.
  - unfold ShowContainer.set_dict.
    cbv beta iota delta [ShowContainer._stack ShowContainer._lastgc ShowContainer.dict].
    do 2 f_equal.
    apply dset_absent. by rewrite Hk.
Qed.

Lemma setitem_later t_check t_mark k v c :
  t_check - ShowContainer._lastgc c ≤ 20 →
  ShowContainer.__setitem__ t_check t_mark k v c =
  (Ok tt, ShowContainer.mk (dset k v (ShowContainer.dict c))
            (ShowContainer._stack c ++ [k]) (ShowContainer._lastgc c)).
Proof.
  destruct c as [d s g]. intros Hle. unfold ShowContainer.__setitem__.
  unfold mbind, M_bind, modify, gets, mret, M_ret, ShowContainer.set_stack.
  cbv beta iota delta [ShowContainer._stack ShowContainer._lastgc ShowContainer.dict] in *.
  rewrite bool_decide_false by lia. done.
Qed.
End container_facts.










(** ** Lookups in a show, a season and an episode *)

(** The sessions of the examples are those the constructor returns. *)
Example session0_init :
  Tvdb.__init__ 0 false false false false false None false = Ok session0 ∧
  Tvdb.__init__ 0 false false false false false None true = Ok session0_dvd.
Proof. split; reflexivity. Qed.

(** A key of a show counts as integer-like when it is an integer or a
    string of digits, those of other scripts included. *)
Example int_like_keys :
  Show.int_like (KInt 7) = true ∧
  Show.int_like (KStr "7") = true ∧
  Show.int_like (KStr "٢٠٢٠") = true ∧
  Show.int_like (KStr "²") = true ∧
  Show.int_like (KStr "seriesName") = false ∧
  Show.int_like (KStr "7a") = false ∧
  Show.int_like (KStr "-7") = false ∧
  Show.int_like (KStr "") = false.
Proof. repeat split; vm_compute; reflexivity. Qed.

(** A show whose two namespaces share no key looks every key up as the
    metadata-first reading does. *)
Lemma getitem_disjoint sh :
  (∀ k, k ∈ dkeys (Show.seasons sh) → k ∉ dkeys (Show.data sh)) →
  ∀ k, Show.__getitem__ sh k = getitem_metadata_first sh k.
Proof.
  intros Hdisj k. unfold Show.__getitem__, getitem_metadata_first.
  destruct (dget k (Show.seasons sh)) as [s|] eqn:E1;
    destruct (dget k (Show.data sh)) as [d|] eqn:E2; try done.
  exfalso. apply (Hdisj k).
  - apply dmem_true. unfold dmem. by rewrite E1.
  - apply dmem_true. unfold dmem. by rewrite E2.
Qed.

(** A key that is not integer-like is none of the season keys of a show
    whose season keys are integer-like. *)
Lemma not_int_like_no_season sh k :
  Forall (λ s, Show.int_like s = true) (dkeys (Show.seasons sh)) →
  Show.int_like k = false →
  dget k (Show.seasons sh) = None.
Proof.
  intros Hall Hk. apply dget_None. intros Hin.
  eapply Forall_forall in Hall; [|exact Hin]. congruence.
Qed.

(** An integer-like key is none of the metadata keys of a show whose
    metadata keys are not integer-like. *)
Lemma int_like_no_metadata sh k :
  Forall (λ f, Show.int_like f = false) (dkeys (Show.data sh)) →
  Show.int_like k = true →
  dget k (Show.data sh) = None.
Proof.
  intros Hall Hk. apply dget_None. intros Hin.
  eapply Forall_forall in Hall; [|exact Hin]. congruence.
Qed.

(** The code tests the seasons before the metadata.  Where a season is
    stored under a key that the metadata holds too, which takes an
    episodes reply with such a string for a season number, the lookup
    returns the season. *)
Example show_named_season :
  fetched (scrubs_world scrubs_info [aired_item (VStr "seriesName") (VInt 1) "Pilot"])
          session0
  = {| Show.seasons :=
         [(KStr "seriesName",
           [(KInt 1, aired_item (VStr "seriesName") (VInt 1) "Pilot")])];
       Show.data := [(KStr "seriesName", DValue (VStr "Scrubs"))] |}.
Proof. vm_compute. reflexivity. Qed.

Example seasons_shadow_metadata :
  let sh := fetched (scrubs_world scrubs_info
                       [aired_item (VStr "seriesName") (VInt 1) "Pilot"]) session0 in
  Show.__getitem__ sh (KStr "seriesName")
    = Ok (Show.ISeason [(KInt 1, aired_item (VStr "seriesName") (VInt 1) "Pilot")]) ∧
  getitem_metadata_first sh (KStr "seriesName") = Ok (Show.IData (DValue (VStr "Scrubs"))).
Proof. rewrite show_named_season. cbv zeta. split; vm_compute; reflexivity. Qed.

(** C2.  In a show whose season keys are integer-like, as the season
    numbers of the episodes reply are, a key that is not integer-like is
    no season key: its lookup returns the metadata value when the metadata
    holds it and raises [tvdb_attributenotfound] when not, which is what
    trying the metadata first and the seasons after it gives.  A show with
    metadata "seriesName" and season 1 returns the metadata value for
    "seriesName" and the season for 1.  When, moreover, no metadata key is
    integer-like, no key lies in both namespaces, and every lookup agrees
    with the metadata-first reading. *)
Theorem C2_lookup_metadata_first :
  ∀ sh,
    Forall (λ s, Show.int_like s = true) (dkeys (Show.seasons sh)) →
    (∀ k, Show.int_like k = false →
       dget k (Show.seasons sh) = None ∧
       Show.__getitem__ sh k = getitem_metadata_first sh k ∧
       Show.__getitem__ sh k
       = match dget k (Show.data sh) with
         | Some d => Ok (Show.IData d)
         | None => Err tvdb_attributenotfound
         end) ∧
    (∀ name s1,
       dget (KStr "seriesName") (Show.data sh) = Some name →
       dget (KInt 1) (Show.seasons sh) = Some s1 →
       Show.__getitem__ sh (KStr "seriesName") = Ok (Show.IData name) ∧
       Show.__getitem__ sh (KInt 1) = Ok (Show.ISeason s1)) ∧
    (Forall (λ f, Show.int_like f = false) (dkeys (Show.data sh)) →
       (∀ k, ¬ (k ∈ dkeys (Show.seasons sh) ∧ k ∈ dkeys (Show.data sh))) ∧
       (∀ k, Show.__getitem__ sh k = getitem_metadata_first sh k)).
Proof.
  intros sh Hseasons.
  assert (Hk : ∀ k, Show.int_like k = false →
            dget k (Show.seasons sh) = None ∧
            Show.__getitem__ sh k = getitem_metadata_first sh k ∧
            Show.__getitem__ sh k
            = match dget k (Show.data sh) with
              | Some d => Ok (Show.IData d)
              | None => Err tvdb_attributenotfound
              end).
  { intros k Hnot.
    pose proof (not_int_like_no_season sh k Hseasons Hnot) as Hnone.
    split; [done|]. unfold Show.__getitem__, getitem_metadata_first.
    rewrite Hnone, Hnot. by destruct (dget k (Show.data sh)). }
  split; [exact Hk|]. split.
  - intros name s1 Hname Hs1. split.
    + destruct (Hk (KStr "seriesName")) as (_ & _ & ->); [by vm_compute|].
      by rewrite Hname.
    + unfold Show.__getitem__. by rewrite Hs1.
  - intros Hdata.
    assert (Hdisj : ∀ k, k ∈ dkeys (Show.seasons sh) → k ∉ dkeys (Show.data sh)).
    { intros k Hs Hd.
      eapply Forall_forall in Hseasons; [|exact Hs].
      eapply Forall_forall in Hdata; [|exact Hd]. congruence. }
    split.
    + intros k [Hs Hd]. by apply (Hdisj k).
    + by apply getitem_disjoint.
Qed.

(** A show with metadata "seriesName" and seasons 1 and 2. *)
Lemma C2_lookup_witness :
  let sh := Show.mk [(KInt 1, []); (KInt 2, [])]
                    [(KStr "seriesName", DValue (VStr "Scrubs"))] in
  Show.__getitem__ sh (KStr "seriesName") = Ok (Show.IData (DValue (VStr "Scrubs"))) ∧
  Show.__getitem__ sh (KInt 1) = Ok (Show.ISeason []) ∧
  Show.__getitem__ sh (KStr "seriesName") = getitem_metadata_first sh (KStr "seriesName") ∧
  Show.__getitem__ sh (KStr "rating") = Err tvdb_attributenotfound ∧
  Show.__getitem__ sh (KInt 2) = getitem_metadata_first sh (KInt 2).
Proof.
  intros sh.
  assert (Hseasons : Forall (λ s, Show.int_like s = true) (dkeys (Show.seasons sh))).
  { repeat constructor. }
  destruct (C2_lookup_metadata_first sh Hseasons) as (Hk & Hname & Hall).
  destruct (Hname (DValue (VStr "Scrubs")) []) as [H1 H2]; [reflexivity | reflexivity |].
  split; [exact H1|]. split; [exact H2|]. split; [|split].
  - apply Hk. vm_compute. reflexivity.
  - destruct (Hk (KStr "rating")) as (_ & _ & ->); [vm_compute; reflexivity | reflexivity].
  - destruct Hall as [_ Hall]; [|apply Hall].
    repeat constructor.
Defined.

(** Where the series document has a field with an all-digit name, the
    lookup of that name returns the field. *)
Example show_numeric_field :
  fetched (scrubs_world [(KStr "2020", VStr "renewed")] []) session0
  = {| Show.seasons := []; Show.data := [(KStr "2020", DValue (VStr "renewed"))] |}.
Proof. vm_compute. reflexivity. Qed.

Example numeric_field_found :
  let sh := fetched (scrubs_world [(KStr "2020", VStr "renewed")] []) session0 in
  Show.int_like (KStr "2020") = true ∧
  dget (KStr "2020") (Show.seasons sh) = None ∧
  Show.__getitem__ sh (KStr "2020") = Ok (Show.IData (DValue (VStr "renewed"))).
Proof. rewrite show_numeric_field. cbv zeta. repeat split; vm_compute; reflexivity. Qed.

(** C6.  In a show none of whose metadata keys is integer-like, as the
    field names of the series document are, an integer-like key absent
    from the seasons raises [tvdb_seasonnotfound].  In every show, a key
    absent from both namespaces raises [tvdb_seasonnotfound] when it is
    integer-like and [tvdb_attributenotfound] when it is not, and a lookup
    in a show raises nothing else and only for such keys; an episode
    number absent from a season raises [tvdb_episodenotfound]; a field
    absent from an episode raises [tvdb_attributenotfound].  The three
    exceptions differ. *)
Theorem C6_three_kinds_of_miss :
  (∀ sh k,
     Forall (λ f, Show.int_like f = false) (dkeys (Show.data sh)) →
     Show.int_like k = true → dget k (Show.seasons sh) = None →
     Show.__getitem__ sh k = Err tvdb_seasonnotfound) ∧
  (∀ sh k, dget k (Show.seasons sh) = None → dget k (Show.data sh) = None →
     Show.__getitem__ sh k =
     Err (if Show.int_like k then tvdb_seasonnotfound else tvdb_attributenotfound)) ∧
  (∀ sh k e, Show.__getitem__ sh k = Err e →
     dget k (Show.seasons sh) = None ∧ dget k (Show.data sh) = None ∧
     (e = tvdb_seasonnotfound ↔ Show.int_like k = true) ∧
     (e = tvdb_attributenotfound ↔ Show.int_like k = false)) ∧
  (∀ (se : Season.t) ep,
     Season.__getitem__ se ep = Err tvdb_episodenotfound ↔ dget ep se = None) ∧
  (∀ (e : Episode.t) k,
     Episode.__getitem__ e k = Err tvdb_attributenotfound ↔ dget k e = None) ∧
  tvdb_seasonnotfound ≠ tvdb_episodenotfound ∧
  tvdb_seasonnotfound ≠ tvdb_attributenotfound ∧
  tvdb_episodenotfound ≠ tvdb_attributenotfound.
Proof.
  assert (Hboth : ∀ sh k,
            dget k (Show.seasons sh) = None → dget k (Show.data sh) = None →
            Show.__getitem__ sh k =
            Err (if Show.int_like k then tvdb_seasonnotfound
                 else tvdb_attributenotfound)).
  { intros sh k E1 E2. unfold Show.__getitem__. rewrite E1, E2.
    by destruct (Show.int_like k). }
  split; [|split; [|split; [|split; [|split]]]].
  - intros sh k Hdata Hk Hs.
    rewrite Hboth by (done || by apply int_like_no_metadata). by rewrite Hk.
  - exact Hboth.
  - intros sh k e H. unfold Show.__getitem__ in H.
    destruct (dget k (Show.seasons sh)); [done|].
    destruct (dget k (Show.data sh)); [done|].
    split; [done|]. split; [done|].
    destruct (Show.int_like k); split; split; congruence.
  - intros se ep. unfold Season.__getitem__. by destruct (dget ep se).
  - intros e k. unfold Episode.__getitem__. by destruct (dget k e).
  - repeat split; discriminate.
Qed.

(** A show with season 1 and metadata "seriesName": seasons "7", 7 and
    "٧" and attribute "rating" are missing. *)
Lemma C6_miss_witness :
  let sh := Show.mk [(KInt 1, [(KInt 1, [(KStr "episodeName", VStr "Pilot")])])]
                    [(KStr "seriesName", DValue (VStr "Scrubs"))] in
  Show.__getitem__ sh (KStr "7") = Err tvdb_seasonnotfound ∧
  Show.__getitem__ sh (KInt 7) = Err tvdb_seasonnotfound ∧
  Show.__getitem__ sh (KStr "٧") = Err tvdb_seasonnotfound ∧
  Show.__getitem__ sh (KStr "rating") = Err tvdb_attributenotfound ∧
  Season.__getitem__ [(KInt 1, [(KStr "episodeName", VStr "Pilot")])] (KInt 2)
    = Err tvdb_episodenotfound ∧
  Episode.__getitem__ [(KStr "episodeName", VStr "Pilot")] (KStr "rating")
    = Err tvdb_attributenotfound.
Proof.
  destruct C6_three_kinds_of_miss as (H0 & H1 & _ & H3 & H4 & _).
  intros sh.
  assert (Hdata : Forall (λ f, Show.int_like f = false) (dkeys (Show.data sh))).
  { repeat constructor. }
  split; [|split; [|split; [|split; [|split]]]].
  - apply (H0 sh (KStr "7") Hdata); reflexivity.
  - apply (H0 sh (KInt 7) Hdata); reflexivity.
  - apply (H0 sh (KStr "٧") Hdata); vm_compute; reflexivity.
  - apply (H1 sh (KStr "rating")); reflexivity.
  - apply H3; reflexivity.
  - apply H4; reflexivity.
Defined.
(** ** Search *)

Section search_facts.
Context (term : value) (k : option key).

Lemma search_items_matches items (self : Episode.t) :
  Episode.search_items (lower (text_type term)) k items self
  = if existsb (Episode.hit (lower (text_type term)) k) items then Some self else None.
Proof.
  induction items as [|item items IH]; simpl; [done|].
  by destruct (Episode.hit _ k item).
Qed.

Lemma episode_search_term (e : Episode.t) :
  term ≠ VNone →
  Episode.search term k e = Ok (if matches term k e then Some e else None).
Proof.
  intros Ht. unfold Episode.search, matches. rewrite search_items_matches.
  by destruct term.
Qed.

Lemma season_search_values_term eps acc :
  term ≠ VNone →
  Season.search_values term k eps acc
  = Ok (acc ++ filter (λ e, matches term k e) eps).
Proof.
  intros Ht. revert acc. induction eps as [|e eps IH]; intros acc; simpl.
  - by rewrite app_nil_r.
  - rewrite episode_search_term by done. simpl.
    destruct (matches term k e) eqn:Em; simpl; rewrite IH.
    + rewrite filter_cons_True by (by apply Is_true_true). by rewrite <- app_assoc.
    + rewrite filter_cons_False by (by apply Is_true_false). done.
Qed.

Lemma show_search_values_term ss acc :
  term ≠ VNone →
  Show.search_values term k ss acc
  = Ok (acc ++ (ss ≫= λ se : Season.t, filter (λ e, matches term k e) (dvalues se))).
Proof.
  intros Ht. revert acc. induction ss as [|se ss IH]; intros acc; simpl.
  - by rewrite app_nil_r.
  - unfold Season.search. rewrite season_search_values_term by done. simpl.
    rewrite IH. f_equal. rewrite (assoc_L (++)). f_equal.
    case_bool_decide as Hlen; [done|].
    destruct (filter _ (dvalues se)); [|done]. by rewrite app_nil_r.
Qed.

(** Without a term an episode raises, and so does the first season that
    has an episode; seasons without episodes are passed over. *)
Lemma season_search_no_term (se : Season.t) acc :
  Season.search_values VNone k (dvalues se) acc
  = match se with [] => Ok acc | _ :: _ => Err TypeError end.
Proof. by destruct se as [|[ep e] se]. Qed.

Lemma show_search_no_term ss acc :
  Show.search_values VNone k ss acc
  = if bool_decide (Forall (λ se : Season.t, se = []) ss) then Ok acc
    else Err TypeError.
Proof.
  revert acc. induction ss as [|se ss IH]; intros acc; [done|].
  cbn [Show.search_values]. unfold Season.search.
  rewrite season_search_no_term. destruct se as [|p se].
  - change (Show.search_values VNone k ss acc
            = if bool_decide (Forall (λ se : Season.t, se = []) ([] :: ss))
              then Ok acc else Err TypeError).
    rewrite IH.
    rewrite (bool_decide_ext (Forall (λ se : Season.t, se = []) ([] :: ss))
               (Forall (λ se : Season.t, se = []) ss)); [done|].
    split; [by inversion 1 | intros ?; by constructor].
  - rewrite bool_decide_false; [done|]. by inversion 1.
Qed.
End search_facts.

Lemma positions_cons seas (se : Season.t) seasons data :
  positions (Show.mk ((seas, se) :: seasons) data)
  = ((λ p : key * Episode.t, ((seas, p.1), p.2)) <$> se)
    ++ positions (Show.mk seasons data).
Proof.
  unfold positions. cbn [Show.seasons]. rewrite bind_cons. f_equal.
  induction se as [|[ep r] se IH]; [done|].
  rewrite bind_cons, fmap_cons, IH. done.
Qed.

Lemma positions_filter term k sh :
  (filter (λ p, matches term k p.2) (positions sh)).*2
  = dvalues (Show.seasons sh) ≫= λ se : Season.t,
      filter (λ e, matches term k e) (dvalues se).
Proof.
  destruct sh as [seasons data]. simpl.
  induction seasons as [|[seas se] seasons IH]; [done|].
  rewrite positions_cons, filter_app, fmap_app, IH. simpl. f_equal.
  clear IH. induction se as [|[ep r] se IH]; [done|].
  rewrite fmap_cons. unfold dvalues in *. rewrite fmap_cons.
  destruct (matches term k r) eqn:Em.
  - rewrite !filter_cons_True by (by apply Is_true_true).
    rewrite fmap_cons. simpl. by rewrite IH.
  - rewrite !filter_cons_False by (by apply Is_true_false). by rewrite IH.
Qed.

Lemma positions_NoDup sh : unique_keys sh → NoDup (positions sh).*1.
Proof.
  destruct sh as [seasons data]. intros [Hs Hse]; simpl in *.
  induction seasons as [|[seas se] seasons IH]; [constructor|].
  rewrite positions_cons, fmap_app.
  unfold dkeys, dvalues in *; simpl in *.
  apply NoDup_cons in Hs as [Hnotin Hs]. apply Forall_cons in Hse as [Hnd Hse].
  apply NoDup_app. split; [|split].
  - rewrite <- list_fmap_compose.
    assert (E : (fst ∘ (λ p : key * Episode.t, (seas, p.1, p.2))) <$> se
                = (λ ep, (seas, ep)) <$> se.*1).
    { rewrite <- list_fmap_compose. by apply list_fmap_ext. }
    rewrite E. apply NoDup_fmap_2; [|done]. by intros ?? [=].
  - intros [s e] Hin1 Hin2. apply Hnotin.
    apply list_elem_of_fmap in Hin1 as ([[s1 e1] r1] & [= -> ->] & Hin1).
    apply list_elem_of_fmap in Hin1 as ([e2 r2] & [= -> _ _] & _).
    apply list_elem_of_fmap in Hin2 as ([[s3 e3] r3] & [= <- <-] & Hin2).
    clear -Hin2. induction seasons as [|[s' se'] seasons IH]; simpl.
    + by apply elem_of_nil in Hin2.
    + rewrite positions_cons in Hin2. apply elem_of_app in Hin2 as [Hin2|Hin2].
      * apply list_elem_of_fmap in Hin2 as ([e2 r2] & [= -> _ _] & _).
        apply elem_of_cons; by left.
      * apply elem_of_cons; right. by apply IH.
  - by apply IH.
Qed.

Lemma StronglySorted_sublist {A} (R : relation A) (l1 l2 : list A) :
  l1 `sublist_of` l2 → StronglySorted R l2 → StronglySorted R l1.
Proof.
  induction 1 as [|x l1 l2 Hsub IH|x l1 l2 Hsub IH]; intros Hs.
  - constructor.
  - apply StronglySorted_inv in Hs as [Hs Hall]. constructor; [by apply IH|].
    eapply Forall_forall. intros y Hy.
    eapply Forall_forall in Hall; [exact Hall|]. by eapply elem_of_sublist.
  - apply StronglySorted_inv in Hs as [Hs _]. by apply IH.
Qed.

(** The show fetched when the episodes reply lists season 2 before
    season 1. *)
Example show_out_of_order :
  fetched (scrubs_world scrubs_info
             [aired_item (VInt 2) (VInt 1) "My First Step";
              aired_item (VInt 1) (VInt 1) "My First Day"]) session0
  = {| Show.seasons :=
         [(KInt 2, [(KInt 1, aired_item (VInt 2) (VInt 1) "My First Step")]);
          (KInt 1, [(KInt 1, aired_item (VInt 1) (VInt 1) "My First Day")])];
       Show.data := [(KStr "seriesName", DValue (VStr "Scrubs"))] |}.
Proof. vm_compute. reflexivity. Qed.

(** C7, as stated, fails in its order: the results come in the order the
    seasons were stored, here season 2 before season 1. *)
Lemma C7_search_order_counterexample :
  let sh := fetched (scrubs_world scrubs_info
                       [aired_item (VInt 2) (VInt 1) "My First Step";
                        aired_item (VInt 1) (VInt 1) "My First Day"]) session0 in
  Show.search (VStr "first") (Some (KStr "episodeName")) sh
    = Ok [aired_item (VInt 2) (VInt 1) "My First Step";
          aired_item (VInt 1) (VInt 1) "My First Day"] ∧
  search_ascending (VStr "first") (Some (KStr "episodeName")) sh
    = [aired_item (VInt 1) (VInt 1) "My First Day";
       aired_item (VInt 2) (VInt 1) "My First Step"] ∧
  Show.search (VStr "first") (Some (KStr "episodeName")) sh
    ≠ Ok (search_ascending (VStr "first") (Some (KStr "episodeName")) sh).
Proof.
  rewrite show_out_of_order. cbv zeta.
  split; [|split]; try (vm_compute; reflexivity). vm_compute; discriminate.
Qed.

(** C7, amended.  With a term, [search] returns the matching records in
    the order the show enumerates them: seasons in the order in which they
    were first stored, and the episodes of a season in the order in which
    they were first stored.  A record contributes once, however many of its
    fields match: no (season, episode) position occurs twice in the
    result.  The result is in ascending numeric order of season then
    episode whenever the enumeration of the show is. *)
Theorem C7_search_in_enumeration_order :
  ∀ sh term k,
    term ≠ VNone →
    let found := filter (λ p, matches term k p.2) (positions sh) in
    Show.search term k sh = Ok found.*2 ∧
    found `sublist_of` positions sh ∧
    (unique_keys sh → NoDup found.*1) ∧
    (StronglySorted pos_le (positions sh).*1 → StronglySorted pos_le found.*1).
Proof.
  intros sh term k Ht found. split; [|split; [|split]].
  - unfold Show.search. rewrite show_search_values_term by done.
    unfold found. by rewrite positions_filter.
  - apply sublist_filter.
  - intros Hu. eapply sublist_NoDup; [by apply positions_NoDup|].
    apply fmap_sublist, sublist_filter.
  - apply StronglySorted_sublist, fmap_sublist, sublist_filter.
Qed.

(** Two records of season 1 match "first"; both are returned, episode 1
    before episode 2, each once. *)
Lemma C7_search_witness :
  let sh := Show.mk [(KInt 1, [(KInt 1, aired_item (VInt 1) (VInt 1) "My First Day");
                               (KInt 2, aired_item (VInt 1) (VInt 2) "My First Step");
                               (KInt 3, aired_item (VInt 1) (VInt 3) "My Mentor")])] [] in
  Show.search (VStr "first") (Some (KStr "episodeName")) sh
    = Ok [aired_item (VInt 1) (VInt 1) "My First Day";
          aired_item (VInt 1) (VInt 2) "My First Step"] ∧
  NoDup [(KInt 1, KInt 1); (KInt 1, KInt 2)] ∧
  StronglySorted pos_le [(KInt 1, KInt 1); (KInt 1, KInt 2)].
Proof.
  intros sh.
  destruct (C7_search_in_enumeration_order sh (VStr "first") (Some (KStr "episodeName")))
    as (E & _ & Hnd & Hs); [discriminate|].
  split; [exact E|]. split.
  - apply Hnd. split.
    + apply (bool_decide_unpack _). vm_compute. exact I.
    + apply Forall_cons. split; [|constructor].
      apply (bool_decide_unpack _). vm_compute. exact I.
  - apply Hs.
    change (StronglySorted pos_le [(KInt 1, KInt 1); (KInt 1, KInt 2); (KInt 1, KInt 3)]).
    repeat constructor; simpl; lia.
Defined.

(** The show fetched for a series without episodes. *)
Example show_without_episodes :
  fetched (scrubs_world scrubs_info []) session0
  = {| Show.seasons := []; Show.data := [(KStr "seriesName", DValue (VStr "Scrubs"))] |}.
Proof. vm_compute. reflexivity. Qed.

(** C9, as stated, fails for a show that holds no episode: the search
    without a term returns the empty list. *)
Lemma C9_no_term_counterexample :
  Show.search VNone None (fetched (scrubs_world scrubs_info []) session0) = Ok [] ∧
  Show.search VNone None (fetched (scrubs_world scrubs_info []) session0) ≠ Err TypeError.
Proof.
  rewrite show_without_episodes. split; [reflexivity | discriminate].
Qed.

(** C9, amended.  The term is checked by [Episode.search] alone: without
    a term an episode raises [TypeError], and so does a season that holds
    an episode and a show one of whose seasons holds an episode; a show
    none of whose seasons holds an episode returns the empty list. *)
Theorem C9_no_term_raises_where_an_episode_is :
  (∀ (e : Episode.t) k, Episode.search VNone k e = Err TypeError) ∧
  (∀ (se : Season.t) k, se ≠ [] → Season.search VNone k se = Err TypeError) ∧
  (∀ sh k, Exists (λ se : Season.t, se ≠ []) (dvalues (Show.seasons sh)) →
           Show.search VNone k sh = Err TypeError) ∧
  (∀ sh k, Forall (λ se : Season.t, se = []) (dvalues (Show.seasons sh)) →
           Show.search VNone k sh = Ok []).
Proof.
  split; [|split; [|split]].
  - done.
  - intros se k Hne. unfold Season.search. rewrite season_search_no_term.
    by destruct se.
  - intros sh k Hex. unfold Show.search. rewrite show_search_no_term.
    rewrite bool_decide_false; [done|].
    intros Hall. apply Exists_exists in Hex as (se & Hin & Hne).
    eapply Forall_forall in Hall; [|exact Hin]. done.
  - intros sh k Hall. unfold Show.search. rewrite show_search_no_term.
    by rewrite bool_decide_true.
Qed.

(** A show with one episode raises; the empty show returns the empty
    list. *)
Lemma C9_no_term_witness :
  Show.search VNone None
    (Show.mk [(KInt 1, [(KInt 1, aired_item (VInt 1) (VInt 1) "My First Day")])] [])
  = Err TypeError ∧
  Season.search VNone None [(KInt 1, aired_item (VInt 1) (VInt 1) "My First Day")]
  = Err TypeError ∧
  Show.search VNone None Show.__init__ = Ok [].
Proof.
  destruct C9_no_term_raises_where_an_episode_is as (_ & H2 & H3 & H4).
  split; [|split].
  - apply H3. apply Exists_cons_hd. discriminate.
  - apply H2. discriminate.
  - apply H4. constructor.
Defined.
(** ** Sessions: reading and storing *)

Ltac destruct_session st :=
  let d := fresh "d" in let s := fresh "s" in let g := fresh "g" in
  let cor := fresh "cor" in let cfg := fresh "cfg" in
  let clock := fresh "clock" in let rqs := fresh "rqs" in
  destruct st as [[d s g] cor cfg clock rqs].

Lemma show_ref_eq sid st :
  Tvdb.show_ref sid st
  = (match show_at sid st with Some sh => Ok sh | None => Err KeyError end, st).
Proof.
  destruct_session st.
  unfold Tvdb.show_ref, Tvdb.on_shows, ShowContainer.getitem, show_at. mstep.
  by destruct (dget sid d).
Qed.

Lemma show_mutate_eq sid f st sh :
  show_at sid st = Some sh →
  Tvdb.show_mutate sid f st = (Ok tt, put_show sid (f sh) st).
Proof.
  intros E. unfold Tvdb.show_mutate.
  erewrite bind_ok by (rewrite show_ref_eq, E; done). done.
Qed.

Lemma show_at_put sid sh st : show_at sid (put_show sid sh st) = Some sh.
Proof. destruct_session st. apply dget_dset_eq. Qed.

Lemma put_put sid sh sh' st :
  put_show sid sh' (put_show sid sh st) = put_show sid sh' st.
Proof.
  destruct_session st. unfold put_show, Tvdb.set_shows, ShowContainer.set_dict.
  simpl. by rewrite dset_dset.
Qed.

Lemma put_same sid sh st : show_at sid st = Some sh → put_show sid sh st = st.
Proof.
  destruct_session st. unfold show_at, put_show, Tvdb.set_shows,
    ShowContainer.set_dict. simpl. intros E. by rewrite dset_same.
Qed.

Lemma put_show_ledger sid sh st :
  is_Some (show_at sid st) → ledger_ok (Tvdb.shows st) →
  ledger_ok (Tvdb.shows (put_show sid sh st)).
Proof.
  destruct_session st. unfold show_at, ledger_ok. simpl.
  intros [sh0 E] [Hk Hnd]. split; [|done].
  rewrite dkeys_dset_present; [done|]. apply dmem_true. unfold dmem. by rewrite E.
Qed.

Lemma put_show_same_session sid sh st : same_session st (put_show sid sh st).
Proof. by destruct_session st. Qed.

Lemma season_ref_cases sid seas st :
  Tvdb.season_ref sid seas st =
  (match show_at sid st with
   | None => Err KeyError
   | Some sh =>
       match Show.__getitem__ sh seas with
       | Ok (Show.ISeason se) => Ok se
       | Ok (Show.IData _) => Err TypeError
       | Err e => Err e
       end
   end, st).
Proof.
  unfold Tvdb.season_ref. destruct (show_at sid st) as [sh|] eqn:E.
  - erewrite bind_ok by (rewrite show_ref_eq, E; done).
    by destruct (Show.__getitem__ sh seas) as [[se|d]|e].
  - erewrite bind_err by (rewrite show_ref_eq, E; done). done.
Qed.

Lemma season_ref_eq sid seas st sh se :
  show_at sid st = Some sh → dget seas (Show.seasons sh) = Some se →
  Tvdb.season_ref sid seas st = (Ok se, st).
Proof.
  intros E1 E2. rewrite season_ref_cases, E1.
  unfold Show.__getitem__. by rewrite E2.
Qed.

Lemma episode_ref_cases sid seas ep st :
  (∀ r, record_at sid seas ep st = Some r →
        Tvdb.episode_ref sid seas ep st = (Ok r, st)) ∧
  (record_at sid seas ep st = None →
   ∃ e, Tvdb.episode_ref sid seas ep st = (Err e, st)).
Proof.
  unfold Tvdb.episode_ref, record_at.
  destruct (show_at sid st) as [sh|] eqn:E1; simpl.
  - destruct (dget seas (Show.seasons sh)) as [se|] eqn:E2; simpl.
    + erewrite bind_ok by (by eapply season_ref_eq).
      unfold of_result, Season.__getitem__.
      destruct (dget ep se); split; try done; try congruence. by eexists.
    + split; [done|]. intros _.
      assert (∃ e, Tvdb.season_ref sid seas st = (Err e, st)) as [e He].
      { rewrite season_ref_cases, E1. unfold Show.__getitem__. rewrite E2.
        destruct (dget seas (Show.data sh)); [by eexists|].
        destruct (Show.int_like seas); by eexists. }
      exists e. by erewrite bind_err.
  - split; [done|]. intros _. exists KeyError.
    erewrite bind_err; [done|]. by rewrite season_ref_cases, E1.
Qed.

Lemma episode_ref_some sid seas ep st r :
  record_at sid seas ep st = Some r →
  Tvdb.episode_ref sid seas ep st = (Ok r, st).
Proof. apply episode_ref_cases. Qed.

Lemma episode_ref_ok sid seas ep st r :
  (Tvdb.episode_ref sid seas ep st).1 = Ok r ↔ record_at sid seas ep st = Some r.
Proof.
  destruct (episode_ref_cases sid seas ep st) as [H1 H2].
  destruct (record_at sid seas ep st) as [r'|].
  - rewrite (H1 r') by done. simpl. split; congruence.
  - destruct H2 as [e ->]; [done|]. simpl. split; congruence.
Qed.

Lemma resident_show_at sid st :
  Tvdb.resident sid st = match show_at sid st with Some _ => true | None => false end.
Proof. done. Qed.

Lemma set_seasons_twice f g sh :
  Show.set_seasons f (Show.set_seasons g sh) = Show.set_seasons (f ∘ g) sh.
Proof. done. Qed.

Lemma set_seasons_same (seasons' : pydict key Season.t) sh :
  seasons' = Show.seasons sh → Show.set_seasons (λ _, seasons') sh = sh.
Proof. destruct sh. simpl. by intros ->. Qed.

(** The second statement of [_setItem] on a resident show. *)
Lemma ensure_season sid seas st sh :
  show_at sid st = Some sh →
  (if dmem seas (Show.seasons sh) then mret tt
   else Tvdb.show_mutate sid (Show.set_seasons (dset seas Season.__init__))) st
  = (Ok tt,
     put_show sid
       (Show.set_seasons (dset seas (default [] (dget seas (Show.seasons sh)))) sh) st).
Proof.
  intros E. unfold dmem. destruct (dget seas (Show.seasons sh)) as [se|] eqn:E2; simpl.
  - unfold mret, M_ret. f_equal. symmetry. apply put_same. rewrite E. f_equal.
    destruct sh as [seasons data]. unfold Show.set_seasons. simpl in *.
    by rewrite dset_same.
  - by apply show_mutate_eq.
Qed.

(** The third statement of [_setItem] once the season is there. *)
Lemma ensure_episode sid seas ep st sh se :
  show_at sid st = Some sh → dget seas (Show.seasons sh) = Some se →
  (if dmem ep se then mret tt
   else Tvdb.season_mutate sid seas (dset ep Episode.__init__)) st
  = (Ok tt,
     put_show sid
       (Show.set_seasons (dset seas (dset ep (default [] (dget ep se)) se)) sh) st).
Proof.
  intros E E2. unfold dmem. destruct (dget ep se) as [r|] eqn:E3; simpl.
  - unfold mret, M_ret. f_equal. symmetry. apply put_same. rewrite E. f_equal.
    destruct sh as [seasons data]. unfold Show.set_seasons. simpl in *.
    by rewrite (dset_same se), dset_same.
  - unfold Tvdb.season_mutate.
    erewrite bind_ok by (by eapply season_ref_eq).
    by apply show_mutate_eq.
Qed.

Lemma setItem_ensure_resident sid seas ep st sh :
  show_at sid st = Some sh →
  Tvdb._setItem_ensure sid seas ep st = (Ok tt, put_show sid (ensured seas ep sh) st).
Proof.
  intros E. unfold Tvdb._setItem_ensure.
  erewrite bind_ok by (unfold gets; rewrite resident_show_at, E; done).
  erewrite bind_ok by done.
  erewrite bind_ok by (rewrite show_ref_eq, E; done).
  erewrite bind_ok by (by apply ensure_season).
  set (se := default [] (dget seas (Show.seasons sh))).
  set (sh1 := Show.set_seasons (dset seas se) sh).
  assert (E1 : show_at sid (put_show sid sh1 st) = Some sh1) by apply show_at_put.
  assert (E2 : dget seas (Show.seasons sh1) = Some se) by apply dget_dset_eq.
  erewrite bind_ok by (by eapply season_ref_eq).
  erewrite ensure_episode by done.
  rewrite put_put. do 2 f_equal.
  unfold sh1, ensured. fold se. rewrite set_seasons_twice.
  destruct sh as [seasons data]. unfold Show.set_seasons. simpl. f_equal.
  apply dset_dset.
Qed.

Lemma setItem_resident sid seas ep attrib v st sh :
  show_at sid st = Some sh →
  Tvdb._setItem sid seas ep attrib v st
  = (Ok tt, put_show sid (stored seas ep attrib v sh) st).
Proof.
  intros E. unfold Tvdb._setItem.
  erewrite bind_ok by (by apply setItem_ensure_resident).
  set (se := default [] (dget seas (Show.seasons sh))).
  set (r := default [] (dget ep se)).
  assert (E1 : show_at sid (put_show sid (ensured seas ep sh) st)
               = Some (ensured seas ep sh)) by apply show_at_put.
  assert (E2 : dget seas (Show.seasons (ensured seas ep sh)) = Some (dset ep r se))
    by apply dget_dset_eq.
  unfold Tvdb.episode_mutate.
  erewrite bind_ok.
  2:{ apply episode_ref_some. unfold record_at. rewrite E1.
      unfold mbind, option_bind. rewrite E2. apply dget_dset_eq. }
  unfold Tvdb.season_mutate.
  erewrite bind_ok by (by eapply season_ref_eq).
  erewrite show_mutate_eq by done.
  rewrite put_put. do 2 f_equal.
  unfold ensured, stored. fold se. fold r.
  destruct sh as [seasons data]. unfold Show.set_seasons. simpl. f_equal.
  by rewrite !dset_dset.
Qed.

(** A store under a new key keeps the ledger in order and leaves the
    value readable. *)
Lemma setitem_fresh_ok {V} t_check t_mark k (v : V) (c : ShowContainer.t V) :
  ledger_ok c → k ∉ ShowContainer._stack c →
  ∃ c', ShowContainer.__setitem__ t_check t_mark k v c = (Ok tt, c') ∧
        ledger_ok c' ∧ dget k (ShowContainer.dict c') = Some v.
Proof.
  destruct c as [d s g]. intros [Hk Hnd] Hfresh. simpl in *.
  rewrite setitem_fresh by done. eexists; split; [done|].
  assert (Hnd' : NoDup (s ++ [k])).
  { apply NoDup_app. split; [done|]. split; [|apply NoDup_singleton].
    intros x Hx Hin. apply list_elem_of_singleton in Hin. by subst. }
  assert (Hget : ∀ n, dget k (drop n d ++ [(k, v)]) = Some v).
  { intros n. rewrite <- dset_absent; [apply dget_dset_eq|].
    unfold dkeys. rewrite fmap_drop. intros Hin. apply Hfresh.
    rewrite <- Hk. by eapply subseteq_drop. }
  destruct (bool_decide (t_check - g > 20)); simpl.
  - split; [split|]; simpl.
    + unfold dkeys. rewrite fmap_app, fmap_drop. simpl. fold (dkeys d).
      rewrite Hk. rewrite drop_app_le; [done|]. rewrite length_app; simpl; lia.
    + eapply sublist_NoDup; [exact Hnd'|]. apply sublist_drop.
    + apply Hget.
  - split; [split|]; simpl.
    + unfold dkeys. rewrite fmap_app. simpl. fold (dkeys d). by rewrite Hk.
    + done.
    + apply (Hget 0%nat).
Qed.

Lemma shows_setitem_fresh sid v st :
  ledger_ok (Tvdb.shows st) → show_at sid st = None →
  ∃ st', Tvdb.shows_setitem sid v st = (Ok tt, st') ∧
         show_at sid st' = Some v ∧
         ledger_ok (Tvdb.shows st') ∧
         same_session st st'.
Proof.
  destruct_session st. unfold show_at. simpl. intros Hl Hnone.
  destruct (setitem_fresh_ok clock clock sid v (ShowContainer.mk d s g) Hl)
    as (c' & E & Hl' & Hget).
  { destruct Hl as [Hk _]. simpl in *. rewrite <- Hk. by apply dget_None. }
  unfold Tvdb.shows_setitem, Tvdb.on_shows. mstep. rewrite E.
  eexists; split; [done|]. simpl.
  split; [exact Hget|]. split; [exact Hl'|]. by unfold same_session.
Qed.

Lemma bind_unfold {S A B} (m : M S A) (f : A → M S B) s :
  (m ≫= f) s = match m s with
               | (Ok a, s') => f a s'
               | (Err e, s') => (Err e, s')
               end.
Proof. done. Qed.

(** The first statement of [_setItem] and of [_setShowData]. *)
Lemma ensure_show_step {A} sid (rest : M Tvdb.t A) st :
  (present ← gets (Tvdb.resident sid);
   (if present : bool then mret tt else Tvdb.shows_setitem sid Show.__init__);;
   rest) st
  = if Tvdb.resident sid st then rest st
    else match Tvdb.shows_setitem sid Show.__init__ st with
         | (Ok _, st1) => rest st1
         | (Err e, st1) => (Err e, st1)
         end.
Proof.
  unfold mbind, M_bind, gets. by destruct (Tvdb.resident sid st).
Qed.

Lemma setItem_ensure_fresh sid seas ep st st1 sh1 :
  show_at sid st = None →
  Tvdb.shows_setitem sid Show.__init__ st = (Ok tt, st1) →
  show_at sid st1 = Some sh1 →
  Tvdb._setItem_ensure sid seas ep st = Tvdb._setItem_ensure sid seas ep st1.
Proof.
  intros E E1 Hat. unfold Tvdb._setItem_ensure.
  rewrite !ensure_show_step, !resident_show_at, E, E1, Hat. done.
Qed.

(** [_setItem] in a session whose ledger is in order: it succeeds, and
    stores the field in the show that was there, or in a new one. *)
Lemma setItem_spec sid seas ep attrib v st :
  ledger_ok (Tvdb.shows st) →
  ∃ st', Tvdb._setItem sid seas ep attrib v st = (Ok tt, st') ∧
         show_at sid st'
           = Some (stored seas ep attrib v (default Show.__init__ (show_at sid st))) ∧
         ledger_ok (Tvdb.shows st') ∧
         same_session st st'.
Proof.
  intros Hl. destruct (show_at sid st) as [sh|] eqn:E.
  - rewrite (setItem_resident _ _ _ _ _ _ sh) by done.
    eexists; split; [done|]. split; [apply show_at_put|]. split.
    + by apply put_show_ledger.
    + apply put_show_same_session.
  - destruct (shows_setitem_fresh sid Show.__init__ st Hl E)
      as (st1 & E1 & Hat & Hl1 & Hsame).
    assert (Tvdb._setItem sid seas ep attrib v st
            = Tvdb._setItem sid seas ep attrib v st1) as ->.
    { unfold Tvdb._setItem.
      rewrite !(bind_unfold (Tvdb._setItem_ensure sid seas ep)).
      by rewrite (setItem_ensure_fresh sid seas ep st st1 Show.__init__). }
    rewrite (setItem_resident _ _ _ _ _ _ Show.__init__) by done.
    eexists; split; [done|]. split; [apply show_at_put|]. split.
    + by apply put_show_ledger.
    + destruct Hsame as (? & ? & ? & ?).
      pose proof (put_show_same_session sid
        (stored seas ep attrib v Show.__init__) st1) as (? & ? & ? & ?).
      repeat split; congruence.
Qed.

Lemma record_at_stored sid seas ep attrib v sh st :
  record_at sid seas ep (put_show sid (stored seas ep attrib v sh) st)
  = Some (dset attrib v
            (default [] (dget seas (Show.seasons sh) ≫= dget ep))).
Proof.
  unfold record_at. rewrite show_at_put. unfold mbind at 1 2, option_bind.
  unfold stored. cbn [Show.seasons Show.set_seasons]. rewrite dget_dset_eq.
  rewrite dget_dset_eq. by destruct (dget seas (Show.seasons sh)).
Qed.

Lemma ensured_same seas ep sh se r :
  dget seas (Show.seasons sh) = Some se → dget ep se = Some r →
  ensured seas ep sh = sh.
Proof.
  intros E1 E2. unfold ensured. rewrite E1. simpl. rewrite E2. simpl.
  destruct sh as [seasons data]. unfold Show.set_seasons. simpl in *.
  by rewrite (dset_same se), dset_same.
Qed.

Lemma record_at_show sid seas ep st r :
  record_at sid seas ep st = Some r →
  ∃ sh se, show_at sid st = Some sh ∧ dget seas (Show.seasons sh) = Some se ∧
           dget ep se = Some r.
Proof.
  unfold record_at. destruct (show_at sid st) as [sh|]; [|done]. simpl.
  destruct (dget seas (Show.seasons sh)) as [se|] eqn:E; [|done]. simpl.
  intros Hr. by exists sh, se.
Qed.

(** ** Creating and finding records *)

(** C8.  In a session whose ledger is in order, [_setItem] succeeds and
    the record then read at [self.shows[sid][seas][ep]] is the record that
    was there (a new, empty one if there was none) with the field stored.
    Where the record exists, the creating statements of [_setItem] change
    nothing in the session, and a second [_setItem] stores its one field in
    the record that is there: every other field reads as before. *)
Theorem C8_ensure_then_get :
  (∀ st sid seas ep attrib v,
     ledger_ok (Tvdb.shows st) →
     ∃ st' r,
       Tvdb._setItem sid seas ep attrib v st = (Ok tt, st') ∧
       Tvdb.episode_ref sid seas ep st' = (Ok r, st') ∧
       r = dset attrib v (default [] (record_at sid seas ep st)) ∧
       Episode.__getitem__ r attrib = Ok v ∧
       Tvdb._setItem_ensure sid seas ep st' = (Ok tt, st')) ∧
  (∀ st sid seas ep r,
     (Tvdb.episode_ref sid seas ep st).1 = Ok r →
     Tvdb._setItem_ensure sid seas ep st = (Ok tt, st) ∧
     ∀ attrib v,
       ∃ st', Tvdb._setItem sid seas ep attrib v st = (Ok tt, st') ∧
              Tvdb.episode_ref sid seas ep st' = (Ok (dset attrib v r), st') ∧
              ∀ b, b ≠ attrib →
                   Episode.__getitem__ (dset attrib v r) b = Episode.__getitem__ r b).
Proof.
  assert (Hexisting : ∀ st sid seas ep r,
    record_at sid seas ep st = Some r →
    Tvdb._setItem_ensure sid seas ep st = (Ok tt, st) ∧
    ∀ attrib v,
      Tvdb._setItem sid seas ep attrib v st
      = (Ok tt, put_show sid
                  (stored seas ep attrib v (default Show.__init__ (show_at sid st))) st) ∧
      record_at sid seas ep
        (put_show sid (stored seas ep attrib v (default Show.__init__ (show_at sid st))) st)
      = Some (dset attrib v r)).
  { intros st sid seas ep r Hr.
    destruct (record_at_show _ _ _ _ _ Hr) as (sh & se & E1 & E2 & E3).
    split.
    - rewrite (setItem_ensure_resident _ _ _ _ sh) by done.
      rewrite (ensured_same _ _ _ se r) by done. by rewrite put_same.
    - intros attrib v. rewrite E1. simpl. split.
      + by apply setItem_resident.
      + rewrite record_at_stored, E2. simpl. by rewrite E3. }
  split.
  - intros st sid seas ep attrib v Hl.
    destruct (setItem_spec sid seas ep attrib v st Hl) as (st' & E & Hat & Hl' & _).
    set (sh := default Show.__init__ (show_at sid st)) in *.
    assert (Hr : record_at sid seas ep st'
                 = Some (dset attrib v (default [] (record_at sid seas ep st)))).
    { unfold record_at at 1. rewrite Hat. unfold mbind at 1 2, option_bind.
      unfold stored. cbn [Show.seasons Show.set_seasons].
      rewrite !dget_dset_eq. do 2 f_equal.
      unfold record_at, sh. destruct (show_at sid st) as [sh0|]; simpl; [|done].
      by destruct (dget seas (Show.seasons sh0)). }
    exists st', (dset attrib v (default [] (record_at sid seas ep st))).
    split; [done|]. split; [by apply episode_ref_some|]. split; [done|]. split.
    + unfold Episode.__getitem__. by rewrite dget_dset_eq.
    + by apply (Hexisting _ _ _ _ _ Hr).
  - intros st sid seas ep r Hr. apply episode_ref_ok in Hr.
    destruct (Hexisting _ _ _ _ _ Hr) as [He Hs]. split; [done|].
    intros attrib v. destruct (Hs attrib v) as [E Hr'].
    eexists. split; [exact E|]. split; [by apply episode_ref_some|].
    intros b Hb. unfold Episode.__getitem__. by rewrite dget_dset_ne.
Qed.

(** Two stores in the record (1, 24) of show 76156 of a new session. *)
Lemma C8_ensure_witness :
  ∃ st' st'',
    Tvdb._setItem (KInt 76156) (KInt 1) (KInt 24) (KStr "episodeName")
      (VStr "My Last Day") session0 = (Ok tt, st') ∧
    Tvdb._setItem_ensure (KInt 76156) (KInt 1) (KInt 24) st' = (Ok tt, st') ∧
    Tvdb._setItem (KInt 76156) (KInt 1) (KInt 24) (KStr "id") (VInt 7) st' = (Ok tt, st'') ∧
    Tvdb.episode_ref (KInt 76156) (KInt 1) (KInt 24) st''
    = (Ok [(KStr "episodeName", VStr "My Last Day"); (KStr "id", VInt 7)], st'').
Proof.
  destruct C8_ensure_then_get as [H1 H2].
  destruct (H1 session0 (KInt 76156) (KInt 1) (KInt 24) (KStr "episodeName")
              (VStr "My Last Day")) as (st' & r & E & Eref & -> & _ & Hens).
  { split; [reflexivity | constructor]. }
  destruct (H2 st' (KInt 76156) (KInt 1) (KInt 24) _ (f_equal fst Eref)) as [_ Hs].
  destruct (Hs (KStr "id") (VInt 7)) as (st'' & E2 & Eref2 & _).
  exists st', st''. split; [exact E|]. split; [exact Hens|]. split; [exact E2|].
  exact Eref2.
Defined.

(** ** What population leaves alone *)

Section respects_facts.
Context {S : Type} (R : relation S) `{!PreOrder R}.

Lemma respects_ret {A} (a : A) : respects R (mret a).
Proof using Type*. intros s. reflexivity. Qed.

Lemma respects_raise {A} e : respects R (raise e : M S A).
Proof using Type*. intros s. reflexivity. Qed.

Lemma respects_gets {A} (f : S → A) : respects R (gets f).
Proof using Type*. intros s. reflexivity. Qed.

Lemma respects_of_result {A} (r : result A) : respects R (of_result r).
Proof using Type*. intros s. reflexivity. Qed.

Lemma respects_bind {A B} (m : M S A) (f : A → M S B) :
  respects R m → (∀ a, respects R (f a)) → respects R (m ≫= f).
Proof using Type*.
  intros Hm Hf s. rewrite bind_unfold. specialize (Hm s).
  destruct (m s) as [[a|e] s1]; simpl in *; [|done].
  etrans; [exact Hm | apply Hf].
Qed.

Lemma respects_for {A} (l : list A) (body : A → M S unit) :
  (∀ x, respects R (body x)) → respects R (for_ l body).
Proof using Type*.
  intros Hb. induction l as [|x l IH]; simpl.
  - apply respects_ret.
  - apply respects_bind; [apply Hb | done].
Qed.

Lemma respects_fold {A B} (l : list A) (acc : B) (body : B → A → M S B) :
  (∀ b x, respects R (body b x)) → respects R (fold_ l acc body).
Proof using Type*.
  intros Hb. revert acc. induction l as [|x l IH]; intros acc; simpl.
  - apply respects_ret.
  - apply respects_bind; [apply Hb | done].
Qed.
End respects_facts.

#[global] Instance populated_from_preorder : PreOrder populated_from.
Proof.
  split.
  - intros st. split; [done|]. do 3 (split; [done|]).
    exists []. by rewrite app_nil_r.
  - intros st1 st2 st3. unfold populated_from.
    intros (Hl1 & Hc1 & Hg1 & Hn1 & sent1 & Hr1 & Hs1)
      (Hl2 & Hc2 & Hg2 & Hn2 & sent2 & Hr2 & Hs2).
    split; [tauto|]. do 3 (split; [congruence|]).
    exists (sent1 ++ sent2). split.
    + by rewrite Hr2, Hr1, <- app_assoc.
    + by apply Forall_app.
Qed.

#[global] Instance same_session_preorder : PreOrder same_session.
Proof.
  split.
  - by intros st.
  - intros st1 st2 st3 (?&?&?&?) (?&?&?&?). repeat split; congruence.
Qed.

Create HintDb respects.

Ltac respects_step :=
  first
    [ apply respects_ret; apply _ | apply respects_raise; apply _
    | apply respects_gets; apply _ | apply respects_of_result; apply _
    | solve [auto with respects]
    | apply respects_for; [apply _ | intros]
    | apply respects_fold; [apply _ | intros]
    | apply respects_bind; [apply _ | | intros]
    | match goal with
      | |- respects _ (if ?b then _ else _) => destruct b
      | |- respects _ (match ?x with _ => _ end) => destruct x
      | |- respects _ (let (_, _) := ?x in _) => destruct x
      end ].

Ltac respects_tac := repeat respects_step.

Lemma same_session_populated st st' :
  same_session st st' →
  (ledger_ok (Tvdb.shows st) → ledger_ok (Tvdb.shows st')) →
  populated_from st st'.
Proof.
  intros (Hc & Hg & Hn & Hr) Hl. split; [done|]. do 3 (split; [done|]).
  exists []. by rewrite Hr, app_nil_r.
Qed.

Lemma on_shows_same_session {A} (m : M (ShowContainer.t Show.t) A) :
  respects same_session (Tvdb.on_shows m).
Proof.
  intros st. destruct_session st. unfold Tvdb.on_shows. simpl.
  by destruct (m _) as [r c].
Qed.

Lemma set_shows_same_session f : respects same_session (modify (Tvdb.set_shows f)).
Proof. intros st. by destruct_session st. Qed.

#[global] Hint Resolve on_shows_same_session set_shows_same_session : respects.

Lemma setItem_same_session sid seas ep attrib v :
  respects same_session (Tvdb._setItem sid seas ep attrib v).
Proof.
  unfold Tvdb._setItem, Tvdb._setItem_ensure, Tvdb.episode_mutate,
    Tvdb.episode_ref, Tvdb.season_mutate, Tvdb.season_ref, Tvdb.show_mutate,
    Tvdb.show_ref, Tvdb.shows_setitem.
  respects_tac.
Qed.

Lemma setShowData_same_session sid k v :
  respects same_session (Tvdb._setShowData sid k v).
Proof.
  unfold Tvdb._setShowData, Tvdb.show_mutate, Tvdb.show_ref, Tvdb.shows_setitem.
  respects_tac.
Qed.

Lemma setShowData_spec sid k v st :
  ledger_ok (Tvdb.shows st) →
  ∃ st', Tvdb._setShowData sid k v st = (Ok tt, st') ∧
         show_at sid st'
           = Some (Show.set_data (dset k v) (default Show.__init__ (show_at sid st))) ∧
         ledger_ok (Tvdb.shows st').
Proof.
  intros Hl. unfold Tvdb._setShowData. rewrite ensure_show_step, resident_show_at.
  destruct (show_at sid st) as [sh|] eqn:E.
  - rewrite (show_mutate_eq _ _ _ sh) by done.
    eexists; split; [done|]. split; [apply show_at_put|].
    by apply put_show_ledger.
  - destruct (shows_setitem_fresh sid Show.__init__ st Hl E)
      as (st1 & -> & Hat & Hl1 & _).
    rewrite (show_mutate_eq _ _ _ Show.__init__) by done.
    eexists; split; [done|]. split; [apply show_at_put|].
    by apply put_show_ledger.
Qed.

Lemma setItem_populated sid seas ep attrib v :
  respects populated_from (Tvdb._setItem sid seas ep attrib v).
Proof.
  intros st. apply same_session_populated; [apply setItem_same_session|].
  intros Hl. destruct (setItem_spec sid seas ep attrib v st Hl) as (st' & E & _ & Hl' & _).
  by rewrite E.
Qed.

Lemma setShowData_populated sid k v :
  respects populated_from (Tvdb._setShowData sid k v).
Proof.
  intros st. apply same_session_populated; [apply setShowData_same_session|].
  intros Hl. destruct (setShowData_spec sid k v st Hl) as (st' & E & _ & Hl').
  by rewrite E.
Qed.

Lemma getetsrc_populated {A} rq (reply : A) :
  is_search rq = false → respects populated_from (Tvdb._getetsrc rq reply).
Proof.
  intros Hrq st. destruct_session st. unfold Tvdb._getetsrc. mstep.
  split; [done|]. do 3 (split; [done|]). exists [rq]. split; [done|].
  by constructor.
Qed.

#[global] Hint Resolve setItem_populated setShowData_populated : respects.
#[global] Hint Extern 1 (respects populated_from (Tvdb._getetsrc _ _)) =>
  apply getetsrc_populated; reflexivity : respects.

Lemma getShowData_episode_populated sid cur_ep :
  respects populated_from (Tvdb._getShowData_episode sid cur_ep).
Proof. unfold Tvdb._getShowData_episode. respects_tac. Qed.

Lemma parseBanners_populated w sid :
  respects populated_from (Tvdb._parseBanners w sid).
Proof. unfold Tvdb._parseBanners. respects_tac. Qed.

Lemma parseActors_populated w sid :
  respects populated_from (Tvdb._parseActors w sid).
Proof. unfold Tvdb._parseActors. respects_tac. Qed.

#[global] Hint Resolve getShowData_episode_populated parseBanners_populated
  parseActors_populated : respects.

(** Population sends no search, records no name, and keeps the ledger
    in order. *)
Lemma getShowData_populated w sid lang :
  respects populated_from (Tvdb._getShowData w sid lang).
Proof. unfold Tvdb._getShowData. respects_tac. Qed.

(** ** Resolving names and looking shows up *)

Lemma respects_eq_state {S A} (m : M S A) s : respects eq m → (m s).2 = s.
Proof. intros Hm. symmetry. apply Hm. Qed.

Lemma bind_state_eq {S A B} (m : M S A) (f : A → M S B) s :
  (∀ a, respects eq (f a)) → ((m ≫= f) s).2 = (m s).2.
Proof.
  intros Hf. rewrite bind_unfold. destruct (m s) as [[a|e] s1]; [|done].
  by apply respects_eq_state.
Qed.

(** [_getSeries] sends the one search request, whatever it returns. *)
Lemma getSeries_state w name st :
  (Tvdb._getSeries w name st).2 = Tvdb.set_requests (λ l, l ++ [GetSeries name]) st.
Proof.
  unfold Tvdb._getSeries. rewrite bind_state_eq by (intros; respects_tac).
  unfold Tvdb.search. rewrite bind_state_eq by (intros; respects_tac).
  done.
Qed.

Lemma nameToSid_known w name st sid :
  dget name (Tvdb.corrections st) = Some sid →
  Tvdb._nameToSid w name st = (Ok sid, st).
Proof.
  intros E. unfold Tvdb._nameToSid. rewrite bind_unfold. unfold gets.
  by rewrite E.
Qed.

Lemma nameToSid_new w name st d :
  dget name (Tvdb.corrections st) = None →
  (Tvdb._getSeries w name st).1 = Ok d →
  Tvdb._nameToSid w name st =
  let stb := Tvdb.set_corrections (dset name (series_id d))
               (Tvdb.set_requests (λ l, l ++ [GetSeries name]) st) in
  match Tvdb._getShowData w (series_id d) (Tvdb.language (Tvdb.config stb)) stb with
  | (Ok _, stc) => (Ok (series_id d), stc)
  | (Err e, stc) => (Err e, stc)
  end.
Proof.
  intros Hnew Hsel. unfold Tvdb._nameToSid. rewrite bind_unfold. unfold gets at 1.
  rewrite Hnew. rewrite bind_unfold.
  pose proof (getSeries_state w name st) as Hsta.
  destruct (Tvdb._getSeries w name st) as [r sta]. simpl in Hsel, Hsta.
  subst r sta. done.
Qed.

Lemma filter_none {A} (P : A → bool) (l : list A) :
  Forall (λ x, P x = false) l → filter (λ x, P x) l = [].
Proof.
  induction 1 as [|x l Hx _ IH]; [done|].
  rewrite filter_cons_False; [done|]. by apply Is_true_false.
Qed.

(** *** Requests and the series search *)

Lemma getetsrc_eq {A} rq (reply : A) st :
  Tvdb._getetsrc rq reply st = (Ok reply, sending [rq] st).
Proof. done. Qed.

Lemma sending_sending a b st : sending a (sending b st) = sending (b ++ a) st.
Proof.
  destruct_session st. unfold sending, Tvdb.set_requests. simpl.
  by rewrite <- app_assoc.
Qed.

Lemma sending_nil st : sending [] st = st.
Proof.
  destruct_session st. unfold sending, Tvdb.set_requests. simpl.
  by rewrite app_nil_r.
Qed.

Lemma sending_show_at sent sid st : show_at sid (sending sent st) = show_at sid st.
Proof. by destruct_session st. Qed.

Lemma sending_ledger sent st :
  ledger_ok (Tvdb.shows st) → ledger_ok (Tvdb.shows (sending sent st)).
Proof. by destruct_session st. Qed.

Lemma count_sending P sent st :
  count_requests P (sending sent st)
  = (count_requests P st + length (filter (λ rq, P rq) sent))%nat.
Proof.
  destruct_session st. unfold count_requests, sending. simpl.
  by rewrite filter_app, length_app.
Qed.

(** The loop of [search]: every candidate gets the identifier of the
    session's language; without a language, or without an identifier for
    it, the first candidate raises [KeyError]. *)
Lemma search_loop found acc st :
  fold_ found acc (λ allSeries series,
    lang ← gets (λ st, Tvdb.language (Tvdb.config st));
    lid ← of_result (match lang with
                     | Some l => dict_getitem l langabbv_to_id
                     | None => Err KeyError
                     end);
    mret (allSeries ++
          [{| series_id := series_id series;
              series_name := series_name series;
              series_fields := dset (KStr "lid") (VInt lid) (series_fields series) |}]))
    st
  = (match found with
     | [] => Ok acc
     | _ :: _ =>
         match Tvdb.language (Tvdb.config st) ≫= λ l, dget l langabbv_to_id with
         | Some lid => Ok (acc ++ map (with_lid lid) found)
         | None => Err KeyError
         end
     end, st).
Proof.
  revert acc. induction found as [|s found IH]; intros acc; [done|].
  cbn [fold_]. rewrite bind_unfold, bind_unfold. unfold gets at 1.
  unfold dict_getitem.
  destruct (Tvdb.language (Tvdb.config st)) as [l|] eqn:El; [|done].
  cbn [mbind option_bind].
  destruct (dget l langabbv_to_id) as [lid|] eqn:Ed; [|done].
  rewrite bind_unfold. unfold of_result at 1, mret at 1, M_ret at 1.
  rewrite IH. destruct found as [|s' found]; [done|].
  cbn [mbind option_bind]. rewrite ?Ed.
  simpl. by rewrite <- app_assoc.
Qed.

(** What [_getSeries] returns depends on the configuration and the
    replies only. *)
Lemma getSeries_config w name st st' :
  Tvdb.config st = Tvdb.config st' →
  (Tvdb._getSeries w name st).1 = (Tvdb._getSeries w name st').1.
Proof.
  intros Hc. unfold Tvdb._getSeries, Tvdb.search.
  rewrite !bind_unfold, !getetsrc_eq.
  destruct (getSeries_data w name) as [[|s found]|]; [done| |done].
  rewrite !search_loop.
  assert (Ec : ∀ l x, Tvdb.config (sending l x) = Tvdb.config x)
    by (intros l x; by destruct_session x).
  rewrite !Ec, <- Hc.
  destruct (Tvdb.language (Tvdb.config st) ≫= λ l, dget l langabbv_to_id); [|done].
  rewrite !bind_unfold. unfold gets. by rewrite !Ec, <- Hc.
Qed.

Lemma getSeries_sending w name sent st :
  (Tvdb._getSeries w name (sending sent st)).1 = (Tvdb._getSeries w name st).1.
Proof. apply getSeries_config. by destruct_session st. Qed.

Lemma nameToSid_fails w name st e :
  dget name (Tvdb.corrections st) = None →
  (Tvdb._getSeries w name st).1 = Err e →
  Tvdb._nameToSid w name st = (Err e, sending [GetSeries name] st).
Proof.
  intros Hnew Hsel. unfold Tvdb._nameToSid. rewrite bind_unfold. unfold gets at 1.
  rewrite Hnew. rewrite bind_unfold.
  pose proof (getSeries_state w name st) as Hsta.
  destruct (Tvdb._getSeries w name st) as [r sta]. simpl in Hsel, Hsta.
  by subst r sta.
Qed.

(** *** The loop over the series document *)

Lemma info_loop sid (info : list (key * value)) st :
  ledger_ok (Tvdb.shows st) →
  ∃ st', for_ info (λ '(tag, v),
           Tvdb._setShowData sid tag
             (DValue (if bool_decide (v ≠ VNone)
                         && bool_decide (tag ∈ [KStr "banner"; KStr "fanart"; KStr "poster"])
                      then url_artworkPrefix v else v))) st = (Ok tt, st') ∧
         ledger_ok (Tvdb.shows st') ∧
         same_session st st' ∧
         (info = [] → st' = st) ∧
         (info ≠ [] →
          show_at sid st'
          = Some (Show.set_data (store_data info)
                    (default Show.__init__ (show_at sid st)))).
Proof.
  revert st. induction info as [|[tag v] info IH]; intros st Hl.
  - exists st. split; [done|]. split; [done|]. split; [reflexivity|]. by split.
  - destruct (setShowData_spec sid tag (series_value tag v) st Hl)
      as (st1 & E1 & Hat1 & Hl1).
    pose proof (setShowData_same_session sid tag (series_value tag v) st) as Hs1.
    rewrite E1 in Hs1. simpl in Hs1.
    destruct (IH st1 Hl1) as (st' & E' & Hl' & Hs' & Hnil & Hat').
    exists st'. split.
    { cbn [for_]. erewrite bind_ok by exact E1. exact E'. }
    split; [done|]. split; [by etrans|]. split; [done|]. intros _.
    destruct info as [|item' items].
    + rewrite (Hnil eq_refl). by rewrite Hat1.
    + rewrite Hat' by done. by rewrite Hat1.
Qed.

Lemma getShowData_episode_same_session sid cur_ep :
  respects same_session (Tvdb._getShowData_episode sid cur_ep).
Proof.
  pose proof setItem_same_session.
  unfold Tvdb._getShowData_episode. respects_tac.
Qed.

(** With banners and actors off, population sends the request for the
    series document and, when that has data, the one for the episodes,
    and no other; without data it raises [AttributeError]. *)
Lemma getShowData_two_requests w sid l info st :
  ledger_ok (Tvdb.shows st) →
  Tvdb.language (Tvdb.config st) = Some l →
  Tvdb.banners_enabled (Tvdb.config st) = false →
  Tvdb.actors_enabled (Tvdb.config st) = false →
  seriesInfo_data w sid = Some info →
  Tvdb.requests (Tvdb._getShowData w sid (Some l) st).2
  = Tvdb.requests st ++ [SeriesInfo sid; EpInfo sid].
Proof.
  intros Hl Hlang Hban Hact Hinfo.
  set (sa := sending [SeriesInfo sid] st).
  destruct (info_loop sid info sa) as (sb & Eb & Hlb & Hsb & _);
    [by apply sending_ledger|].
  set (sc := sending [EpInfo sid] sb).
  assert (Hreq : Tvdb.requests sc = Tvdb.requests st ++ [SeriesInfo sid; EpInfo sid]).
  { destruct Hsb as (_ & _ & _ & Hr). unfold sc, sa in *.
    destruct st, sb. simpl in *. subst. by rewrite <- app_assoc. }
  unfold Tvdb._getShowData. rewrite bind_unfold. unfold gets at 1.
  rewrite Hlang, Hban, Hact. rewrite bind_unfold. unfold mret at 1, M_ret at 1.
  rewrite bind_unfold, getetsrc_eq, Hinfo. fold sa.
  rewrite bind_unfold, Eb. rewrite bind_unfold. unfold mret at 1, M_ret at 1.
  rewrite bind_unfold. unfold mret at 1, M_ret at 1.
  rewrite bind_unfold, getetsrc_eq. fold sc.
  destruct (epInfo_data w sid) as [eps|]; [|done].
  assert (Hloop : respects same_session (for_ eps (Tvdb._getShowData_episode sid))).
  { apply respects_for; [apply _|]. intros. apply getShowData_episode_same_session. }
  destruct (Hloop sc) as (_ & _ & _ & ->). done.
Qed.

Lemma getShowData_no_document w sid l st :
  Tvdb.language (Tvdb.config st) = Some l →
  seriesInfo_data w sid = None →
  Tvdb._getShowData w sid (Some l) st = (Err AttributeError, sending [SeriesInfo sid] st).
Proof.
  intros Hlang Hinfo.
  unfold Tvdb._getShowData. rewrite bind_unfold. unfold gets at 1.
  rewrite Hlang. rewrite bind_unfold. unfold mret at 1, M_ret at 1.
  by rewrite bind_unfold, getetsrc_eq, Hinfo.
Qed.

(** C5, as stated, fails for a name without candidates: each of two
    calls searches and raises [tvdb_shownotfound], and nothing is
    recorded. *)
Lemma C5_unknown_name_counterexample :
  let w := scrubs_world scrubs_info [] in
  let st1 := (Tvdb._nameToSid w "Lost" session0).2 in
  let st2 := (Tvdb._nameToSid w "Lost" st1).2 in
  (Tvdb._nameToSid w "Lost" session0).1 = Err tvdb_shownotfound ∧
  (Tvdb._nameToSid w "Lost" st1).1 = Err tvdb_shownotfound ∧
  Tvdb.corrections st2 = [] ∧
  Tvdb.requests st2 = [GetSeries "Lost"; GetSeries "Lost"] ∧
  count_requests is_search st2 = 2%nat ∧
  count_requests is_search st2 ≠ 1%nat.
Proof.
  cbv zeta. split; [|split; [|split; [|split; [|split]]]];
    try (vm_compute; reflexivity).
  vm_compute. discriminate.
Qed.

(** C5, amended.  If the name is not yet in the correction map and the
    search and the selection yield a candidate, the first call of
    [_nameToSid] sends exactly one search request and records the
    candidate's identifier under the name, also when the population that
    follows fails; if it returns, it returns that identifier.  The second
    call returns the same identifier and leaves the session as it is: no
    request is sent.  If the search or the selection raises, so does
    [_nameToSid]; nothing is recorded, the session differs only by the
    search request, and a second call searches and raises again. *)
Theorem C5_resolver_memoizes :
  (∀ w st name d,
     dget name (Tvdb.corrections st) = None →
     (Tvdb._getSeries w name st).1 = Ok d →
     let st1 := (Tvdb._nameToSid w name st).2 in
     dget name (Tvdb.corrections st1) = Some (series_id d) ∧
     (∀ sid, (Tvdb._nameToSid w name st).1 = Ok sid → sid = series_id d) ∧
     count_requests is_search st1 = S (count_requests is_search st) ∧
     Tvdb._nameToSid w name st1 = (Ok (series_id d), st1) ∧
     count_requests is_search (Tvdb._nameToSid w name st1).2
     = S (count_requests is_search st)) ∧
  (∀ w st name e,
     dget name (Tvdb.corrections st) = None →
     (Tvdb._getSeries w name st).1 = Err e →
     let st1 := sending [GetSeries name] st in
     let st2 := sending [GetSeries name; GetSeries name] st in
     Tvdb._nameToSid w name st = (Err e, st1) ∧
     Tvdb._nameToSid w name st1 = (Err e, st2) ∧
     Tvdb.corrections st2 = Tvdb.corrections st ∧
     count_requests is_search st2 = S (S (count_requests is_search st))).
Proof.
  split.
  - intros w st name d Hnew Hsel st1.
    assert (Hst1 : populated_from
              (Tvdb.set_corrections (dset name (series_id d))
                 (Tvdb.set_requests (λ l, l ++ [GetSeries name]) st)) st1
            ∧ ∀ sid, (Tvdb._nameToSid w name st).1 = Ok sid → sid = series_id d).
    { unfold st1. rewrite (nameToSid_new w name st d) by done. cbv zeta.
      set (stb := Tvdb.set_corrections _ _).
      pose proof (getShowData_populated w (series_id d)
                    (Tvdb.language (Tvdb.config stb)) stb) as Hpop.
      destruct (Tvdb._getShowData w (series_id d) _ stb) as [[[]|e] stc];
        simpl in *; (split; [done|]); [|done].
      by intros sid [= <-]. }
    destruct Hst1 as [(_ & Hcor & _ & _ & sent & Hreq & Hsent) Hret].
    assert (E1 : dget name (Tvdb.corrections st1) = Some (series_id d)).
    { rewrite Hcor. destruct_session st. simpl. apply dget_dset_eq. }
    assert (E2 : count_requests is_search st1 = S (count_requests is_search st)).
    { unfold count_requests. rewrite Hreq. destruct_session st. simpl.
      rewrite !filter_app, !length_app, (filter_none _ sent Hsent). simpl. lia. }
    split; [done|]. split; [done|]. split; [done|].
    rewrite (nameToSid_known w name st1 (series_id d)) by done. done.
  - intros w st name e Hnew Hsel st1 st2.
    split; [by apply nameToSid_fails|]. split.
    + unfold st1, st2. rewrite (nameToSid_fails w name _ e).
      * by rewrite sending_sending.
      * by destruct_session st.
      * by rewrite getSeries_sending.
    + split; [by destruct_session st|].
      unfold st2. rewrite count_sending. simpl. lia.
Qed.

(** "Scrubs" resolved twice in a new session, and "Lost", for which the
    search has no candidate. *)
Lemma C5_resolver_witness :
  let w := scrubs_world scrubs_info [aired_item (VInt 1) (VInt 1) "My First Day"] in
  let st1 := (Tvdb._nameToSid w "Scrubs" session0).2 in
  Tvdb._nameToSid w "Scrubs" session0 = (Ok (KInt 76156), st1) ∧
  Tvdb._nameToSid w "Scrubs" st1 = (Ok (KInt 76156), st1) ∧
  count_requests is_search st1 = 1%nat ∧
  Tvdb._nameToSid w "Lost" (sending [GetSeries "Lost"] session0)
  = (Err tvdb_shownotfound, sending [GetSeries "Lost"; GetSeries "Lost"] session0).
Proof.
  intros w st1. destruct C5_resolver_memoizes as [Hok Hfail].
  destruct (Hok w session0 "Scrubs"%string
              (mkSeries (KInt 76156) (VStr "Scrubs") [(KStr "lid", VInt 7)]))
    as (_ & _ & Hcount & Hsecond & _); [reflexivity | reflexivity |].
  destruct (Hfail w session0 "Lost"%string tvdb_shownotfound)
    as (_ & Hagain & _); [reflexivity | reflexivity |].
  split; [vm_compute; reflexivity|]. split; [exact Hsecond|].
  split; [exact Hcount | exact Hagain].
Defined.

Lemma getitem_int_resident w n st sh :
  show_at (KInt n) st = Some sh →
  Tvdb.__getitem__ w (KInt n) st = (Ok sh, st).
Proof.
  intros E. unfold Tvdb.__getitem__. rewrite bind_unfold. unfold gets at 1.
  rewrite resident_show_at, E. rewrite bind_unfold. unfold mret at 1, M_ret at 1.
  by rewrite show_ref_eq, E.
Qed.

Lemma getitem_name_known w name st sid :
  dget name (Tvdb.corrections st) = Some sid →
  Tvdb.__getitem__ w (KStr name) st
  = (match show_at sid st with Some sh => Ok sh | None => Err KeyError end, st).
Proof.
  intros E. unfold Tvdb.__getitem__.
  erewrite bind_ok by (by apply nameToSid_known). apply show_ref_eq.
Qed.

(** Population begins with the request for the series document. *)
Lemma getShowData_requests w sid l st :
  Tvdb.language (Tvdb.config st) = Some l →
  ∃ sent, Tvdb.requests (Tvdb._getShowData w sid (Some l) st).2
          = Tvdb.requests st ++ SeriesInfo sid :: sent.
Proof.
  intros Hl. unfold Tvdb._getShowData. rewrite bind_unfold. unfold gets at 1.
  rewrite Hl. rewrite bind_unfold. unfold mret at 1, M_ret at 1.
  rewrite bind_unfold. unfold Tvdb._getetsrc at 1. rewrite bind_unfold.
  unfold modify at 1. unfold mret at 1, M_ret at 1.
  set (st1 := Tvdb.set_requests _ st).
  match goal with
  | |- ∃ sent, Tvdb.requests (?m st1).2 = _ =>
      assert (Hm : respects populated_from m)
        by respects_tac;
      destruct (Hm st1) as (_ & _ & _ & _ & sent & Hreq & _)
  end.
  exists sent. rewrite Hreq. destruct_session st. simpl. by rewrite <- app_assoc.
Qed.

(** ** Looking up what is resident *)

(** The session after show 76156 was looked up by its identifier. *)
Example session_with_scrubs :
  let w := scrubs_world scrubs_info [aired_item (VInt 1) (VInt 1) "My First Day"] in
  let st1 := (Tvdb.__getitem__ w (KInt 76156) session0).2 in
  Tvdb.resident (KInt 76156) st1 = true ∧
  Tvdb.requests st1 = [SeriesInfo (KInt 76156); EpInfo (KInt 76156)].
Proof. split; vm_compute; reflexivity. Qed.

(** C4, as stated, fails for a name that is not yet in the correction
    map: the show is resident, the name resolves to it, and the lookup by
    the name fetches its document and its episodes again. *)
Lemma C4_refetch_counterexample :
  let w := scrubs_world scrubs_info [aired_item (VInt 1) (VInt 1) "My First Day"] in
  let st1 := (Tvdb.__getitem__ w (KInt 76156) session0).2 in
  let st2 := (Tvdb.__getitem__ w (KStr "Scrubs") st1).2 in
  Tvdb.resident (KInt 76156) st1 = true ∧
  (Tvdb.__getitem__ w (KStr "Scrubs") st1).1 = (Tvdb.show_ref (KInt 76156) st2).1 ∧
  dget "Scrubs"%string (Tvdb.corrections st2) = Some (KInt 76156) ∧
  count_requests (is_fetch (KInt 76156)) st1 = 2%nat ∧
  count_requests (is_fetch (KInt 76156)) st2 = 4%nat ∧
  Tvdb.requests st2
  = [SeriesInfo (KInt 76156); EpInfo (KInt 76156);
     GetSeries "Scrubs"; SeriesInfo (KInt 76156); EpInfo (KInt 76156)].
Proof.
  cbv zeta. split; [|split; [|split; [|split; [|split]]]]; vm_compute; reflexivity.
Qed.

(** C4, amended.  A lookup by the identifier of a resident show, or by a
    name that the correction map resolves to a resident show, returns the
    show and leaves the session as it is: nothing is requested.  A lookup
    by a name that the correction map does not hold searches, and then
    requests the series document of the selected identifier, resident or
    not.  With banners and actors off, the request for the episodes
    follows when the series document has data, and these three requests
    are all; when the document has no data the lookup raises
    [AttributeError] after the first two. *)
Theorem C4_resident_not_refetched :
  (∀ w st n sh,
     show_at (KInt n) st = Some sh →
     Tvdb.__getitem__ w (KInt n) st = (Ok sh, st)) ∧
  (∀ w st name sid sh,
     dget name (Tvdb.corrections st) = Some sid →
     show_at sid st = Some sh →
     Tvdb.__getitem__ w (KStr name) st = (Ok sh, st)) ∧
  (∀ w st name d l,
     dget name (Tvdb.corrections st) = None →
     (Tvdb._getSeries w name st).1 = Ok d →
     Tvdb.language (Tvdb.config st) = Some l →
     (∃ sent, Tvdb.requests (Tvdb.__getitem__ w (KStr name) st).2
              = Tvdb.requests st ++ GetSeries name :: SeriesInfo (series_id d) :: sent) ∧
     (∀ info,
        ledger_ok (Tvdb.shows st) →
        Tvdb.banners_enabled (Tvdb.config st) = false →
        Tvdb.actors_enabled (Tvdb.config st) = false →
        seriesInfo_data w (series_id d) = Some info →
        Tvdb.requests (Tvdb.__getitem__ w (KStr name) st).2
        = Tvdb.requests st
          ++ [GetSeries name; SeriesInfo (series_id d); EpInfo (series_id d)]) ∧
     (seriesInfo_data w (series_id d) = None →
      (Tvdb.__getitem__ w (KStr name) st).1 = Err AttributeError ∧
      Tvdb.requests (Tvdb.__getitem__ w (KStr name) st).2
      = Tvdb.requests st ++ [GetSeries name; SeriesInfo (series_id d)])).
Proof.
  split; [|split].
  - intros. by apply getitem_int_resident.
  - intros w st name sid sh Hcor Hat.
    by rewrite (getitem_name_known w name st sid), Hat.
  - intros w st name d l Hnew Hsel Hl.
    set (stb := Tvdb.set_corrections (dset name (series_id d))
                  (Tvdb.set_requests (λ l, l ++ [GetSeries name]) st)).
    assert (Hlb : Tvdb.language (Tvdb.config stb) = Some l)
      by (by destruct_session st).
    assert (Hreqb : Tvdb.requests stb = Tvdb.requests st ++ [GetSeries name])
      by (by destruct_session st).
    assert (Hstate : (Tvdb.__getitem__ w (KStr name) st).2
                     = (Tvdb._getShowData w (series_id d) (Some l) stb).2).
    { unfold Tvdb.__getitem__. rewrite bind_state_eq.
      2:{ intros sid s. rewrite show_ref_eq. done. }
      rewrite (nameToSid_new w name st d) by done. cbv zeta. fold stb.
      rewrite Hlb.
      by destruct (Tvdb._getShowData w (series_id d) (Some l) stb) as [[[]|e] stc]. }
    split; [|split].
    + destruct (getShowData_requests w (series_id d) l stb Hlb) as (sent & Hreq).
      exists sent. rewrite Hstate, Hreq, Hreqb, <- app_assoc. done.
    + intros info Hledger Hban Hact Hinfo.
      rewrite Hstate, (getShowData_two_requests w (series_id d) l info stb);
        try done; try (by destruct_session st).
      by rewrite Hreqb, <- app_assoc.
    + intros Hinfo. split.
      * unfold Tvdb.__getitem__. rewrite bind_unfold.
        rewrite (nameToSid_new w name st d) by done. cbv zeta. fold stb.
        by rewrite Hlb, (getShowData_no_document w (series_id d) l stb).
      * rewrite Hstate, (getShowData_no_document w (series_id d) l stb) by done.
        simpl. destruct_session st. simpl. by rewrite <- app_assoc.
Qed.

(** Show 76156, resident and known as "Scrubs", looked up both ways; the
    first lookup by the name sent three requests. *)
Lemma C4_resident_witness :
  let w := scrubs_world scrubs_info [aired_item (VInt 1) (VInt 1) "My First Day"] in
  let st1 := (Tvdb.__getitem__ w (KStr "Scrubs") session0).2 in
  ∃ sh, Tvdb.__getitem__ w (KInt 76156) st1 = (Ok sh, st1) ∧
        Tvdb.__getitem__ w (KStr "Scrubs") st1 = (Ok sh, st1) ∧
        Tvdb.requests st1
        = [GetSeries "Scrubs"; SeriesInfo (KInt 76156); EpInfo (KInt 76156)].
Proof.
  intros w st1. destruct C4_resident_not_refetched as (H1 & H2 & H3).
  eexists. split; [|split].
  - apply H1. vm_compute. reflexivity.
  - apply (H2 w st1 "Scrubs"%string (KInt 76156)); vm_compute; reflexivity.
  - destruct (H3 w session0 "Scrubs"%string
                (mkSeries (KInt 76156) (VStr "Scrubs") [(KStr "lid", VInt 7)]) "en"%string)
      as (_ & Hthree & _); [reflexivity | reflexivity | reflexivity |].
    apply (Hthree scrubs_info); try reflexivity.
    split; [done | constructor].
Defined.

(** ** A name whose show was evicted *)

(** C10.  If the correction map resolves the name to an identifier under
    which no show is resident, the lookup by the name raises [KeyError]
    and leaves the session as it is: nothing is requested and the show is
    not populated again.  [KeyError] is none of the exceptions of
    [tvdb_exceptions]. *)
Theorem C10_evicted_name_raises_KeyError :
  ∀ w st name sid,
    dget name (Tvdb.corrections st) = Some sid →
    show_at sid st = None →
    Tvdb.__getitem__ w (KStr name) st = (Err KeyError, st) ∧
    KeyError ∉ [tvdb_error; tvdb_shownotfound; tvdb_seasonnotfound;
                tvdb_episodenotfound; tvdb_attributenotfound].
Proof.
  intros w st name sid Hcor Hat. split.
  - by rewrite (getitem_name_known w name st sid), Hat.
  - intros Hin. repeat (apply elem_of_cons in Hin as [Hin|Hin]; [discriminate|]).
    by apply elem_of_nil in Hin.
Qed.

(** After a hundred and one lookups, the last one past the debounce
    window, the show of the first name is evicted and its name still
    recorded. *)
Example first_name_evicted :
  dget "0"%string (Tvdb.corrections session_after_eviction) = Some (KStr "0") ∧
  show_at (KStr "0") session_after_eviction = None ∧
  length (ShowContainer.dict (Tvdb.shows session_after_eviction)) = 100%nat.
Proof. split; [|split]; vm_compute; reflexivity. Qed.

Lemma C10_evicted_witness :
  Tvdb.__getitem__ catalogue (KStr "0") session_after_eviction
  = (Err KeyError, session_after_eviction).
Proof.
  apply (C10_evicted_name_raises_KeyError catalogue session_after_eviction
           "0"%string (KStr "0")).
  - vm_compute. reflexivity.
  - vm_compute. reflexivity.
Defined.

(** ** Populating the episodes *)

Lemma setItem_record sid seas ep attrib v st :
  ledger_ok (Tvdb.shows st) →
  ∃ st', Tvdb._setItem sid seas ep attrib v st = (Ok tt, st') ∧
         record_at sid seas ep st'
           = Some (dset attrib v (default [] (record_at sid seas ep st))) ∧
         ledger_ok (Tvdb.shows st') ∧
         same_session st st'.
Proof.
  intros Hl.
  destruct (setItem_spec sid seas ep attrib v st Hl) as (st' & E & Hat & Hl' & Hs).
  exists st'. split; [done|]. split; [|done].
  unfold record_at at 1. rewrite Hat. unfold mbind at 1 2, option_bind.
  unfold stored. cbn [Show.seasons Show.set_seasons].
  rewrite !dget_dset_eq. do 2 f_equal.
  unfold record_at. destruct (show_at sid st) as [sh0|]; simpl; [|done].
  by destruct (dget seas (Show.seasons sh0)).
Qed.

Lemma store_fields_other items r tag :
  tag ∉ dkeys items → dget tag (store_fields items r) = dget tag r.
Proof.
  revert r. induction items as [|[t v] items IH]; intros r Hnot; [done|].
  unfold dkeys in Hnot. simpl in Hnot. apply not_elem_of_cons in Hnot as [Hne Hnot].
  simpl. rewrite IH by done. by apply dget_dset_ne.
Qed.

Lemma store_fields_get items r tag v :
  NoDup (dkeys items) → (tag, v) ∈ items →
  dget tag (store_fields items r) = Some (episode_value tag v).
Proof.
  revert r. induction items as [|[t v0] items IH]; intros r Hnd Hin.
  - by apply elem_of_nil in Hin.
  - unfold dkeys in Hnd. simpl in Hnd. apply NoDup_cons in Hnd as [Hnot Hnd].
    apply elem_of_cons in Hin as [[= -> ->]|Hin]; simpl.
    + rewrite store_fields_other by done. apply dget_dset_eq.
    + by apply IH.
Qed.

Lemma store_item sid seas ep (items : list (key * value)) st :
  ledger_ok (Tvdb.shows st) →
  ∃ st', for_ items (λ '(tag, v),
           Tvdb._setItem sid seas ep tag
             (if bool_decide (v ≠ VNone) && bool_decide (tag = KStr "filename")
              then url_artworkPrefix v else v)) st = (Ok tt, st') ∧
         ledger_ok (Tvdb.shows st') ∧
         same_session st st' ∧
         (items ≠ [] →
          record_at sid seas ep st'
          = Some (store_fields items (default [] (record_at sid seas ep st)))).
Proof.
  revert st. induction items as [|[tag v] items IH]; intros st Hl.
  - exists st. split; [done|]. split; [done|]. split; [reflexivity|].
    by intros [].
  - destruct (setItem_record sid seas ep tag (episode_value tag v) st Hl)
      as (st1 & E1 & Hr1 & Hl1 & Hs1).
    destruct (IH st1 Hl1) as (st' & E' & Hl' & Hs' & Hr').
    exists st'. split.
    { cbn [for_]. erewrite bind_ok by exact E1. exact E'. }
    split; [done|]. split; [by etrans|]. intros _.
    destruct items as [|item items].
    + simpl in E'. injection E' as <-. by rewrite Hr1.
    + rewrite Hr' by done. by rewrite Hr1.
Qed.

(** An item whose selected season or episode number is [None] reaches
    the skipping branch, whose debug line raises before [continue]: the
    loop over the episodes ends there. *)
Lemma incomplete_item_raises sid (cur_ep : pydict key value) rest st s e :
  Tvdb.dvdorder (Tvdb.config st) = false →
  dget (KStr "airedSeason") cur_ep = Some s →
  dget (KStr "airedEpisodeNumber") cur_ep = Some e →
  s = VNone ∨ e = VNone →
  Tvdb._getShowData_episode sid cur_ep st = (Err AttributeError, st) ∧
  for_ (cur_ep :: rest) (Tvdb._getShowData_episode sid) st = (Err AttributeError, st).
Proof.
  intros Hdvd Hs He Hnone.
  assert (E : Tvdb._getShowData_episode sid cur_ep st = (Err AttributeError, st)).
  { unfold Tvdb._getShowData_episode. rewrite bind_unfold. unfold gets at 1.
    rewrite Hdvd. cbn iota. rewrite bind_unfold.
    unfold dict_getitem. rewrite Hs, He.
    change ((of_result (Ok s) ≫= λ s0 : value,
               of_result (Ok e) ≫= λ e0 : value, mret (s0, e0)) st)
      with (Ok (s, e), st).
    cbv beta iota.
    destruct Hnone as [-> | ->]; [done|]. by destruct s. }
  split; [done|]. cbn [for_]. by erewrite bind_err.
Qed.

(** The show fetched in DVD order when no item carries DVD numbers. *)
Example show_in_dvd_order :
  fetched (scrubs_world scrubs_info
             [aired_item (VInt 1) (VInt 1) "My First Day";
              aired_item (VInt 1) (VInt 2) "My Mentor"]) session0_dvd
  = {| Show.seasons :=
         [(KInt 1, [(KInt 1, aired_item (VInt 1) (VInt 1) "My First Day");
                    (KInt 2, aired_item (VInt 1) (VInt 2) "My Mentor")])];
       Show.data := [(KStr "seriesName", DValue (VStr "Scrubs"))] |}.
Proof. vm_compute. reflexivity. Qed.

(** C3, as stated, fails: under DVD order an item that has neither
    [dvdSeason] nor [dvdEpisodeNumber] is not left out, it is stored under
    its aired numbers. *)
Lemma C3_dvd_item_counterexample :
  let item := aired_item (VInt 1) (VInt 1) "My First Day" in
  let sh := fetched (scrubs_world scrubs_info
                       [item; aired_item (VInt 1) (VInt 2) "My Mentor"]) session0_dvd in
  Tvdb.dvdorder (Tvdb.config session0_dvd) = true ∧
  dget (KStr "dvdSeason") item = None ∧
  dget (KStr "dvdEpisodeNumber") item = None ∧
  item ∈ (positions sh).*2 ∧
  (positions sh).*1 = [(KInt 1, KInt 1); (KInt 1, KInt 2)].
Proof.
  cbv zeta. rewrite show_in_dvd_order.
  split; [|split; [|split; [|split]]]; try (vm_compute; reflexivity).
  apply elem_of_cons. by left.
Qed.

(** C3, amended.  Under DVD order, an item that lacks [dvdSeason] or
    [dvdEpisodeNumber], or has [None] for either, is numbered by its
    [airedSeason] and [airedEpisodeNumber]; when neither of these is
    [None] every field of the item is stored in the record at that season
    and episode, and the loop goes on with the items that follow. *)
Theorem C3_dvd_order_falls_back_to_aired :
  ∀ st sid (cur_ep : pydict key value) rest s e seas_no ep_no,
    Tvdb.dvdorder (Tvdb.config st) = true →
    dict_get (KStr "dvdSeason") cur_ep = VNone
      ∨ dict_get (KStr "dvdEpisodeNumber") cur_ep = VNone →
    dget (KStr "airedSeason") cur_ep = Some s → key_of s = Some seas_no →
    dget (KStr "airedEpisodeNumber") cur_ep = Some e → key_of e = Some ep_no →
    NoDup (dkeys cur_ep) →
    ledger_ok (Tvdb.shows st) →
    ∃ st',
      Tvdb._getShowData_episode sid cur_ep st = (Ok tt, st') ∧
      for_ (cur_ep :: rest) (Tvdb._getShowData_episode sid) st
        = for_ rest (Tvdb._getShowData_episode sid) st' ∧
      (∀ tag v, (tag, v) ∈ cur_ep →
         ∃ r, Tvdb.episode_ref sid seas_no ep_no st' = (Ok r, st') ∧
              Episode.__getitem__ r tag = Ok (episode_value tag v)) ∧
      ledger_ok (Tvdb.shows st') ∧
      Tvdb.config st' = Tvdb.config st.
Proof.
  intros st sid cur_ep rest s e seas_no ep_no Hdvd Hlack Hs Hks He Hke Hnd Hl.
  destruct (store_item sid seas_no ep_no cur_ep st Hl) as (st' & E & Hl' & Hsame & Hr).
  assert (Hne : cur_ep ≠ []) by (by destruct cur_ep).
  specialize (Hr Hne).
  assert (Eitem : Tvdb._getShowData_episode sid cur_ep st = (Ok tt, st')).
  { unfold Tvdb._getShowData_episode. rewrite bind_unfold. unfold gets at 1.
    rewrite Hdvd.
    assert (bool_decide (dict_get (KStr "dvdSeason") cur_ep ≠ VNone)
            && bool_decide (dict_get (KStr "dvdEpisodeNumber") cur_ep ≠ VNone) = false)
      as ->.
    { destruct Hlack as [-> | ->]; [done|]. apply andb_false_r. }
    rewrite bind_unfold. unfold dict_getitem. rewrite Hs, He.
    change ((of_result (Ok s) ≫= λ s0 : value,
               of_result (Ok e) ≫= λ e0 : value, mret (s0, e0)) st)
      with (Ok (s, e), st).
    cbv beta iota. rewrite Hks, Hke. exact E. }
  exists st'. split; [done|]. split.
  { cbn [for_]. by erewrite bind_ok. }
  split; [|split; [done | by destruct Hsame as (_ & ? & _)]].
  intros tag v Hin. eexists. split; [by apply episode_ref_some|].
  unfold Episode.__getitem__. by rewrite (store_fields_get _ _ tag v).
Qed.

(** Two items without DVD numbers, in a session that asks for DVD order:
    the first is stored at (1, 1) and the loop goes on with the second. *)
Lemma C3_dvd_order_witness :
  let item := aired_item (VInt 1) (VInt 1) "My First Day" in
  let rest := [aired_item (VInt 1) (VInt 2) "My Mentor"] in
  ∃ st',
    for_ (item :: rest) (Tvdb._getShowData_episode (KInt 76156)) session0_dvd
      = for_ rest (Tvdb._getShowData_episode (KInt 76156)) st' ∧
    ∃ r, Tvdb.episode_ref (KInt 76156) (KInt 1) (KInt 1) st' = (Ok r, st') ∧
         Episode.__getitem__ r (KStr "episodeName") = Ok (VStr "My First Day").
Proof.
  intros item rest.
  destruct (C3_dvd_order_falls_back_to_aired session0_dvd (KInt 76156) item rest
              (VInt 1) (VInt 1) (KInt 1) (KInt 1))
    as (st' & _ & Eloop & Hfields & _).
  - reflexivity.
  - left. reflexivity.
  - reflexivity.
  - reflexivity.
  - reflexivity.
  - reflexivity.
  - apply (bool_decide_unpack _). vm_compute. exact I.
  - split; [reflexivity | constructor].
  - exists st'. split; [exact Eloop|].
    apply (Hfields (KStr "episodeName") (VStr "My First Day")).
    apply elem_of_cons; right. apply elem_of_cons; right.
    apply elem_of_cons; by left.
Defined.

(** ** The invariants are kept *)

#[global] Instance ledger_kept_preorder : PreOrder ledger_kept.
Proof.
  split.
  - intros st Hl. exact Hl.
  - intros st1 st2 st3 H1 H2 Hl. apply H2, H1, Hl.
Qed.

Lemma populated_ledger_kept {A} (m : M Tvdb.t A) :
  respects populated_from m → respects ledger_kept m.
Proof. intros Hm st. by destruct (Hm st) as [Hl _]. Qed.

Lemma same_shows_ledger_kept {A} (m : M Tvdb.t A) :
  (∀ st, Tvdb.shows (m st).2 = Tvdb.shows st) → respects ledger_kept m.
Proof. intros Hm st Hl. by rewrite Hm. Qed.

(** Every session [__init__] returns has its ledger in order, and a
    lookup keeps it so, whatever it returns. *)
Lemma init_ledger clock interactive select_first banners actors custom_ui language
    dvdorder st :
  Tvdb.__init__ clock interactive select_first banners actors custom_ui language dvdorder
  = Ok st →
  ledger_ok (Tvdb.shows st).
Proof.
  unfold Tvdb.__init__. intros E.
  destruct language as [l|]; simpl in E.
  - destruct (bool_decide (l ∈ valid_languages)); simpl in E; [|done].
    injection E as <-. split; [done | constructor].
  - injection E as <-. split; [done | constructor].
Qed.

Lemma getitem_ledger w k st :
  ledger_ok (Tvdb.shows st) → ledger_ok (Tvdb.shows (Tvdb.__getitem__ w k st).2).
Proof.
  revert st. change (respects ledger_kept (Tvdb.__getitem__ w k)).
  assert (Hpop : ∀ sid lang, respects ledger_kept (Tvdb._getShowData w sid lang)).
  { intros. apply populated_ledger_kept, getShowData_populated. }
  assert (Href : ∀ sid, respects ledger_kept (Tvdb.show_ref sid)).
  { intros sid. apply same_shows_ledger_kept. intros st. by rewrite show_ref_eq. }
  assert (Hsearch : ∀ name, respects ledger_kept (Tvdb._getSeries w name)).
  { intros name. apply same_shows_ledger_kept. intros st.
    rewrite getSeries_state. by destruct_session st. }
  assert (Hcor : ∀ f, respects ledger_kept (modify (Tvdb.set_corrections f))).
  { intros f. apply same_shows_ledger_kept. intros st. by destruct_session st. }
  unfold Tvdb.__getitem__, Tvdb._nameToSid. destruct k as [n|name]; respects_tac.
Qed.

Lemma dset_NoDup {K V} `{EqDecision K} (k : K) (v : V) (d : pydict K V) :
  NoDup (dkeys d) → NoDup (dkeys (dset k v d)).
Proof.
  intros Hnd. destruct (decide (k ∈ dkeys d)) as [Hin|Hnot].
  - by rewrite dkeys_dset_present.
  - rewrite dset_absent by done. unfold dkeys in *. rewrite fmap_app. simpl.
    apply NoDup_app. split; [done|]. split; [|apply NoDup_singleton].
    intros x Hx Hin. apply list_elem_of_singleton in Hin. by subst.
Qed.

Lemma dset_values_Forall {K V} `{EqDecision K} (P : V → Prop) (k : K) (v : V)
    (d : pydict K V) :
  P v → Forall P (dvalues d) → Forall P (dvalues (dset k v d)).
Proof.
  intros Hv. unfold dvalues. induction d as [|[k' v'] d IH]; simpl.
  - intros _. by constructor.
  - intros Hall. apply Forall_cons in Hall as [Hv' Hall].
    destruct (decide (k = k')); simpl; constructor; auto.
Qed.

(** The shows [_setItem] builds hold every season and episode key once. *)
Lemma stored_unique_keys seas ep attrib v sh :
  unique_keys sh → unique_keys (stored seas ep attrib v sh).
Proof.
  intros [Hs Hse]. unfold stored, unique_keys. cbn [Show.seasons Show.set_seasons].
  split; [by apply dset_NoDup|].
  apply dset_values_Forall; [|done]. apply dset_NoDup.
  destruct (dget seas (Show.seasons sh)) as [se|] eqn:E; simpl; [|constructor].
  eapply Forall_forall in Hse; [exact Hse|].
  apply dget_elem_of in E. unfold dvalues.
  apply list_elem_of_fmap. by exists (seas, se).
Qed.

(** * Further properties *)

(** ** The container outside its invariant *)

Lemma ddel_keys_sublist {K V} `{EqDecision K} (k : K) (d : pydict K V) :
  dkeys (ddel k d) `sublist_of` dkeys d.
Proof.
  unfold dkeys. induction d as [|[k' v'] d IH]; simpl; [done|].
  destruct (decide (k = k')); simpl.
  - by apply sublist_cons.
  - by apply sublist_skip.
Qed.

Lemma ddel_keys_gone {K V} `{EqDecision K} (k : K) (d : pydict K V) :
  NoDup (dkeys d) → k ∉ dkeys (ddel k d).
Proof.
  unfold dkeys. induction d as [|[k' v'] d IH]; simpl; intros Hnd.
  - apply not_elem_of_nil.
  - apply NoDup_cons in Hnd as [Hnot Hnd].
    destruct (decide (k = k')) as [->|Hne]; simpl; [done|].
    apply not_elem_of_cons. split; [done | by apply IH].
Qed.

Lemma ddel_keys_other {K V} `{EqDecision K} (k o : K) (d : pydict K V) :
  o ≠ k → o ∈ dkeys d → o ∈ dkeys (ddel k d).
Proof.
  unfold dkeys. intros Hne. induction d as [|[k' v'] d IH]; simpl; [done|].
  intros Hin. destruct (decide (k = k')) as [->|Hne']; simpl.
  - apply elem_of_cons in Hin as [?|?]; [done | done].
  - apply elem_of_cons in Hin as [->|Hin]; apply elem_of_cons; [by left|].
    right. by apply IH.
Qed.

Lemma delitem_cases {V} (x : key) (d : pydict key V) s g :
  ShowContainer.__delitem__ x (ShowContainer.mk d s g)
  = if dmem x d then (Ok tt, ShowContainer.mk (ddel x d) s g)
    else (Err KeyError, ShowContainer.mk d s g).
Proof.
  unfold ShowContainer.__delitem__. rewrite bind_unfold. unfold gets at 1.
  cbn [ShowContainer.dict]. by destruct (dmem x d).
Qed.

(** The loop of the sweep ends well exactly when the keys to delete are
    distinct keys of the store; otherwise it stops with [KeyError].  In
    both cases the attributes are untouched and no key is added. *)
Lemma sweep_loop {V} (l : list key) (d : pydict key V) s g :
  NoDup (dkeys d) →
  ∃ r d', for_ l ShowContainer.__delitem__ (ShowContainer.mk d s g)
          = (r, ShowContainer.mk d' s g) ∧
          dkeys d' `sublist_of` dkeys d ∧
          (r = Ok tt ∨ r = Err KeyError) ∧
          (r = Ok tt ↔ NoDup l ∧ ∀ o, o ∈ l → o ∈ dkeys d).
Proof.
  revert d. induction l as [|x l IH]; intros d Hnd.
  - exists (Ok tt), d. split; [done|]. split; [done|]. split; [by left|].
    split; [|done]. intros _. split; [constructor|].
    intros o Ho. by apply elem_of_nil in Ho.
  - cbn [for_]. rewrite bind_unfold, delitem_cases.
    destruct (dmem x d) eqn:Ex.
    + assert (Hnd' : NoDup (dkeys (ddel x d))).
      { eapply sublist_NoDup; [exact Hnd | apply ddel_keys_sublist]. }
      destruct (IH (ddel x d) Hnd') as (r & d' & E & Hsub & Hr & Hiff).
      exists r, d'. split; [done|].
      split; [etrans; [exact Hsub | apply ddel_keys_sublist]|]. split; [done|].
      rewrite Hiff. apply dmem_true in Ex. split.
      * intros [Hl Hall]. split.
        -- apply NoDup_cons. split; [|done].
           intros Hx. by apply (ddel_keys_gone x d Hnd), Hall.
        -- intros o Ho. apply elem_of_cons in Ho as [->|Ho]; [done|].
           eapply elem_of_sublist; [by apply Hall | apply ddel_keys_sublist].
      * intros [Hl Hall]. apply NoDup_cons in Hl as [Hx Hl]. split; [done|].
        intros o Ho. apply ddel_keys_other.
        -- intros ->. done.
        -- apply Hall. apply elem_of_cons. by right.
    + exists (Err KeyError), d. split; [done|]. split; [done|]. split; [by right|].
      split; [done|]. intros [_ Hall]. apply dmem_false in Ex.
      exfalso. apply Ex, Hall. apply elem_of_cons. by left.
Qed.

(** X1.  A store that finds the window elapsed succeeds exactly when the
    ledger entries to evict are distinct keys of the store; otherwise it
    raises [KeyError], the value is not stored, no key is added to the
    store, the ledger keeps the appended key uncut and the sweep time is
    not advanced. *)
Theorem setitem_sweep_succeeds_iff :
  ∀ t_check t_mark k (v : Show.t) (c : ShowContainer.t Show.t),
    t_check - ShowContainer._lastgc c > 20 →
    NoDup (dkeys (ShowContainer.dict c)) →
    let evicted := take (length (ShowContainer._stack c ++ [k]) - 100)
                        (ShowContainer._stack c ++ [k]) in
    let r := ShowContainer.__setitem__ t_check t_mark k v c in
    (r.1 = Ok tt ∨ r.1 = Err KeyError) ∧
    (r.1 = Ok tt ↔
     NoDup evicted ∧ ∀ o, o ∈ evicted → o ∈ dkeys (ShowContainer.dict c)) ∧
    (r.1 = Err KeyError →
     dkeys (ShowContainer.dict r.2) `sublist_of` dkeys (ShowContainer.dict c) ∧
     ShowContainer._stack r.2 = ShowContainer._stack c ++ [k] ∧
     ShowContainer._lastgc r.2 = ShowContainer._lastgc c).
Proof.
  intros t_check t_mark k v [d s g] Hgt Hnd evicted r. simpl in *.
  destruct (sweep_loop evicted d (s ++ [k]) g Hnd) as (res & d' & E & Hsub & Hres & Hiff).
  assert (Er : r = match res with
                   | Ok _ => (Ok tt, ShowContainer.mk (dset k v d')
                                       (drop (length (s ++ [k]) - 100) (s ++ [k])) t_mark)
                   | Err e => (Err e, ShowContainer.mk d' (s ++ [k]) g)
                   end).
  { unfold r, ShowContainer.__setitem__.
    unfold mbind, M_bind, modify, gets, mret, M_ret, ShowContainer.set_stack.
    cbv beta iota delta [ShowContainer._stack ShowContainer._lastgc ShowContainer.dict].
    rewrite bool_decide_true by done.
    unfold mbind, M_bind in E. fold evicted. rewrite E. by destruct res. }
  rewrite Er. destruct Hres as [-> | ->]; simpl.
  - split; [by left|]. split; [by rewrite <- Hiff|]. done.
  - split; [by right|]. split; [|done]. rewrite <- Hiff. done.
Qed.

(** A key stored twice leaves two entries in the ledger; when both are
    to be evicted the second deletion fails. *)
Lemma setitem_sweep_witness :
  (ShowContainer.__setitem__ 21 21 (KInt 200) Show.__init__ twice_stored).1
    = Err KeyError ∧
  ¬ NoDup (take 3 (ShowContainer._stack twice_stored ++ [KInt 200])).
Proof.
  destruct (setitem_sweep_succeeds_iff 21 21 (KInt 200) Show.__init__ twice_stored)
    as ([Hok | Herr] & Hiff & _).
  - vm_compute. reflexivity.
  - apply (bool_decide_unpack _). vm_compute. exact I.
  - exfalso. apply Hiff in Hok as [Hnd _].
    revert Hnd. apply (bool_decide_unpack _). vm_compute. exact I.
  - split; [exact Herr|]. apply (bool_decide_unpack _). vm_compute. exact I.
Defined.

(** X2.  A store under a key that is present, made inside the window,
    replaces the value where it stands: the store keeps its keys and its
    other values, and the ledger gains a second entry for the key. *)
Theorem setitem_present_key :
  ∀ t_check t_mark k (v : Show.t) (c : ShowContainer.t Show.t),
    t_check - ShowContainer._lastgc c ≤ 20 →
    k ∈ dkeys (ShowContainer.dict c) →
    ∃ c', ShowContainer.__setitem__ t_check t_mark k v c = (Ok tt, c') ∧
          dkeys (ShowContainer.dict c') = dkeys (ShowContainer.dict c) ∧
          dget k (ShowContainer.dict c') = Some v ∧
          (∀ k', k' ≠ k →
                 dget k' (ShowContainer.dict c') = dget k' (ShowContainer.dict c)) ∧
          ShowContainer._stack c' = ShowContainer._stack c ++ [k] ∧
          (ledger_ok c → ¬ ledger_ok c').
Proof.
  intros t_check t_mark k v c Hle Hin.
  rewrite setitem_later by done. eexists. split; [done|]. simpl.
  split; [by apply dkeys_dset_present|]. split; [apply dget_dset_eq|].
  split; [intros k' Hne; by apply dget_dset_ne|]. split; [done|].
  intros [Hk Hnd] [_ Hnd']. simpl in *.
  apply NoDup_app in Hnd' as (_ & Hdisj & _). apply (Hdisj k).
  - by rewrite <- Hk.
  - apply elem_of_cons. by left.
Qed.

Lemma setitem_present_witness :
  ∃ c', ShowContainer.__setitem__ 0 0 (KInt 7) Show.__init__
          (for_ (take 10 burst) exec (ShowContainer.__init__ 0)).2 = (Ok tt, c') ∧
        length (ShowContainer.dict c') = 10%nat ∧
        length (ShowContainer._stack c') = 11%nat.
Proof.
  destruct (setitem_present_key 0 0 (KInt 7) Show.__init__
              (for_ (take 10 burst) exec (ShowContainer.__init__ 0)).2)
    as (c' & E & Hk & _ & _ & Hs & _).
  - vm_compute. discriminate.
  - apply (bool_decide_unpack _). vm_compute. exact I.
  - exists c'. split; [exact E|]. split.
    + transitivity (length (dkeys (ShowContainer.dict c'))).
      { unfold dkeys. by rewrite length_fmap. }
      rewrite Hk. vm_compute. reflexivity.
    + rewrite Hs. vm_compute. reflexivity.
Defined.

(** ** Sessions stay within the invariant *)

Lemma lookups_ledger w steps st :
  ledger_ok (Tvdb.shows st) → ledger_ok (Tvdb.shows (lookups w steps st)).
Proof.
  revert st. induction steps as [|[t k] steps IH]; intros st Hl; [done|].
  apply IH. apply getitem_ledger. by destruct_session st.
Qed.

(** X3.  In every session that the constructor returned and that served
    any sequence of lookups at any times, the ledger lists the keys of the
    store once each and in order; storing a show under an identifier that
    is not resident then never raises. *)
Theorem sessions_keep_ledger :
  ∀ w clock interactive select_first banners actors custom_ui language dvdorder
    st0 steps,
    Tvdb.__init__ clock interactive select_first banners actors custom_ui language
      dvdorder = Ok st0 →
    let st := lookups w steps st0 in
    ledger_ok (Tvdb.shows st) ∧
    ∀ sid v, Tvdb.resident sid st = false →
             ∃ st', Tvdb.shows_setitem sid v st = (Ok tt, st') ∧
                    show_at sid st' = Some v.
Proof.
  intros w clock i sf b a cu lang dvd st0 steps Hinit st.
  assert (Hl : ledger_ok (Tvdb.shows st)).
  { apply lookups_ledger. by eapply init_ledger. }
  split; [done|]. intros sid v Hres.
  destruct (shows_setitem_fresh sid v st Hl) as (st' & E & Hat & _).
  { rewrite resident_show_at in Hres. by destruct (show_at sid st). }
  by exists st'.
Qed.

(** The session after a hundred and one lookups, with eviction, is
    within the invariant. *)
Lemma sessions_keep_ledger_witness :
  ledger_ok (Tvdb.shows session_after_eviction).
Proof.
  pose proof (sessions_keep_ledger catalogue 0 false false false false false None false
                session0
                (map (λ name, (0, KStr name)) (names_below 100) ++ [(21, KStr "100")])
                eq_refl) as [Hl _].
  assert (E : lookups catalogue
                (map (λ name, (0, KStr name)) (names_below 100) ++ [(21, KStr "100")])
                session0 = session_after_eviction) by (vm_compute; reflexivity).
  rewrite <- E. exact Hl.
Defined.

(** ** What a search matches *)

Lemma prefix_iff (sub s : string) :
  String.prefix sub s = true ↔ ∃ post : string, s = sub +:+ post.
Proof.
  revert s. induction sub as [|a sub IH]; intros s.
  - split; [intros _; by exists s | intros _; by destruct s].
  - destruct s as [|b s]; simpl.
    + split; [done | intros [post Hp]; discriminate].
    + destruct (Ascii.ascii_dec a b) as [->|Hne].
      * rewrite IH. split; intros [post Hp]; exists post.
        -- by subst.
        -- change (String b s = String b (sub +:+ post)) in Hp. by injection Hp.
      * split; [done | intros [post Hp]].
        change (String b s = String a (sub +:+ post)) in Hp. congruence.
Qed.

(** [find] answers -1 exactly when [sub] does not occur in [s]. *)
Lemma find_from_substring i (s sub : string) :
  0 ≤ i → find_from i s sub > -1 ↔ substring_of sub s.
Proof.
  revert i. induction s as [|b s IH]; intros i Hi; cbn [find_from].
  - destruct sub as [|a sub]; simpl.
    + split; [|intros _; lia]. intros _. by exists ""%string, ""%string.
    + split; [intros ?; lia|]. intros (pre & post & Hp).
      by destruct pre.
  - destruct (String.prefix sub (String b s)) eqn:Ep.
    + split; [|intros _; lia]. intros _. apply prefix_iff in Ep as [post Hp].
      exists ""%string, post. done.
    + rewrite IH by lia. split.
      * intros (pre & post & Hp). exists (String b pre), post. simpl. by rewrite Hp.
      * intros (pre & post & Hp). destruct pre as [|c pre]; simpl in Hp.
        -- assert (String.prefix sub (String b s) = true)
             by (apply prefix_iff; by exists post).
           congruence.
        -- injection Hp as -> Hp. by exists pre, post.
Qed.

Lemma find_substring (s sub : string) : find s sub > -1 ↔ substring_of sub s.
Proof. by apply find_from_substring. Qed.

Lemma hit_iff term k (item : key * value) :
  Episode.hit term k item = true
  ↔ field_selected k item.1 ∧ substring_of term (lower (text_type item.2)).
Proof.
  unfold Episode.hit, field_selected. rewrite <- find_substring.
  destruct k as [[n|s]|]; cbv zeta.
  - split; [done | by intros [[] _]].
  - destruct (decide (text_type_key item.1 = s)) as [E|E].
    + rewrite bool_decide_eq_false_2 by (by intros ?).
      rewrite bool_decide_eq_true. tauto.
    + rewrite bool_decide_eq_true_2 by done. split; [done | by intros [? _]].
  - rewrite bool_decide_eq_true. tauto.
Qed.

Lemma matches_iff term k (e : Episode.t) :
  matches term k e = true
  ↔ ∃ tag v, (tag, v) ∈ e ∧ field_selected k tag
             ∧ substring_of (lower (text_type term)) (lower (text_type v)).
Proof.
  unfold matches. rewrite existsb_exists. split.
  - intros ([tag v] & Hin & Hhit). apply hit_iff in Hhit as [Hsel Hsub].
    exists tag, v. by rewrite list_elem_of_In.
  - intros (tag & v & Hin & Hsel & Hsub). exists (tag, v).
    rewrite <- list_elem_of_In. split; [done|]. by apply hit_iff.
Qed.

(** X4.  [Episode.search] with a term returns the episode exactly when
    some field the key selects holds, in lower case, the lower-cased text
    of the term as a substring, and otherwise returns [None]; it never
    raises. *)
Theorem episode_search_finds_substring :
  ∀ (e : Episode.t) term k,
    term ≠ VNone →
    (Episode.search term k e = Ok (Some e)
     ↔ ∃ tag v, (tag, v) ∈ e ∧ field_selected k tag
                ∧ substring_of (lower (text_type term)) (lower (text_type v))) ∧
    (Episode.search term k e = Ok (Some e) ∨ Episode.search term k e = Ok None).
Proof.
  intros e term k Hterm. rewrite <- matches_iff.
  rewrite episode_search_term by done.
  destruct (matches term k e).
  - split; [done|]. by left.
  - split; [split; [intros [=] | done]|]. by right.
Qed.

Lemma episode_search_witness :
  let e : Episode.t := [(KStr "episodeName", VStr "An Example")] in
  Episode.search (VStr "EXAMP") (Some (KStr "episodeName")) e = Ok (Some e) ∧
  Episode.search (VStr "EXAMP") (Some (KStr "episodename")) e = Ok None.
Proof.
  pose proof (episode_search_finds_substring
                [(KStr "episodeName", VStr "An Example")] (VStr "EXAMP")
                (Some (KStr "episodeName")) ltac:(discriminate)) as (H1 & _).
  split; [|vm_compute; reflexivity].
  apply H1. exists (KStr "episodeName"), (VStr "An Example").
  split; [apply list_elem_of_here|]. split; [reflexivity|].
  exists "an "%string, "le"%string. vm_compute. reflexivity.
Defined.

Lemma show_search_term term k sh :
  term ≠ VNone →
  Show.search term k sh = Ok (filter (λ p, matches term k p.2) (positions sh)).*2.
Proof.
  intros Hterm. unfold Show.search.
  by rewrite show_search_values_term, positions_filter.
Qed.

(** X5.  [Show.airedOn] never raises [TypeError], whatever the date: it
    returns, in the order of the show, the records one of whose
    [firstAired] fields contains the text of the date as a substring,
    letter case apart, and raises [tvdb_episodenotfound] exactly when
    there is no such record. *)
Theorem airedOn_finds_by_substring :
  ∀ sh date,
    ∃ found,
      found `sublist_of` (positions sh).*2 ∧
      (∀ r, r ∈ found ↔ r ∈ (positions sh).*2 ∧ aired_on date r) ∧
      Show.airedOn date sh
      = match found with [] => Err tvdb_episodenotfound | _ :: _ => Ok found end.
Proof.
  intros sh date.
  set (term := VStr (text_type date)).
  set (k := Some (KStr "firstAired")).
  exists (filter (λ p, matches term k p.2) (positions sh)).*2.
  split; [|split].
  - apply fmap_sublist, sublist_filter.
  - intros r. rewrite !list_elem_of_fmap. split.
    + intros ([pos r'] & -> & Hin). apply list_elem_of_filter in Hin as [Hm Hin].
      split; [by exists (pos, r')|].
      apply Is_true_true, matches_iff in Hm. exact Hm.
    + intros [([pos r'] & -> & Hin) Hair]. exists (pos, r'). split; [done|].
      apply list_elem_of_filter. split; [|done].
      apply Is_true_true, matches_iff. exact Hair.
  - unfold Show.airedOn. fold term k.
    rewrite show_search_term by done.
    change (Ok ?l ≫= ?f) with (f l). cbv beta.
    by destruct ((filter _ (positions sh)).*2).
Qed.

(** X6.  The key of a search is compared with the text of the field
    names, exactly: a search with an integer key finds nothing, and so
    does one with a name that no field of any record has, whatever the
    term. *)
Theorem search_key_selecting_no_field :
  ∀ sh term,
    term ≠ VNone →
    (∀ n, Show.search term (Some (KInt n)) sh = Ok []) ∧
    (∀ s, (∀ p tag v, p ∈ positions sh → (tag, v) ∈ p.2 → text_type_key tag ≠ s) →
          Show.search term (Some (KStr s)) sh = Ok []).
Proof.
  intros sh term Hterm.
  assert (Hnone : ∀ k,
            (∀ p tag v, p ∈ positions sh → (tag, v) ∈ p.2 → ¬ field_selected (Some k) tag) →
            Show.search term (Some k) sh = Ok []).
  { intros k Hsel. rewrite show_search_term by done.
    rewrite filter_none; [done|].
    apply Forall_forall. intros p Hin.
    destruct (matches term (Some k) p.2) eqn:Em; [|done].
    apply matches_iff in Em as (tag & v & Hf & Hs & _).
    by destruct (Hsel p tag v). }
  split.
  - intros n. apply Hnone. by intros p tag v _ _ [].
  - intros s Hs. apply Hnone. intros p tag v Hp Hf. by apply (Hs p tag v).
Qed.

Lemma search_key_witness :
  let sh := Show.mk [(KInt 1, [(KInt 1, aired_item (VInt 1) (VInt 1) "My First Day")])] [] in
  Show.search (VStr "first") (Some (KStr "episodeName")) sh
    = Ok [aired_item (VInt 1) (VInt 1) "My First Day"] ∧
  Show.search (VStr "first") (Some (KStr "episodename")) sh = Ok [] ∧
  Show.search (VStr "1") (Some (KInt 1)) sh = Ok [].
Proof.
  split; [vm_compute; reflexivity|].
  split.
  - refine (proj2 (search_key_selecting_no_field _ (VStr "first") _) "episodename"%string _);
      [discriminate|].
    intros p tag v Hp Hf.
    apply list_elem_of_singleton in Hp as ->.
    repeat (apply elem_of_cons in Hf as [[= -> ->]|Hf]; [discriminate|]).
    by apply elem_of_nil in Hf.
  - refine (proj1 (search_key_selecting_no_field _ (VStr "1") _) 1); discriminate.
Defined.

(** ** The constructor and the series search *)


#[global] Instance config_kept_preorder : PreOrder config_kept.
Proof.
  split.
  - by intros st.
  - intros st1 st2 st3 H1 H2. unfold config_kept in *. congruence.
Qed.

Lemma populated_config_kept {A} (m : M Tvdb.t A) :
  respects populated_from m → respects config_kept m.
Proof. intros Hm st. by destruct (Hm st) as (_ & _ & Hc & _). Qed.

Lemma getitem_config w k st :
  Tvdb.config (Tvdb.__getitem__ w k st).2 = Tvdb.config st.
Proof.
  revert st. change (respects config_kept (Tvdb.__getitem__ w k)).
  assert (Hpop : ∀ sid lang, respects config_kept (Tvdb._getShowData w sid lang)).
  { intros. apply populated_config_kept, getShowData_populated. }
  assert (Href : ∀ sid, respects config_kept (Tvdb.show_ref sid)).
  { intros sid st. by rewrite show_ref_eq. }
  assert (Hsearch : ∀ name, respects config_kept (Tvdb._getSeries w name)).
  { intros name st. rewrite getSeries_state. by destruct_session st. }
  assert (Hcor : ∀ f, respects config_kept (modify (Tvdb.set_corrections f))).
  { intros f st. by destruct_session st. }
  unfold Tvdb.__getitem__, Tvdb._nameToSid. destruct k as [n|name]; respects_tac.
Qed.

Lemma lookups_config w steps st :
  Tvdb.config (lookups w steps st) = Tvdb.config st.
Proof.
  revert st. induction steps as [|[t k] steps IH]; intros st; [done|].
  simpl. rewrite IH, getitem_config. by destruct_session st.
Qed.

(** X8.  In a session the constructor returned, after any lookups, the
    series search sends exactly one request; it raises
    [tvdb_shownotfound] when the reply has no data or no candidate, and
    otherwise returns the candidates in the order of the reply, each with
    the numeric identifier of the session's language under [lid]. *)
Theorem search_marks_candidates :
  ∀ w clock interactive select_first banners actors custom_ui language dvdorder
    st0 steps name,
    Tvdb.__init__ clock interactive select_first banners actors custom_ui language
      dvdorder = Ok st0 →
    let st := lookups w steps st0 in
    ∃ lid,
      dict_getitem (default "en"%string language) langabbv_to_id = Ok lid ∧
      Tvdb.search w name st
      = (match getSeries_data w name with
         | None | Some [] => Err tvdb_shownotfound
         | Some found => Ok (map (with_lid lid) found)
         end, sending [GetSeries name] st).
Proof.
  intros w clock i sf b a cu language dvd st0 steps name Hinit st.
  assert (Hcfg : ∃ l lid, Tvdb.language (Tvdb.config st0) = Some l
                          ∧ l = default "en"%string language
                          ∧ dict_getitem l langabbv_to_id = Ok lid).
  { revert Hinit. unfold Tvdb.__init__. destruct language as [l|]; simpl.
    - destruct (decide (l ∈ valid_languages)) as [Hin|Hnot].
      + rewrite bool_decide_eq_true_2 by done. simpl. intros [= <-]. simpl.
        unfold valid_languages in Hin.
        repeat (apply elem_of_cons in Hin as [->|Hin]; [by eexists _, _|]).
        by apply elem_of_nil in Hin.
      + by rewrite bool_decide_eq_false_2 by done.
    - intros [= <-]. by eexists _, _. }
  destruct Hcfg as (l & lid & Hl & -> & Hlid).
  exists lid. split; [done|].
  unfold Tvdb.search. rewrite bind_unfold, getetsrc_eq.
  destruct (getSeries_data w name) as [[|s found]|]; [done| |done].
  rewrite search_loop.
  assert (Ec : Tvdb.config (sending [GetSeries name] st) = Tvdb.config st0).
  { unfold st. rewrite <- (lookups_config w steps st0). by destruct (lookups w steps st0). }
  rewrite Ec, Hl. cbn [mbind option_bind].
  unfold dict_getitem in Hlid. destruct (dget _ langabbv_to_id); [|done].
  by injection Hlid as ->.
Qed.

Lemma search_marks_witness :
  Tvdb.search catalogue "Scrubs" session_after_eviction
  = (Ok [with_lid 7 (mkSeries (KStr "Scrubs") (VStr "Scrubs") [])],
     sending [GetSeries "Scrubs"] session_after_eviction).
Proof.
  destruct (search_marks_candidates catalogue 0 false false false false false None false
              session0
              (map (λ name, (0, KStr name)) (names_below 100) ++ [(21, KStr "100")])
              "Scrubs"%string eq_refl) as (lid & Hlid & E).
  injection Hlid as <-.
  assert (Es : lookups catalogue
                (map (λ name, (0, KStr name)) (names_below 100) ++ [(21, KStr "100")])
                session0 = session_after_eviction) by (vm_compute; reflexivity).
  rewrite Es in E. exact E.
Defined.

Lemma getitem_no_candidate w name st :
  dget name (Tvdb.corrections st) = None →
  getSeries_data w name = None ∨ getSeries_data w name = Some [] →
  Tvdb.__getitem__ w (KStr name) st
  = (Err tvdb_shownotfound, sending [GetSeries name] st).
Proof.
  intros Hnew Hrep.
  assert (Es : Tvdb.search w name st
               = (Err tvdb_shownotfound, sending [GetSeries name] st)).
  { unfold Tvdb.search. rewrite bind_unfold, getetsrc_eq.
    by destruct Hrep as [-> | ->]. }
  unfold Tvdb.__getitem__, Tvdb._nameToSid.
  rewrite bind_unfold, bind_unfold. unfold gets at 1. rewrite Hnew.
  rewrite bind_unfold. unfold Tvdb._getSeries. rewrite bind_unfold, Es. done.
Qed.

Lemma visit_cons w name names st :
  visit w (name :: names) st
  = visit w names (Tvdb.__getitem__ w (KStr name) st).2.
Proof. done. Qed.

(** X9.  A lookup by a name for which the search reply has no data or
    no candidate raises [tvdb_shownotfound] and changes nothing but the
    requests sent: the name is not recorded, so every further lookup of
    it sends the search again. *)
Theorem unknown_name_searched_again :
  ∀ w st name,
    dget name (Tvdb.corrections st) = None →
    getSeries_data w name = None ∨ getSeries_data w name = Some [] →
    ∀ n,
      visit w (replicate n name) st = sending (replicate n (GetSeries name)) st ∧
      Tvdb.__getitem__ w (KStr name) (visit w (replicate n name) st)
      = (Err tvdb_shownotfound, sending (replicate (S n) (GetSeries name)) st).
Proof.
  intros w st name Hnew Hrep n.
  assert (Hv : visit w (replicate n name) st
               = sending (replicate n (GetSeries name)) st).
  { revert st Hnew. induction n as [|n IH]; intros st Hnew.
    - simpl. by rewrite sending_nil.
    - cbn [replicate]. rewrite visit_cons, getitem_no_candidate by done.
      cbn [snd]. rewrite IH by (by destruct_session st).
      by rewrite sending_sending. }
  split; [done|]. rewrite Hv, getitem_no_candidate; [|by destruct_session st|done].
  rewrite sending_sending.
  by rewrite <- replicate_cons_app.
Qed.

Lemma unknown_name_witness :
  visit (scrubs_world scrubs_info []) ["Lost"; "Lost"]%string session0
  = sending [GetSeries "Lost"; GetSeries "Lost"] session0.
Proof.
  exact (proj1 (unknown_name_searched_again (scrubs_world scrubs_info []) session0
                  "Lost"%string eq_refl (or_intror eq_refl) 2%nat)).
Defined.

(** ** Populating a show *)



(** *** What storing an item does to the show *)

Lemma stored_data seas ep attrib v sh :
  Show.data (stored seas ep attrib v sh) = Show.data sh.
Proof. done. Qed.








(** *** The loops of [_getShowData] *)



















(** ** Lookups that store nothing *)

(** X13.  A lookup by the identifier of a show that is not resident
    raises [AttributeError] when the reply to the request for the series
    document has no data: that one request is all that happens, nothing
    is stored, and a second lookup sends the request again.  With banners
    and actors off, a series document without fields together with an
    empty list of episodes creates no show, and the lookup raises
    [KeyError] after its two requests. *)
Theorem lookup_by_id_stores_nothing :
  ∀ w st n l,
    show_at (KInt n) st = None →
    Tvdb.language (Tvdb.config st) = Some l →
    (seriesInfo_data w (KInt n) = None →
     Tvdb.__getitem__ w (KInt n) st
     = (Err AttributeError, sending [SeriesInfo (KInt n)] st) ∧
     Tvdb.__getitem__ w (KInt n) (sending [SeriesInfo (KInt n)] st)
     = (Err AttributeError, sending [SeriesInfo (KInt n); SeriesInfo (KInt n)] st)) ∧
    (seriesInfo_data w (KInt n) = Some [] →
     epInfo_data w (KInt n) = Some [] →
     Tvdb.banners_enabled (Tvdb.config st) = false →
     Tvdb.actors_enabled (Tvdb.config st) = false →
     Tvdb.__getitem__ w (KInt n) st
     = (Err KeyError, sending [SeriesInfo (KInt n); EpInfo (KInt n)] st)).
Proof.
  intros w st n l Hnew Hlang.
  assert (Hget : ∀ s, show_at (KInt n) s = None → Tvdb.language (Tvdb.config s) = Some l →
            Tvdb.__getitem__ w (KInt n) s
            = match Tvdb._getShowData w (KInt n) (Some l) s with
              | (Ok _, s') => Tvdb.show_ref (KInt n) s'
              | (Err e, s') => (Err e, s')
              end).
  { intros s Hs Hls. unfold Tvdb.__getitem__. rewrite bind_unfold. unfold gets at 1.
    rewrite resident_show_at, Hs. rewrite bind_unfold, bind_unfold.
    unfold gets at 1. rewrite Hls.
    by destruct (Tvdb._getShowData w (KInt n) (Some l) s) as [[[]|e] s']. }
  split.
  - intros Hnone. split.
    + by rewrite Hget, getShowData_no_document.
    + rewrite Hget; [|by rewrite sending_show_at|by destruct_session st].
      rewrite getShowData_no_document; [|by destruct_session st|done].
      by rewrite sending_sending.
  - intros Hinfo Heps Hban Hact. rewrite Hget by done.
    assert (E : Tvdb._getShowData w (KInt n) (Some l) st
                = (Ok tt, sending [SeriesInfo (KInt n); EpInfo (KInt n)] st)).
    { unfold Tvdb._getShowData. rewrite bind_unfold. unfold gets at 1.
      rewrite Hlang, Hban, Hact. rewrite bind_unfold. unfold mret at 1, M_ret at 1.
      rewrite bind_unfold, getetsrc_eq, Hinfo.
      rewrite bind_unfold. cbn [for_]. unfold mret at 1, M_ret at 1.
      rewrite bind_unfold. unfold mret at 1, M_ret at 1.
      rewrite bind_unfold. unfold mret at 1, M_ret at 1.
      rewrite bind_unfold, getetsrc_eq, Heps. cbn [for_].
      by rewrite sending_sending. }
    rewrite E, show_ref_eq, sending_show_at, Hnew. done.
Qed.

Lemma lookup_by_id_nothing_witness :
  Tvdb.__getitem__ (scrubs_world scrubs_info []) (KInt 1) session0
  = (Err AttributeError, sending [SeriesInfo (KInt 1)] session0) ∧
  Tvdb.__getitem__ (scrubs_world [] []) (KInt 76156) session0
  = (Err KeyError, sending [SeriesInfo (KInt 76156); EpInfo (KInt 76156)] session0).
Proof.
  split.
  - apply (lookup_by_id_stores_nothing (scrubs_world scrubs_info []) session0 1
             "en"%string eq_refl eq_refl). reflexivity.
  - apply (lookup_by_id_stores_nothing (scrubs_world [] []) session0 76156
             "en"%string eq_refl eq_refl); reflexivity.
Defined.

(** ** Episode items with and without numbers *)


Lemma episode_numbers_dvd sid (cur_ep : pydict key value) st seas_no ep_no :
  Tvdb.dvdorder (Tvdb.config st) = true →
  key_of (dict_get (KStr "dvdSeason") cur_ep) = Some seas_no →
  key_of (dict_get (KStr "dvdEpisodeNumber") cur_ep) = Some ep_no →
  Tvdb._getShowData_episode sid cur_ep st
  = for_ cur_ep (λ '(tag, v),
      Tvdb._setItem sid seas_no ep_no tag
        (if bool_decide (v ≠ VNone) && bool_decide (tag = KStr "filename")
         then url_artworkPrefix v else v)) st.
Proof.
  intros Hdvd Hs He.
  unfold Tvdb._getShowData_episode. rewrite bind_unfold. unfold gets at 1.
  rewrite Hdvd.
  assert (bool_decide (dict_get (KStr "dvdSeason") cur_ep ≠ VNone)
          && bool_decide (dict_get (KStr "dvdEpisodeNumber") cur_ep ≠ VNone) = true)
    as ->.
  { apply andb_true_intro. split; apply bool_decide_eq_true; intros E.
    - by rewrite E in Hs.
    - by rewrite E in He. }
  rewrite bind_unfold. unfold mret at 1, M_ret at 1. cbv beta iota.
  by rewrite Hs, He.
Qed.




(** X15.  Under DVD order, an item whose [dvdSeason] and
    [dvdEpisodeNumber] are both present and not null is stored at these
    numbers, every field of it, and the loop goes on; its aired numbers
    are not consulted and may be missing. *)
Theorem dvd_numbers_take_precedence :
  ∀ st sid (cur_ep : pydict key value) rest seas_no ep_no,
    Tvdb.dvdorder (Tvdb.config st) = true →
    key_of (dict_get (KStr "dvdSeason") cur_ep) = Some seas_no →
    key_of (dict_get (KStr "dvdEpisodeNumber") cur_ep) = Some ep_no →
    NoDup (dkeys cur_ep) →
    ledger_ok (Tvdb.shows st) →
    ∃ st',
      Tvdb._getShowData_episode sid cur_ep st = (Ok tt, st') ∧
      for_ (cur_ep :: rest) (Tvdb._getShowData_episode sid) st
        = for_ rest (Tvdb._getShowData_episode sid) st' ∧
      (∀ tag v, (tag, v) ∈ cur_ep →
         ∃ r, Tvdb.episode_ref sid seas_no ep_no st' = (Ok r, st') ∧
              Episode.__getitem__ r tag = Ok (episode_value tag v)) ∧
      ledger_ok (Tvdb.shows st').
Proof.
  intros st sid cur_ep rest seas_no ep_no Hdvd Hs He Hnd Hl.
  destruct (store_item sid seas_no ep_no cur_ep st Hl) as (st' & E & Hl' & _ & Hr).
  assert (Hne : cur_ep ≠ []).
  { intros ->. done. }
  specialize (Hr Hne).
  assert (Eitem : Tvdb._getShowData_episode sid cur_ep st = (Ok tt, st')).
  { by rewrite (episode_numbers_dvd sid cur_ep st seas_no ep_no). }
  exists st'. split; [done|]. split.
  { cbn [for_]. by erewrite bind_ok. }
  split; [|done].
  intros tag v Hin. eexists. split; [by apply episode_ref_some|].
  unfold Episode.__getitem__. by rewrite (store_fields_get _ _ tag v).
Qed.

Lemma dvd_numbers_witness :
  let item := [(KStr "dvdSeason", VInt 2); (KStr "dvdEpisodeNumber", VInt 5);
               (KStr "airedSeason", VInt 1); (KStr "episodeName", VStr "Pilot")] in
  ∃ st' r,
    Tvdb._getShowData_episode (KInt 76156) item session0_dvd = (Ok tt, st') ∧
    Tvdb.episode_ref (KInt 76156) (KInt 2) (KInt 5) st' = (Ok r, st') ∧
    Episode.__getitem__ r (KStr "episodeName") = Ok (VStr "Pilot").
Proof.
  intros item.
  assert (Hl : ledger_ok (Tvdb.shows session0_dvd)) by (split; [done | constructor]).
  destruct (dvd_numbers_take_precedence session0_dvd (KInt 76156) item []
              (KInt 2) (KInt 5) eq_refl eq_refl eq_refl)
    as (st' & E & _ & Hget & _); [|exact Hl|].
  - apply (bool_decide_unpack _). vm_compute. exact I.
  - destruct (Hget (KStr "episodeName") (VStr "Pilot")) as (r & Hr & Hf).
    { apply (bool_decide_unpack _). vm_compute. exact I. }
    exists st', r. split; [exact E|]. split; [exact Hr | exact Hf].
Defined.

(** ** Actors and banners *)

Lemma actor_fields_fresh (item : pydict key value) :
  NoDup (dkeys item) →
  foldl (λ (curActor : Actor) '(tag, v),
           dset tag
             (if bool_decide (v ≠ VNone) && bool_decide (tag = KStr "image")
              then url_artworkPrefix v else v)
             curActor)
        [] item
  = stored_actor item.
Proof.
  induction item as [|[tag v] item IH] using rev_ind; intros Hnd; [done|].
  unfold dkeys in Hnd. rewrite fmap_app in Hnd. apply NoDup_app in Hnd as (Hnd & Hnot & _).
  rewrite foldl_app, IH by done. simpl.
  unfold stored_actor. rewrite map_app. simpl.
  apply dset_absent. intros Hin. apply (Hnot tag); [|apply list_elem_of_here].
  unfold dkeys in Hin.
  apply list_elem_of_fmap in Hin as ([t' v'] & -> & Hin).
  apply list_elem_of_fmap. apply list_elem_of_In, in_map_iff in Hin as ([t0 v0] & [= <- <-] & Hin).
  exists (t0, v0). split; [done|]. by apply list_elem_of_In.
Qed.

(** X16.  [_parseActors] sends one request.  A reply without data raises
    [TypeError] and stores nothing.  Otherwise the show gets, under
    [_actors], one actor for each item of the reply, in the order of the
    reply, with the fields of the item; an [image] that is not null
    carries the artwork prefix.  The seasons of the show are untouched. *)
Theorem parseActors_stores_actors :
  ∀ w st sid,
    ledger_ok (Tvdb.shows st) →
    (actorsInfo_data w sid = None →
     Tvdb._parseActors w sid st = (Err TypeError, sending [ActorsInfo sid] st)) ∧
    (∀ items,
       actorsInfo_data w sid = Some items →
       Forall (λ item : pydict key value, NoDup (dkeys item)) items →
       ∃ st' sh,
         Tvdb._parseActors w sid st = (Ok tt, st') ∧
         show_at sid st' = Some sh ∧
         Show.__getitem__ sh (KStr "_actors")
         = match dget (KStr "_actors") (Show.seasons sh) with
           | Some s => Ok (Show.ISeason s)
           | None => Ok (Show.IData (DActors (map stored_actor items)))
           end ∧
         dget (KStr "_actors") (Show.data sh) = Some (DActors (map stored_actor items)) ∧
         Show.seasons sh = Show.seasons (default Show.__init__ (show_at sid st)) ∧
         Tvdb.requests st' = Tvdb.requests st ++ [ActorsInfo sid]).
Proof.
  intros w st sid Hl. split.
  - intros Hnone. unfold Tvdb._parseActors.
    by rewrite bind_unfold, getetsrc_eq, Hnone.
  - intros items Hitems Hnd. unfold Tvdb._parseActors.
    rewrite bind_unfold, getetsrc_eq, Hitems.
    set (sa := sending [ActorsInfo sid] st).
    assert (Emap : map (λ curActorItem : pydict key value,
                     foldl (λ (curActor : Actor) '(tag, v),
                              dset tag
                                (if bool_decide (v ≠ VNone)
                                    && bool_decide (tag = KStr "image")
                                 then url_artworkPrefix v else v)
                                curActor)
                           [] curActorItem) items
                   = map stored_actor items).
    { clear Hitems. induction Hnd as [|item items Hi _ IH]; [done|].
      cbn [map]. rewrite IH. f_equal. by apply actor_fields_fresh. }
    rewrite Emap.
    destruct (setShowData_spec sid (KStr "_actors") (DActors (map stored_actor items)) sa)
      as (st' & E & Hat & Hl'); [by apply sending_ledger|].
    pose proof (setShowData_same_session sid (KStr "_actors")
                  (DActors (map stored_actor items)) sa) as Hs.
    rewrite E in Hs. destruct Hs as (_ & _ & _ & Hreq). simpl in Hreq.
    eexists st', _. split; [exact E|]. split; [exact Hat|].
    unfold sa in *. rewrite sending_show_at.
    split; [|split; [|split]].
    + unfold Show.__getitem__. cbn [Show.seasons Show.data Show.set_data].
      destruct (dget (KStr "_actors") _); [done|]. by rewrite dget_dset_eq.
    + cbn [Show.data Show.set_data]. apply dget_dset_eq.
    + done.
    + rewrite Hreq. by destruct_session st.
Qed.

Lemma parseActors_witness :
  let w := {| getSeries_data := λ _, None; seriesInfo_data := λ _, None;
              seriesBanner_data := λ _, None; seriesBannerInfo_data := λ _ _, None;
              actorsInfo_data := λ _,
                Some [[(KStr "name", VStr "Zach Braff"); (KStr "image", VStr "actors/1.jpg")];
                      [(KStr "name", VStr "Donald Faison"); (KStr "image", VNone)]];
              epInfo_data := λ _, None;
              selectSeries := λ _ _, Err tvdb_shownotfound |} in
  ∃ st' sh,
    Tvdb._parseActors w (KInt 76156) session0 = (Ok tt, st') ∧
    show_at (KInt 76156) st' = Some sh ∧
    dget (KStr "_actors") (Show.data sh)
    = Some (DActors
              [[(KStr "name", VStr "Zach Braff");
                (KStr "image", VStr "http://thetvdb.com/banners/actors/1.jpg")];
               [(KStr "name", VStr "Donald Faison"); (KStr "image", VNone)]]).
Proof.
  intros w.
  assert (Hl : ledger_ok (Tvdb.shows session0)) by (split; [done | constructor]).
  destruct (parseActors_stores_actors w session0 (KInt 76156) Hl) as [_ Hsome].
  destruct (Hsome _ eq_refl) as (st' & sh & E & Hat & _ & Hd & _).
  - repeat constructor; apply (bool_decide_unpack _); vm_compute; exact I.
  - exists st', sh. split; [exact E|]. split; [exact Hat|].
    rewrite Hd. vm_compute. reflexivity.
Defined.

(** X17.  One pass of the inner loop of [_parseBanners].  An item
    without [keyType] or without [resolution], or with a null for one of
    them, changes nothing.  Any other item must have a [fileName], or
    [KeyError] is raised.  For a banner met for the first time the entry
    under its type, resolution and identifier holds the file name under
    [bannerpath] and the prefixed address under [_bannerpath]; for a
    banner met before, the pass also stores the old address, prefixed
    once more, under [__bannerpath]. *)
Theorem banner_entry_paths :
  ∀ (banners : Banners) (banner_info : pydict key value),
    let bid := dict_get (KStr "id") banner_info in
    let btype := dict_get (KStr "keyType") banner_info in
    let btype2 := dict_get (KStr "resolution") banner_info in
    (btype = VNone ∨ btype2 = VNone →
     Tvdb.banner_entry banners banner_info = Ok banners) ∧
    (btype ≠ VNone → btype2 ≠ VNone →
     (dget (KStr "fileName") banner_info = None →
      Tvdb.banner_entry banners banner_info = Err KeyError) ∧
     (∀ f, dget (KStr "fileName") banner_info = Some f →
        ∃ banners',
          Tvdb.banner_entry banners banner_info = Ok banners' ∧
          (banner_at btype btype2 bid banners = None →
           banner_at btype btype2 bid banners'
           = Some [("bannerpath"%string, f);
                   ("_bannerpath"%string, url_artworkPrefix f)]) ∧
          (∀ f0 p0,
             banner_at btype btype2 bid banners
             = Some [("bannerpath"%string, f0); ("_bannerpath"%string, p0)] →
             banner_at btype btype2 bid banners'
             = Some [("bannerpath"%string, f);
                     ("_bannerpath"%string, url_artworkPrefix f);
                     ("__bannerpath"%string, url_artworkPrefix p0)]))).
Proof.
  intros banners banner_info bid btype btype2. split.
  - intros Hnone. unfold Tvdb.banner_entry. fold btype btype2.
    destruct Hnone as [-> | ->]; [done|]. by rewrite orb_true_r.
  - intros H1 H2.
    assert (Eguard : bool_decide (btype = VNone) || bool_decide (btype2 = VNone) = false).
    { by rewrite !bool_decide_eq_false_2. }
    split.
    + intros Hfile. unfold Tvdb.banner_entry. fold btype btype2.
      rewrite Eguard. unfold dict_getitem. by rewrite Hfile.
    + intros f Hfile. unfold Tvdb.banner_entry. fold bid btype btype2.
      rewrite Eguard. unfold dict_getitem. rewrite Hfile.
      eexists. split; [reflexivity|].
      unfold banner_at. rewrite !dget_dset_eq. cbn [mbind option_bind].
      rewrite !dget_dset_eq. cbn [mbind option_bind]. rewrite !dget_dset_eq.
      split.
      * intros Hnew.
        assert (default [] (dget bid (default [] (dget btype2 (default [] (dget btype banners)))))
                = []) as ->.
        { destruct (dget btype banners) as [by_type|]; [|done]. simpl in *.
          destruct (dget btype2 by_type) as [by_res|]; [|done]. simpl in *.
          by rewrite Hnew. }
        done.
      * intros f0 p0 Hold.
        assert (default [] (dget bid (default [] (dget btype2 (default [] (dget btype banners)))))
                = [("bannerpath"%string, f0); ("_bannerpath"%string, p0)]) as ->.
        { destruct (dget btype banners) as [by_type|]; [|done]. simpl in *.
          destruct (dget btype2 by_type) as [by_res|]; [|done]. simpl in *.
          by rewrite Hold. }
        done.
Qed.

Lemma banner_entry_witness :
  let info := [(KStr "id", VInt 35308); (KStr "keyType", VStr "poster");
               (KStr "resolution", VStr "680x1000");
               (KStr "fileName", VStr "posters/76156-2.jpg")] in
  ∃ banners',
    Tvdb.banner_entry [] info = Ok banners' ∧
    banner_at (VStr "poster") (VStr "680x1000") (VInt 35308) banners'
    = Some [("bannerpath"%string, VStr "posters/76156-2.jpg");
            ("_bannerpath"%string,
             VStr "http://thetvdb.com/banners/posters/76156-2.jpg")].
Proof.
  intros info.
  destruct (banner_entry_paths [] info) as [_ Hsome].
  destruct Hsome as [_ Hfile]; [discriminate | discriminate |].
  destruct (Hfile (VStr "posters/76156-2.jpg") eq_refl) as (banners' & E & Hnew & _).
  exists banners'. split; [exact E|]. by apply Hnew.
Defined.

Lemma fold_result_app {A B} (l1 l2 : list A) (acc : B) (body : B → A → result B) :
  fold_result (l1 ++ l2) acc body
  = match fold_result l1 acc body with
    | Ok acc' => fold_result l2 acc' body
    | Err e => Err e
    end.
Proof.
  revert acc. induction l1 as [|x l1 IH]; intros acc; [done|].
  simpl. destruct (body acc x) as [acc'|e]; [apply IH | done].
Qed.

(** The outer loop of [_parseBanners]. *)
Lemma banner_types_loop w sid types banners0 banners st :
  ledger_ok (Tvdb.shows st) →
  Forall (λ t, is_Some (seriesBannerInfo_data w sid t)) types →
  fold_result (banner_items w sid types) banners0 Tvdb.banner_entry = Ok banners →
  ∃ st',
    fold_ types banners0 (λ banners cur_banner,
      banners_info ← Tvdb._getetsrc (SeriesBannerInfo sid cur_banner)
                       (seriesBannerInfo_data w sid cur_banner);
      match banners_info with
      | None => raise TypeError
      | Some infos =>
          banners ← of_result (fold_result infos banners Tvdb.banner_entry);
          Tvdb._setShowData sid (KStr "_banners") (DBanners banners);;
          mret banners
      end) st = (Ok banners, st') ∧
    ledger_ok (Tvdb.shows st') ∧
    same_session (sending (map (SeriesBannerInfo sid) types) st) st' ∧
    (types = [] → st' = st) ∧
    (types ≠ [] →
     show_at sid st'
     = Some (Show.set_data (dset (KStr "_banners") (DBanners banners))
               (default Show.__init__ (show_at sid st)))).
Proof.
  intros Hl Hall. revert banners0 st Hl.
  induction Hall as [|t types [infos Ht] _ IH]; intros banners0 st Hl Hfold.
  - simpl in Hfold. injection Hfold as <-. exists st.
    split; [done|]. split; [done|]. split; [by rewrite sending_nil|]. by split.
  - unfold banner_items in Hfold. cbn [mbind list_bind] in Hfold.
    rewrite Ht in Hfold. cbn [default] in Hfold. unfold id in Hfold.
    rewrite fold_result_app in Hfold.
    destruct (fold_result infos banners0 Tvdb.banner_entry) as [b1|e1] eqn:E1;
      rewrite ?E1 in Hfold; [|done].
    set (sa := sending [SeriesBannerInfo sid t] st).
    destruct (setShowData_spec sid (KStr "_banners") (DBanners b1) sa)
      as (sb & Eb & Hatb & Hlb); [by apply sending_ledger|].
    pose proof (setShowData_same_session sid (KStr "_banners") (DBanners b1) sa) as Hsb.
    rewrite Eb in Hsb. simpl in Hsb.
    destruct (IH b1 sb Hlb Hfold) as (st' & E' & Hl' & Hs' & Hnil & Hat').
    exists st'. split.
    { cbn [fold_]. rewrite bind_unfold, bind_unfold, getetsrc_eq, Ht. fold sa.
      rewrite bind_unfold. unfold of_result at 1. rewrite E1.
      rewrite bind_unfold, Eb. unfold mret at 1, M_ret at 1. exact E'. }
    split; [done|]. split.
    { etrans; [|exact Hs']. destruct Hsb as (Hc1 & Hc2 & Hc3 & Hc4).
      unfold sa in *. destruct st, sb. simpl in *. subst.
      repeat split. simpl. by rewrite <- app_assoc. }
    split; [done|]. intros _.
    assert (Hsa : show_at sid sa = show_at sid st) by apply sending_show_at.
    destruct types as [|t' types].
    + rewrite (Hnil eq_refl). simpl in Hfold. injection Hfold as <-.
      by rewrite Hatb, Hsa.
    + rewrite Hat' by done. rewrite Hatb, Hsa. f_equal.
      destruct (default Show.__init__ (show_at sid st)) as [seasons data].
      unfold Show.set_data. simpl. f_equal. apply dset_dset.
Qed.

(** X18.  [_parseBanners] asks for the image types of the show and then,
    for each type, for its banners.  A types reply without data raises
    [AttributeError]; one without types ends the method with nothing
    stored, so the show gets no [_banners] field.  Otherwise, when every
    type has a reply with data and every pass of the inner loop succeeds,
    the show holds under [_banners] what the passes over the items of all
    types, taken in order, build up, and the requests sent are the one for
    the types and one for each type. *)
Theorem parseBanners_collects :
  ∀ w st sid,
    ledger_ok (Tvdb.shows st) →
    (seriesBanner_data w sid = None →
     Tvdb._parseBanners w sid st = (Err AttributeError, sending [SeriesBanner sid] st)) ∧
    (seriesBanner_data w sid = Some [] →
     Tvdb._parseBanners w sid st = (Ok tt, sending [SeriesBanner sid] st) ∧
     show_at sid (sending [SeriesBanner sid] st) = show_at sid st) ∧
    (∀ types banners,
       seriesBanner_data w sid = Some types → types ≠ [] →
       Forall (λ t, is_Some (seriesBannerInfo_data w sid t)) types →
       fold_result (banner_items w sid types) [] Tvdb.banner_entry = Ok banners →
       ∃ st' sh,
         Tvdb._parseBanners w sid st = (Ok tt, st') ∧
         show_at sid st' = Some sh ∧
         dget (KStr "_banners") (Show.data sh) = Some (DBanners banners) ∧
         Show.seasons sh = Show.seasons (default Show.__init__ (show_at sid st)) ∧
         Tvdb.requests st'
         = Tvdb.requests st ++ SeriesBanner sid :: map (SeriesBannerInfo sid) types).
Proof.
  intros w st sid Hl. split; [|split].
  - intros Hnone. unfold Tvdb._parseBanners.
    by rewrite bind_unfold, getetsrc_eq, Hnone.
  - intros Hnil. split; [|apply sending_show_at].
    unfold Tvdb._parseBanners. by rewrite bind_unfold, getetsrc_eq, Hnil.
  - intros types banners Htypes Hne Hall Hfold.
    set (sa := sending [SeriesBanner sid] st).
    destruct (banner_types_loop w sid types [] banners sa)
      as (st' & E & Hl' & Hs & _ & Hat); [by apply sending_ledger|done|done|].
    specialize (Hat Hne). unfold sa in Hat. rewrite sending_show_at in Hat.
    eexists st', _. split.
    { unfold Tvdb._parseBanners. rewrite bind_unfold, getetsrc_eq, Htypes. fold sa.
      rewrite bind_unfold, E. done. }
    split; [exact Hat|]. split; [|split].
    + cbn [Show.data Show.set_data]. apply dget_dset_eq.
    + done.
    + destruct Hs as (_ & _ & _ & ->). unfold sa. rewrite sending_sending.
      by destruct_session st.
Qed.

Lemma parseBanners_witness :
  let info := [(KStr "id", VInt 35308); (KStr "keyType", VStr "poster");
               (KStr "resolution", VStr "680x1000");
               (KStr "fileName", VStr "posters/76156-2.jpg")] in
  let w := {| getSeries_data := λ _, None; seriesInfo_data := λ _, None;
              seriesBanner_data := λ _, Some [KStr "poster"; KStr "fanart"];
              seriesBannerInfo_data := λ _ t,
                if bool_decide (t = KStr "poster") then Some [info] else Some [];
              actorsInfo_data := λ _, None; epInfo_data := λ _, None;
              selectSeries := λ _ _, Err tvdb_shownotfound |} in
  ∃ st' sh banners,
    Tvdb._parseBanners w (KInt 76156) session0 = (Ok tt, st') ∧
    show_at (KInt 76156) st' = Some sh ∧
    dget (KStr "_banners") (Show.data sh) = Some (DBanners banners) ∧
    banner_at (VStr "poster") (VStr "680x1000") (VInt 35308) banners
    = Some [("bannerpath"%string, VStr "posters/76156-2.jpg");
            ("_bannerpath"%string,
             VStr "http://thetvdb.com/banners/posters/76156-2.jpg")] ∧
    Tvdb.requests st'
    = [SeriesBanner (KInt 76156); SeriesBannerInfo (KInt 76156) (KStr "poster");
       SeriesBannerInfo (KInt 76156) (KStr "fanart")].
Proof.
  intros info w.
  assert (Hl : ledger_ok (Tvdb.shows session0)) by (split; [done | constructor]).
  destruct (parseBanners_collects w session0 (KInt 76156) Hl) as (_ & _ & Hsome).
  destruct (Hsome [KStr "poster"; KStr "fanart"]
              [(VStr "poster",
                [(VStr "680x1000",
                  [(VInt 35308,
                    [("bannerpath"%string, VStr "posters/76156-2.jpg");
                     ("_bannerpath"%string,
                      VStr "http://thetvdb.com/banners/posters/76156-2.jpg")])])])]
              eq_refl)
    as (st' & sh & E & Hat & Hd & _ & Hreq).
  - discriminate.
  - repeat constructor; by eexists.
  - vm_compute. reflexivity.
  - eexists st', sh, _. split; [exact E|]. split; [exact Hat|]. split; [exact Hd|].
    split; [vm_compute; reflexivity | exact Hreq].
Defined.
